(** * mlflow.tracking._model_registry.fluent

    A shallow embedding of the fluent model-registry facade
    ([src/mlflow/tracking/_model_registry/fluent.py]) and the properties
    established for it.

    The facade is orchestration code: every interesting step is a call to
    an external collaborator (the registry client, the artifact repository,
    the tracing manager).  The embedding therefore threads an explicit
    interpreter state through every function.  The state holds the
    collaborator's own (abstract) state, the log of everything the facade
    did to the outside, the background threads it started and the
    module-level prompt cache.  Exceptions are an explicit outcome, and so
    is running forever ([while True] over a remote that never ends). *)

From Stdlib Require Import Ascii String.
From stdpp Require Import base option list strings gmap pretty.

Set Warnings "-register-all".

Local Open Scope string_scope.
Local Open Scope Z_scope.
Local Open Scope list_scope.

(** ** Python values used by the module *)

(** Exceptions, all of them instances of Python's [Exception].
    [MlflowException] carries its [error_code], the name of the protobuf
    enum member as [ErrorCode.Name] gives it. *)
Inductive exn : Type :=
  | MlflowException (message : string) (error_code : string)
  | KeyError (key : string)
  | ValueError (message : string)
  | TypeError (message : string)
  | OtherException (description : string).

Definition RESOURCE_ALREADY_EXISTS : string := "RESOURCE_ALREADY_EXISTS".
Definition ALREADY_EXISTS : string := "ALREADY_EXISTS".
Definition NOT_FOUND : string := "NOT_FOUND".
Definition INVALID_PARAMETER_VALUE : string := "INVALID_PARAMETER_VALUE".
Definition INTERNAL_ERROR : string := "INTERNAL_ERROR".

(** What a caller passes as [error_code]: a member of the protobuf enum
    [ErrorCode] (an [int], here known by its name), or a [str]. *)
Inductive error_code_arg : Type :=
  | Member (name : string)
  | Str (text : string).

(** [ErrorCode.Name(number)]: the name of the member with that number;
    [None] when it raises, which it does ([TypeError]) for an argument
    that is not an [int]. *)
Definition ErrorCode_Name (number : error_code_arg) : option string :=
  match number with
  | Member name => Some name
  | Str _ => None
  end.

(** [MlflowException(message, error_code=...)].  The constructor is in
    [mlflow/exceptions.py]: it keeps [ErrorCode.Name(error_code)], and the
    name of [INTERNAL_ERROR] when that raises [ValueError] or
    [TypeError]. *)
Definition new_MlflowException (message : string)
    (error_code : error_code_arg) : exn :=
  MlflowException message (default INTERNAL_ERROR (ErrorCode_Name error_code)).

(** [MlflowException.invalid_parameter_value(message)] *)
Definition invalid_parameter_value (message : string) : exn :=
  MlflowException message INVALID_PARAMETER_VALUE.

(** A result of a pure helper that may raise. *)
Definition result (A : Type) : Type := exn + A.

(** A version is a [str] or an [int] ([Union[str, int]]). *)
Inductive pyversion : Type :=
  | VStr (s : string)
  | VInt (z : Z).

#[export] Instance pyversion_eq_dec : EqDecision pyversion.
Proof. solve_decision. Defined.

(** [str(v)], as an f-string formats it. *)
Definition str_of_version (v : pyversion) : string :=
  match v with
  | VStr s => s
  | VInt z => pretty z
  end.

(** JSON documents, as [json.loads] builds them and [json.dumps] prints
    them. *)
Inductive json : Type :=
  | JNull
  | JBool (b : bool)
  | JInt (z : Z)
  | JFloat (digits : string)
  | JStr (s : string)
  | JList (l : list json)
  | JDict (fields : list (string * json)).

Definition json_of_version (v : pyversion) : json :=
  match v with
  | VStr s => JStr s
  | VInt z => JInt z
  end.

(** [type(v).__name__] of what [json.loads] returns. *)
Definition type_name (v : json) : string :=
  match v with
  | JNull => "NoneType"
  | JBool _ => "bool"
  | JInt _ => "int"
  | JFloat _ => "float"
  | JStr _ => "str"
  | JList _ => "list"
  | JDict _ => "dict"
  end.

(** The double-quote character, as [repr] and the messages print it. *)
Definition double_quote : string := String (Ascii.ascii_of_nat 34) EmptyString.

(** Truthiness of an [Optional[str]]: [None] and the empty string are falsy. *)
Definition truthy (o : option string) : bool :=
  match o with
  | Some s => negb (String.eqb s EmptyString)
  | None => false
  end.

(** ["@" in s] and the like: does the character occur in the string. *)
Fixpoint contains_char (c : Ascii.ascii) (s : string) : bool :=
  match s with
  | EmptyString => false
  | String c' s' => if Ascii.eqb c c' then true else contains_char c s'
  end.

(** [s.startswith(p)] *)
Definition startswith (p s : string) : bool := String.prefix p s.

(** ** Entities *)

Record RegisteredModel : Type := { rm_name : string }.

Record ModelVersion : Type := { mv_name : string; mv_version : pyversion }.

Record LoggedModel : Type := {
  model_id : string;
  lm_name : string;
  source_run_id : option string;
  lm_tags : gmap string string
}.

Record LoggedModelOutput : Type := { out_model_id : string; step : Z }.

Record RunInfo : Type := { run_id : string; experiment_id : string }.

(** [run.outputs] is [None] or an object with [model_outputs]. *)
Record Run : Type := {
  info : RunInfo;
  outputs : option (list LoggedModelOutput)
}.

Record FileInfo : Type := { path : string }.

Record PromptVersion : Type := { pv_name : string; pv_version : Z }.

(** [PagedList]: a list with the continuation [token] of the page. *)
Record PagedList (T : Type) : Type := {
  items : list T;
  token : option string
}.
Arguments items {T} _.
Arguments token {T} _.
Arguments Build_PagedList {T} _ _.

(** Arguments of [MlflowClient._create_model_version]. *)
Record CreateVersionArgs : Type := {
  cv_name : string;
  cv_source : string;
  cv_run_id : option string;
  cv_tags : option (gmap string string);
  cv_await_creation_for : option Z;
  cv_local_model_path : option string;
  cv_model_id : option string
}.

(** What the closure [_link_prompt_async] captures. *)
Record LinkTask : Type := {
  lt_name : string;
  lt_version : Z;
  lt_model_id : string
}.

(** ** The log of outward actions *)

(** Every call the facade makes to a collaborator, with its arguments. *)
Inductive Call : Type :=
  | Ccreate_registered_model (name : string)
  | CRunsArtifactRepository (model_uri : string)
  | C_list_run_artifacts (model_uri : string)
  | Cget_underlying_uri (model_uri : string)
  | Cget_run (rid : string)
  | Csearch_logged_models (experiment_ids : list string)
      (filter_string : string) (page_token : option string)
  | Cpack_env_enter (model_uri : string) (enforce_pip_requirements : bool)
  | Cpack_env_exit
  | Clog_model_artifacts (mid : option string) (local_dir : string)
  | C_create_model_version (args : CreateVersionArgs)
  | Cget_registry_uri
  | Cprint_model_urls_on_creation
  | Cget_workspace_url
  | Cget_workspace_id
  | Cget_logged_model (mid : string)
  | Cset_logged_model_tags (mid : string) (tags : gmap string string)
  | Cstage_model (model_name : string) (model_version : pyversion)
  | Csearch_registered_models (max_results : Z)
      (filter_string : option string) (order_by : option (list string))
      (page_token : option string)
  | Csearch_model_versions (max_results : Z)
      (filter_string : option string) (order_by : option (list string))
      (page_token : option string)
  | Crequire_prompt_registry
  | Cload_prompt (name_or_uri : string) (version : option pyversion)
      (allow_missing : bool)
  | Cactive_run
  | Cget_active_model_id
  | Cget_active_trace_id
  | Clink_prompt_version_to_run (rid : string) (prompt_uri : string)
  | Clink_prompt_version_to_model (name : string) (version : Z)
      (mid : string)
  | Ctrace_register_prompt (trace_id : string) (prompt : PromptVersion).

Inductive Event : Type :=
  | ECall (c : Call)
  | EEprint (message : string)
  | ELogWarning (message : string) (exc_info : option exn)
  | EFutureWarning (message : string)
  | EThreadStart (task : LinkTask).

(** ** The interpreter state and the monad *)

(** Key of [functools.lru_cache] on [_load_prompt_cached]: the three
    keyword arguments. *)
Definition CacheKey : Type := (string * option pyversion * bool)%type.

Record State (W : Type) : Type := {
  world : W;
  events : list Event;
  threads : list LinkTask;
  prompt_cache : list (CacheKey * option PromptVersion)
}.
Arguments world {W} _.
Arguments events {W} _.
Arguments threads {W} _.
Arguments prompt_cache {W} _.
Arguments Build_State {W} _ _ _ _.

(** A computation returns, raises, or never comes back. *)
Inductive Outcome (W A : Type) : Type :=
  | Return (a : A) (s : State W)
  | Raise (e : exn) (s : State W)
  | Diverge.
Arguments Return {W A} _ _.
Arguments Raise {W A} _ _.
Arguments Diverge {W A}.

Definition M (W A : Type) : Type := State W -> Outcome W A.

Definition ret {W A} (a : A) : M W A := fun s => Return a s.

Definition bind {W A B} (k : A -> M W B) (m : M W A) : M W B :=
  fun s =>
    match m s with
    | Return a s' => k a s'
    | Raise e s' => Raise e s'
    | Diverge => Diverge
    end.

#[export] Instance M_ret {W} : MRet (M W) := @ret W.
#[export] Instance M_bind {W} : MBind (M W) := @bind W.

(** [raise e] *)
Definition raise {W A} (e : exn) : M W A := fun s => Raise e s.

(** A loop that has used up its fuel. *)
Definition diverge {W A} : M W A := fun _ => Diverge.

(** [try: body  except Exception as e: handler e] *)
Definition try_except {W A} (body : M W A) (handler : exn -> M W A) : M W A :=
  fun s =>
    match body s with
    | Return a s' => Return a s'
    | Raise e s' => handler e s'
    | Diverge => Diverge
    end.

(** [try: body  finally: cleanup], the shape of a [with] block whose
    context manager does not swallow the exception. *)
Definition try_finally {W A} (body : M W A) (cleanup : M W unit) : M W A :=
  fun s =>
    match body s with
    | Return a s' =>
        match cleanup s' with
        | Return _ s'' => Return a s''
        | Raise e s'' => Raise e s''
        | Diverge => Diverge
        end
    | Raise e s' =>
        match cleanup s' with
        | Return _ s'' => Raise e s''
        | Raise e' s'' => Raise e' s''
        | Diverge => Diverge
        end
    | Diverge => Diverge
    end.

(** A pure helper that may raise. *)
Definition lift {W A} (r : result A) : M W A :=
  match r with
  | inl e => raise e
  | inr a => ret a
  end.

(** The state after one more entry in the log, and after the world has
    moved on. *)
Definition record {W} (ev : Event) (s : State W) : State W :=
  Build_State (world s) (events s ++ [ev]) (threads s) (prompt_cache s).

Definition set_world {W} (w : W) (s : State W) : State W :=
  Build_State w (events s) (threads s) (prompt_cache s).

Definition emit {W} (ev : Event) : M W unit :=
  fun s => Return tt (record ev s).

(** A call to a collaborator: logged, then answered by the world. *)
Definition invoke {W A} (c : Call) (op : W -> result A * W) : M W A :=
  fun s =>
    match op (world s) with
    | (inr a, w') => Return a (set_world w' (record (ECall c) s))
    | (inl e, w') => Raise e (set_world w' (record (ECall c) s))
    end.

(** [eprint(message)] *)
Definition eprint {W} (message : string) : M W unit := emit (EEprint message).

(** [_logger.warning(message)] and [_logger.warn(message, exc_info=True)] *)
Definition logger_warning {W} (message : string) (exc_info : option exn)
  : M W unit := emit (ELogWarning message exc_info).

(** [warnings.warn(message, category=FutureWarning)] *)
Definition warnings_warn {W} (message : string) : M W unit :=
  emit (EFutureWarning message).

(** [threading.Thread(target=target).start()].  The thread is recorded as
    started.  When its body runs is the scheduler's choice: with [eager]
    the body runs to its end before the caller goes on, otherwise it is
    left for later.  An exception that leaves the body ends the thread and
    nothing else: it is not raised in the caller. *)
Definition thread_start {W} (eager : bool) (target : LinkTask -> M W unit)
    (task : LinkTask) : M W unit :=
  fun s =>
    let s1 := Build_State (world s) (events s ++ [EThreadStart task])
                (threads s ++ [task]) (prompt_cache s) in
    if eager then
      match target task s1 with
      | Return _ s2 => Return tt s2
      | Raise _ s2 => Return tt s2
      | Diverge => Return tt s1
      end
    else Return tt s1.

(** ** What the module imports *)

(** Constants and pure helpers of other modules: their values and code are
    not part of this file, so they are parameters of the development. *)
Class Env : Type := {
  (** [mlflow.models.model.MLMODEL_FILE_NAME] *)
  MLMODEL_FILE_NAME : string;
  (** [mlflow.utils.mlflow_tags.MLFLOW_MODEL_VERSIONS] *)
  MLFLOW_MODEL_VERSIONS : string;
  SEARCH_MODEL_VERSION_MAX_RESULTS_DEFAULT : Z;
  SEARCH_REGISTERED_MODEL_MAX_RESULTS_DEFAULT : Z;
  (** [MLFLOW_PROMPT_CACHE_MAX_SIZE.get()], read once at import time *)
  MLFLOW_PROMPT_CACHE_MAX_SIZE : Z;
  (** [RunsArtifactRepository.is_runs_uri] and [parse_runs_uri] *)
  is_runs_uri : string -> bool;
  parse_runs_uri : string -> result (string * string);
  _parse_model_id_if_present : string -> result (option string);
  is_databricks_unity_catalog_uri : string -> bool;
  _construct_databricks_uc_registered_model_url :
    string -> string -> pyversion -> option string -> string;
  parse_prompt_name_or_uri :
    string -> option pyversion -> result (string * option pyversion);
  json_loads : string -> result json;
  json_dumps : json -> string;
  (** [repr] of a [str], the [!r] of an f-string *)
  repr : string -> string
}.

(** The collaborators with effects: the registry and tracking client, the
    artifact repository, the Databricks helpers, the fluent tracking state
    and the trace manager.  Each takes the collaborator's state and gives
    back a value or an exception, and the next state. *)
Class MlflowClient (W : Type) : Type := {
  client_create_registered_model : string -> W -> result RegisteredModel * W;
  client_RunsArtifactRepository : string -> W -> result unit * W;
  client_list_run_artifacts : string -> W -> result (list FileInfo) * W;
  client_get_underlying_uri : string -> W -> result string * W;
  client_get_run : string -> W -> result Run * W;
  client_search_logged_models :
    list string -> string -> option string ->
    W -> result (PagedList LoggedModel) * W;
  client_pack_env_enter : string -> bool -> W -> result string * W;
  client_pack_env_exit : W -> result unit * W;
  client_log_model_artifacts :
    option string -> string -> W -> result unit * W;
  client_create_model_version :
    CreateVersionArgs -> W -> result ModelVersion * W;
  client_get_registry_uri : W -> result string * W;
  client_print_model_urls_on_creation : W -> result bool * W;
  client_get_workspace_url : W -> result (option string) * W;
  client_get_workspace_id : W -> result (option string) * W;
  client_get_logged_model : string -> W -> result LoggedModel * W;
  client_set_logged_model_tags :
    string -> gmap string string -> W -> result unit * W;
  client_stage_model : string -> pyversion -> W -> result unit * W;
  client_search_registered_models :
    Z -> option string -> option (list string) -> option string ->
    W -> result (PagedList RegisteredModel) * W;
  client_search_model_versions :
    Z -> option string -> option (list string) -> option string ->
    W -> result (PagedList ModelVersion) * W;
  client_require_prompt_registry : W -> result unit * W;
  client_load_prompt :
    string -> option pyversion -> bool ->
    W -> result (option PromptVersion) * W;
  client_active_run : W -> result (option Run) * W;
  client_get_active_model_id : W -> result (option string) * W;
  client_get_active_trace_id : W -> result (option string) * W;
  client_link_prompt_version_to_run : string -> string -> W -> result unit * W;
  client_link_prompt_version_to_model :
    string -> Z -> string -> W -> result unit * W;
  client_trace_register_prompt :
    string -> PromptVersion -> W -> result unit * W
}.

(** The calls as the facade writes them: each is logged with its arguments
    and answered by the world. *)
Module client.
Section Calls.
Context {W : Type} `{!MlflowClient W}.

Definition create_registered_model (name : string) : M W RegisteredModel :=
invoke (Ccreate_registered_model name)
  (client_create_registered_model name).

Definition RunsArtifactRepository (model_uri : string) : M W unit :=
invoke (CRunsArtifactRepository model_uri)
  (client_RunsArtifactRepository model_uri).

Definition _list_run_artifacts (model_uri : string) : M W (list FileInfo) :=
invoke (C_list_run_artifacts model_uri)
  (client_list_run_artifacts model_uri).

Definition get_underlying_uri (model_uri : string) : M W string :=
invoke (Cget_underlying_uri model_uri)
  (client_get_underlying_uri model_uri).

Definition get_run (rid : string) : M W Run :=
invoke (Cget_run rid) (client_get_run rid).

Definition search_logged_models (experiment_ids : list string)
  (filter_string : string) (page_token : option string)
: M W (PagedList LoggedModel) :=
invoke (Csearch_logged_models experiment_ids filter_string page_token)
  (client_search_logged_models experiment_ids filter_string page_token).

Definition log_model_artifacts (mid : option string) (local_dir : string)
: M W unit :=
invoke (Clog_model_artifacts mid local_dir)
  (client_log_model_artifacts mid local_dir).

Definition _create_model_version (args : CreateVersionArgs)
: M W ModelVersion :=
invoke (C_create_model_version args) (client_create_model_version args).

Definition get_logged_model (mid : string) : M W LoggedModel :=
invoke (Cget_logged_model mid) (client_get_logged_model mid).

Definition set_logged_model_tags (mid : string) (tags : gmap string string)
: M W unit :=
invoke (Cset_logged_model_tags mid tags)
  (client_set_logged_model_tags mid tags).

Definition search_registered_models (max_results : Z)
  (filter_string : option string) (order_by : option (list string))
  (page_token : option string) : M W (PagedList RegisteredModel) :=
invoke
  (Csearch_registered_models max_results filter_string order_by page_token)
  (client_search_registered_models max_results filter_string order_by
     page_token).

Definition search_model_versions (max_results : Z)
  (filter_string : option string) (order_by : option (list string))
  (page_token : option string) : M W (PagedList ModelVersion) :=
invoke
  (Csearch_model_versions max_results filter_string order_by page_token)
  (client_search_model_versions max_results filter_string order_by
     page_token).

Definition load_prompt (name_or_uri : string) (version : option pyversion)
  (allow_missing : bool) : M W (option PromptVersion) :=
invoke (Cload_prompt name_or_uri version allow_missing)
  (client_load_prompt name_or_uri version allow_missing).

Definition link_prompt_version_to_run (rid prompt_uri : string) : M W unit :=
invoke (Clink_prompt_version_to_run rid prompt_uri)
  (client_link_prompt_version_to_run rid prompt_uri).

Definition link_prompt_version_to_model (name : string) (version : Z)
  (mid : string) : M W unit :=
invoke (Clink_prompt_version_to_model name version mid)
  (client_link_prompt_version_to_model name version mid).
End Calls.
End client.

(** The module-level functions the facade imports. *)
Section Imports.
Context {W : Type} `{!MlflowClient W}.

Definition pack_env_enter (model_uri : string) (enforce : bool)
  : M W string :=
  invoke (Cpack_env_enter model_uri enforce)
    (client_pack_env_enter model_uri enforce).

Definition pack_env_exit : M W unit :=
  invoke Cpack_env_exit client_pack_env_exit.

Definition get_registry_uri : M W string :=
  invoke Cget_registry_uri client_get_registry_uri.

Definition MLFLOW_PRINT_MODEL_URLS_ON_CREATION_get : M W bool :=
  invoke Cprint_model_urls_on_creation client_print_model_urls_on_creation.

Definition get_workspace_url : M W (option string) :=
  invoke Cget_workspace_url client_get_workspace_url.

Definition get_workspace_id : M W (option string) :=
  invoke Cget_workspace_id client_get_workspace_id.

Definition stage_model_for_databricks_model_serving (model_name : string)
    (model_version : pyversion) : M W unit :=
  invoke (Cstage_model model_name model_version)
    (client_stage_model model_name model_version).

Definition require_prompt_registry : M W unit :=
  invoke Crequire_prompt_registry client_require_prompt_registry.

Definition active_run : M W (option Run) :=
  invoke Cactive_run client_active_run.

Definition get_active_model_id : M W (option string) :=
  invoke Cget_active_model_id client_get_active_model_id.

Definition get_active_trace_id : M W (option string) :=
  invoke Cget_active_trace_id client_get_active_trace_id.

Definition trace_register_prompt (trace_id : string)
    (prompt : PromptVersion) : M W unit :=
  invoke (Ctrace_register_prompt trace_id prompt)
    (client_trace_register_prompt trace_id prompt).
End Imports.

(** ** The functions of the module *)

Section Fluent.
Context {W : Type} `{!MlflowClient W} `{!Env}.

(** [_get_logged_models_from_run], lines 279-304.  [fuel] bounds the
    number of turns of [while True]. *)
Fixpoint _get_logged_models_loop (fuel : nat) (source_run : Run)
    (model_name : string) (logged_models : list LoggedModel)
    (page_token : option string) : M W (list LoggedModel) :=
  match fuel with
  | O => diverge
  | S fuel' =>
      logged_models_page ←
        client.search_logged_models
          [experiment_id (info source_run)]
          ("name = '" +:+ model_name +:+ "'")
          page_token;
      let logged_models :=
        logged_models ++
        filter (λ m, source_run_id m = Some (run_id (info source_run)))
               (items logged_models_page) in
      if negb (truthy (token logged_models_page))
      then mret logged_models
      else _get_logged_models_loop fuel' source_run model_name
             logged_models (token logged_models_page)
  end.

Definition _get_logged_models_from_run (fuel : nat) (source_run : Run)
    (model_name : string) : M W (list LoggedModel) :=
  _get_logged_models_loop fuel source_run model_name [] None.

(** *** [_register_model], lines 136-276

    The body is cut at its blank lines into the blocks below, which
    [_register_model] runs one after the other. *)

(** Lines 146-158: create the registered model, or find it there. *)
Definition create_or_reuse_registered_model (name : string) : M W unit :=
  try_except
    (create_model_response ← client.create_registered_model name;
     eprint ("Successfully registered model '" +:+
             rm_name create_model_response +:+ "'."))
    (λ e,
       match e with
       | MlflowException _ code =>
           if bool_decide (code ∈ [RESOURCE_ALREADY_EXISTS; ALREADY_EXISTS])
           then eprint ("Registered model " +:+ repr name +:+
                        " already exists. Creating a new version of this model...")
           else raise e
       | _ => raise e
       end).

(** [{m_o.model_id: m_o.step for m_o in model_outputs}]: a later entry
    for the same id replaces the earlier one. *)
Definition model_id_to_step_of (model_outputs : list LoggedModelOutput)
  : gmap string Z :=
  foldl (λ d m_o, <[out_model_id m_o := step m_o]> d) ∅ model_outputs.

(** [d[k]] *)
Definition getitem (d : gmap string Z) (k : string) : result Z :=
  match d !! k with
  | Some v => inr v
  | None => inl (KeyError k)
  end.

(** [max(iterable, key=key)]: the first of the items with the greatest
    key; an exception of [key] ends it. *)
Fixpoint max_loop {A} (key : A -> result Z) (maxitem : A) (maxval : Z)
    (rest : list A) : result A :=
  match rest with
  | [] => inr maxitem
  | item :: rest' =>
      match key item with
      | inl e => inl e
      | inr val =>
          if (maxval <? val)%Z
          then max_loop key item val rest'
          else max_loop key maxitem maxval rest'
      end
  end.

Definition py_max {A} (key : A -> result Z) (l : list A) : result A :=
  match l with
  | [] => inl (ValueError "max() arg is an empty sequence")
  | item :: rest =>
      match key item with
      | inl e => inl e
      | inr val => max_loop key item val rest
      end
  end.

(** Lines 177-193: which of the logged models found is registered.  On
    line 181 the constructor is given [ErrorCode.Name(NOT_FOUND)], a
    [str], where line 185 goes through [invalid_parameter_value], which
    gives it the enum member. *)
Definition select_logged_model (run : Run) (rid artifact_path : string)
    (logged_models : list LoggedModel) : result string :=
  match logged_models with
  | [] =>
      inl (new_MlflowException
             ("Unable to find a logged_model with artifact_path " +:+
              artifact_path +:+ " under run " +:+ rid)
             (Str NOT_FOUND))
  | first :: _ =>
      if (1 <? length logged_models)%nat then
        match outputs run with
        | None =>
            inl (invalid_parameter_value
                   ("Multiple logged models found for run " +:+ rid +:+
                    ". Cannot determine which model to register. " +:+
                    "Please use `models:/<model_id>` instead."))
        | Some model_outputs =>
            let model_id_to_step := model_id_to_step_of model_outputs in
            match py_max (λ lm, getitem model_id_to_step (model_id lm))
                    logged_models with
            | inl e => inl e
            | inr lm => inr (model_id lm)
            end
        end
      else inr (model_id first)
  end.

(** Lines 160-198: [run_id], [model_id] and [source] of the version. *)
Definition resolve_source (fuel : nat) (model_uri : string)
  : M W (option string * option string * string) :=
  if is_runs_uri model_uri then
    '(rid, artifact_path) ← lift (parse_runs_uri model_uri);
    client.RunsArtifactRepository model_uri;;
    artifacts ← client._list_run_artifacts model_uri;
    if bool_decide (MLMODEL_FILE_NAME ∈ path <$> artifacts) then
      source ← client.get_underlying_uri model_uri;
      mret (Some rid, None, source)
    else
      run ← client.get_run rid;
      logged_models ← _get_logged_models_from_run fuel run artifact_path;
      mid ← lift (select_logged_model run rid artifact_path logged_models);
      let source := "models:/" +:+ mid in
      logger_warning
        ("Run with id " +:+ rid +:+ " has no artifacts at artifact path " +:+
         repr artifact_path +:+ ", registering model based on " +:+
         source +:+ " instead") None;;
      mret (Some rid, Some mid, source)
  else mret (None, None, model_uri).

(** Lines 203-209 *)
Definition pack_environment (env_pack : option string)
    (model_uri : string) (mid : option string) : M W unit :=
  if bool_decide (env_pack = Some "databricks_model_serving") then
    eprint "Packing environment for Databricks Model Serving...";;
    artifacts_path_with_env ← pack_env_enter model_uri true;
    try_finally
      (client.log_model_artifacts mid artifacts_path_with_env)
      pack_env_exit
  else mret tt.

(** Lines 220-240 *)
Definition print_created_message (create_version_response : ModelVersion)
  : M W unit :=
  let created_message :=
    "Created version '" +:+
    str_of_version (mv_version create_version_response) +:+
    "' of model '" +:+ mv_name create_version_response +:+ "'" in
  registry_uri ← get_registry_uri;
  print_urls ← MLFLOW_PRINT_MODEL_URLS_ON_CREATION_get;
  url ← (if print_urls && is_databricks_unity_catalog_uri registry_uri
         then get_workspace_url else mret None);
  match url with
  | Some u =>
      if truthy url then
        workspace_id ← get_workspace_id;
        let uc_model_url :=
          _construct_databricks_uc_registered_model_url u
            (mv_name create_version_response)
            (mv_version create_version_response) workspace_id in
        eprint ("🔗 " +:+ created_message +:+ ": " +:+ uc_model_url)
      else eprint (created_message +:+ ".")
  | None => eprint (created_message +:+ ".")
  end.

(** [left + new_value], where [new_value] is a [list]: two lists are
    concatenated; a [str] on the left refuses what is not a [str]; the
    other types have no [+] with a [list]. *)
Definition add_list (left : json) (new_value : list json)
  : result (list json) :=
  match left with
  | JList l => inr (l ++ new_value)
  | JStr _ =>
      inl (TypeError ("can only concatenate str (not " +:+ double_quote +:+
                      "list" +:+ double_quote +:+ ") to str"))
  | _ =>
      inl (TypeError ("unsupported operand type(s) for +: '" +:+
                      type_name left +:+ "' and 'list'"))
  end.

(** [json.loads(existing_value) + new_value] *)
Definition loads_and_append (existing_value : string) (new_value : list json)
  : result (list json) :=
  match json_loads existing_value with
  | inl e => inl e
  | inr loaded => add_list loaded new_value
  end.

(** Lines 242-256: note the new version on the logged model. *)
Definition record_model_version (mid : option string)
    (create_version_response : ModelVersion) : M W unit :=
  match mid with
  | Some mid' =>
      if truthy mid then
        let new_value :=
          [JDict [("name", JStr (mv_name create_version_response));
                  ("version",
                   json_of_version (mv_version create_version_response))]] in
        model ← client.get_logged_model mid';
        new_value ←
          (let existing_value := lm_tags model !! MLFLOW_MODEL_VERSIONS in
           match existing_value with
           | Some v =>
               if truthy existing_value
               then lift (loads_and_append v new_value)
               else mret new_value
           | None => mret new_value
           end);
        client.set_logged_model_tags mid'
          {[ MLFLOW_MODEL_VERSIONS := json_dumps (JList new_value) ]}
      else mret tt
  | None => mret tt
  end.

(** [str(e)] *)
Definition str_of_exn (e : exn) : string :=
  match e with
  | MlflowException message _ => message
  | KeyError key => repr key
  | ValueError message => message
  | TypeError message => message
  | OtherException description => description
  end.

(** Lines 258-274 *)
Definition stage_for_serving (env_pack : option string)
    (create_version_response : ModelVersion) : M W unit :=
  if bool_decide (env_pack = Some "databricks_model_serving") then
    eprint ("Staging model " +:+ mv_name create_version_response +:+
            " version " +:+
            str_of_version (mv_version create_version_response) +:+
            " for Databricks Model Serving...");;
    try_except
      (stage_model_for_databricks_model_serving
         (mv_name create_version_response)
         (mv_version create_version_response))
      (λ e,
         eprint ("Failed to stage model for Databricks Model Serving: " +:+
                 str_of_exn e +:+
                 ". The model was registered successfully and is available " +:+
                 "for serving, but may take longer to deploy."))
  else mret tt.

(** Lines 200-276: everything after [source] is known. *)
Definition register_version (model_uri name : string)
    (await_registration_for : option Z)
    (tags : option (gmap string string)) (local_model_path : option string)
    (env_pack : option string)
    (resolved : option string * option string * string)
  : M W ModelVersion :=
  let '(rid, mid, source) := resolved in
  mid ← (if negb (truthy mid)
         then lift (_parse_model_id_if_present model_uri)
         else mret mid);
  pack_environment env_pack model_uri mid;;
  create_version_response ←
    client._create_model_version
      {| cv_name := name;
         cv_source := source;
         cv_run_id := rid;
         cv_tags := tags;
         cv_await_creation_for := await_registration_for;
         cv_local_model_path := local_model_path;
         cv_model_id := mid |};
  print_created_message create_version_response;;
  record_model_version mid create_version_response;;
  stage_for_serving env_pack create_version_response;;
  mret create_version_response.

Definition _register_model (fuel : nat) (model_uri name : string)
    (await_registration_for : option Z)
    (tags : option (gmap string string)) (local_model_path : option string)
    (env_pack : option string) : M W ModelVersion :=
  create_or_reuse_registered_model name;;
  resolved ← resolve_source fuel model_uri;
  register_version model_uri name await_registration_for tags
    local_model_path env_pack resolved.

Definition register_model (fuel : nat) (model_uri name : string)
    (await_registration_for : option Z)
    (tags : option (gmap string string)) (env_pack : option string)
  : M W ModelVersion :=
  _register_model fuel model_uri name await_registration_for tags None
    env_pack.

(** *** The paginated searches, lines 307-506 and 625-645 *)

(** Modelled from the spec: [mlflow.utils.get_results_from_paginated_fn],
    which the searches call and whose code is in another file.  This is
    the PaginatedAggregator of the specification (section 4.1): a running
    total and a cursor that starts as none; each turn asks for
    [min(per_call_cap, remaining)] items, where [remaining] is
    [max_results - total] or [per_call_cap] when unbounded, appends the
    page, takes its cursor, and stops when the cursor is empty or the
    total equals [max_results]. *)
Definition num_to_get (max_results_per_page : Z) (max_results : option Z)
    (total : nat) : Z :=
  let remaining :=
    match max_results with
    | Some k => k - Z.of_nat total
    | None => max_results_per_page
    end in
  Z.min max_results_per_page remaining.

Fixpoint paginated_loop {T} (fuel : nat)
    (paginated_fn : Z -> option string -> M W (PagedList T))
    (max_results_per_page : Z) (max_results : option Z)
    (all_results : list T) (next_page_token : option string)
  : M W (list T) :=
  match fuel with
  | O => diverge
  | S fuel' =>
      page_results ←
        paginated_fn
          (num_to_get max_results_per_page max_results (length all_results))
          next_page_token;
      let all_results := all_results ++ items page_results in
      let next_page_token := token page_results in
      if negb (truthy next_page_token)
         || bool_decide (max_results = Some (Z.of_nat (length all_results)))
      then mret all_results
      else paginated_loop fuel' paginated_fn max_results_per_page
             max_results all_results next_page_token
  end.

Definition get_results_from_paginated_fn {T} (fuel : nat)
    (paginated_fn : Z -> option string -> M W (PagedList T))
    (max_results_per_page : Z) (max_results : option Z) : M W (list T) :=
  paginated_loop fuel paginated_fn max_results_per_page max_results [] None.

Definition search_registered_models (fuel : nat) (max_results : option Z)
    (filter_string : option string) (order_by : option (list string))
  : M W (list RegisteredModel) :=
  let pagination_wrapper_func number_to_get next_page_token :=
    client.search_registered_models number_to_get filter_string order_by
      next_page_token in
  get_results_from_paginated_fn fuel pagination_wrapper_func
    SEARCH_REGISTERED_MODEL_MAX_RESULTS_DEFAULT max_results.

Definition search_model_versions (fuel : nat) (max_results : option Z)
    (filter_string : option string) (order_by : option (list string))
  : M W (list ModelVersion) :=
  let pagination_wrapper_func number_to_get next_page_token :=
    client.search_model_versions number_to_get filter_string order_by
      next_page_token in
  get_results_from_paginated_fn fuel pagination_wrapper_func
    SEARCH_MODEL_VERSION_MAX_RESULTS_DEFAULT max_results.

(** *** Prompts, lines 648-798 *)

Definition PROMPT_API_MIGRATION_MSG (func_name : string) : string :=
  "The `mlflow." +:+ func_name +:+
  "` API is moved to the `mlflow.genai` namespace. Please use " +:+
  "`mlflow.genai." +:+ func_name +:+
  "` instead. The original API will be removed in the " +:+
  "future release.".

(** [_load_prompt_not_cached], lines 779-798 *)
Definition _load_prompt_not_cached (name_or_uri : string)
    (version : option pyversion) (allow_missing : bool)
  : M W (option PromptVersion) :=
  '(parsed_name_or_uri, parsed_version) ←
    lift (parse_prompt_name_or_uri name_or_uri version);
  if startswith "prompts:/" parsed_name_or_uri
  then client.load_prompt parsed_name_or_uri None allow_missing
  else client.load_prompt parsed_name_or_uri parsed_version allow_missing.

(** [functools.lru_cache(maxsize=n)] over a function of the key: the
    cache is a list, most recently used first.  A hit moves the entry to
    the front and calls nothing; a miss calls the function and, if it
    returns, stores the value, dropping the least recently used entry
    when the cache is full.  With [maxsize <= 0] there is no cache and
    every call goes to the function. *)
Definition cache_find (key : CacheKey)
    (cache : list (CacheKey * option PromptVersion))
  : option (option PromptVersion) :=
  (λ found, snd (snd found)) <$> list_find (λ kv, fst kv = key) cache.

Definition set_prompt_cache (cache : list (CacheKey * option PromptVersion))
  : M W unit :=
  fun s => Return tt (Build_State (world s) (events s) (threads s) cache).

Definition get_prompt_cache : M W (list (CacheKey * option PromptVersion)) :=
  fun s => Return (prompt_cache s) s.

Definition lru_cache (maxsize : Z)
    (f : CacheKey -> M W (option PromptVersion)) (key : CacheKey)
  : M W (option PromptVersion) :=
  if bool_decide (maxsize ≤ 0) then f key
  else
    cache ← get_prompt_cache;
    match cache_find key cache with
    | Some value =>
        set_prompt_cache
          ((key, value) :: filter (λ kv, fst kv ≠ key) cache);;
        mret value
    | None =>
        value ← f key;
        cache ← get_prompt_cache;
        match cache_find key cache with
        | Some _ => mret tt
        | None =>
            set_prompt_cache (take (Z.to_nat maxsize) ((key, value) :: cache))
        end;;
        mret value
    end.

(** [_load_prompt_cached], lines 767-776 *)
Definition _load_prompt_cached (name_or_uri : string)
    (version : option pyversion) (allow_missing : bool)
  : M W (option PromptVersion) :=
  lru_cache MLFLOW_PROMPT_CACHE_MAX_SIZE
    (λ '(name_or_uri, version, allow_missing),
       _load_prompt_not_cached name_or_uri version allow_missing)
    (name_or_uri, version, allow_missing).

(** [_link_prompt_async], lines 736-750: the body of the thread. *)
Definition _link_prompt_async (task : LinkTask) : M W unit :=
  try_except
    (client.link_prompt_version_to_model (lt_name task) (lt_version task)
       (lt_model_id task))
    (λ e,
       logger_warning
         ("Failed to link prompt '" +:+ lt_name task +:+ "' version '" +:+
          pretty (lt_version task) +:+ "' to model '" +:+
          lt_model_id task +:+ "'.")
         (Some e)).

(** Lines 693-713: the lookup. *)
Definition lookup_prompt (name_or_uri : string)
    (version : option pyversion) (allow_missing : bool)
  : M W (option PromptVersion) :=
  if contains_char "@"%char name_or_uri then
    _load_prompt_not_cached name_or_uri version allow_missing
  else
    cached ← _load_prompt_cached name_or_uri version allow_missing;
    match cached with
    | Some prompt => mret (Some prompt)
    | None => _load_prompt_not_cached name_or_uri version allow_missing
    end.

(** Lines 714-764: what is done with the result of the lookup. *)
Definition after_lookup (eager : bool) (link_to_model : bool)
    (mid : option string) (prompt : option PromptVersion)
  : M W (option PromptVersion) :=
  match prompt with
  | None => mret None
  | Some prompt =>
      run ← active_run;
      match run with
      | Some run =>
          client.link_prompt_version_to_run (run_id (info run))
            ("prompts:/" +:+ pv_name prompt +:+ "/" +:+
             pretty (pv_version prompt))
      | None => mret tt
      end;;
      (if link_to_model then
         mid ← (if truthy mid then mret mid else get_active_model_id);
         match mid with
         | Some mid' =>
             thread_start eager _link_prompt_async
               {| lt_name := pv_name prompt;
                  lt_version := pv_version prompt;
                  lt_model_id := mid' |}
         | None => mret tt
         end
       else mret tt);;
      trace_id ← get_active_trace_id;
      match trace_id with
      | Some t =>
          if truthy trace_id then trace_register_prompt t prompt
          else mret tt
      | None => mret tt
      end;;
      mret (Some prompt)
  end.

(** [load_prompt], lines 648-764, with its decorator.  [eager] is the
    scheduler's choice for the thread the function may start. *)
Definition load_prompt (eager : bool) (name_or_uri : string)
    (version : option pyversion) (allow_missing : bool)
    (link_to_model : bool) (mid : option string)
  : M W (option PromptVersion) :=
  require_prompt_registry;;
  warnings_warn (PROMPT_API_MIGRATION_MSG "load_prompt");;
  prompt ← lookup_prompt name_or_uri version allow_missing;
  after_lookup eager link_to_model mid prompt.

End Fluent.

(** ** A scripted world, to run the functions on *)

(** The world is the list of answers still to be given.  A call takes the
    answer at the head when it is of its kind.  The calls that read the
    ambient state (active run, active model, active trace) and the two
    synchronous registrations answer with "nothing" when the head is not
    theirs, so they never fail; the other calls fail on a head that is not
    theirs. *)
Module Mock.

Inductive Response : Type :=
  | RRegisteredModel (r : result RegisteredModel)
  | RUnit (r : result unit)
  | RArtifacts (r : result (list FileInfo))
  | RString (r : result string)
  | RRun (r : result Run)
  | RLoggedModels (r : result (PagedList LoggedModel))
  | RModelVersion (r : result ModelVersion)
  | RBool (r : result bool)
  | ROptString (r : option string)
  | RLoggedModel (r : result LoggedModel)
  | RRegisteredModels (r : PagedList RegisteredModel)
  | RModelVersions (r : PagedList ModelVersion)
  | RPrompt (r : result (option PromptVersion))
  | ROptRun (r : option Run).

Definition pop {A} (select : Response -> option (result A))
    (w : list Response) : result A * list Response :=
  match w with
  | r :: w' =>
      match select r with
      | Some a => (a, w')
      | None => (inl (OtherException "unexpected call"), w)
      end
  | [] => (inl (OtherException "no answer left"), w)
  end.

Definition pop_or {A} (select : Response -> option A) (default : A)
    (w : list Response) : result A * list Response :=
  match w with
  | r :: w' =>
      match select r with
      | Some a => (inr a, w')
      | None => (inr default, w)
      end
  | [] => (inr default, w)
  end.

(** A page cut down to the size that was asked for. *)
Definition cut {T} (n : Z) (page : PagedList T) : PagedList T :=
  Build_PagedList (take (Z.to_nat n) (items page)) (token page).

Definition unit_of r := match r with RUnit u => Some u | _ => None end.
Definition string_of r := match r with RString u => Some u | _ => None end.
Definition opt_string_of r :=
  match r with ROptString u => Some u | _ => None end.

#[export] Instance mock_client : MlflowClient (list Response) := {|
  client_create_registered_model _ :=
    pop (λ r, match r with RRegisteredModel u => Some u | _ => None end);
  client_RunsArtifactRepository _ := pop unit_of;
  client_list_run_artifacts _ :=
    pop (λ r, match r with RArtifacts u => Some u | _ => None end);
  client_get_underlying_uri _ := pop string_of;
  client_get_run _ :=
    pop (λ r, match r with RRun u => Some u | _ => None end);
  client_search_logged_models _ _ _ :=
    pop (λ r, match r with RLoggedModels u => Some u | _ => None end);
  client_pack_env_enter _ _ := pop string_of;
  client_pack_env_exit := pop unit_of;
  client_log_model_artifacts _ _ := pop unit_of;
  client_create_model_version _ :=
    pop (λ r, match r with RModelVersion u => Some u | _ => None end);
  client_get_registry_uri := pop string_of;
  client_print_model_urls_on_creation :=
    pop (λ r, match r with RBool u => Some u | _ => None end);
  client_get_workspace_url := pop_or opt_string_of None;
  client_get_workspace_id := pop_or opt_string_of None;
  client_get_logged_model _ :=
    pop (λ r, match r with RLoggedModel u => Some u | _ => None end);
  client_set_logged_model_tags _ _ := pop unit_of;
  client_stage_model _ _ := pop unit_of;
  client_search_registered_models n _ _ _ :=
    pop (λ r, match r with
              | RRegisteredModels u => Some (inr (cut n u))
              | _ => None
              end);
  client_search_model_versions n _ _ _ :=
    pop (λ r, match r with
              | RModelVersions u => Some (inr (cut n u))
              | _ => None
              end);
  client_require_prompt_registry := pop unit_of;
  client_load_prompt _ _ _ :=
    pop (λ r, match r with RPrompt u => Some u | _ => None end);
  client_active_run :=
    pop_or (λ r, match r with ROptRun u => Some u | _ => None end) None;
  client_get_active_model_id := pop_or opt_string_of None;
  client_get_active_trace_id := pop_or opt_string_of None;
  client_link_prompt_version_to_run _ _ := pop_or (λ _, None) tt;
  client_link_prompt_version_to_model _ _ _ := pop unit_of;
  client_trace_register_prompt _ _ := pop_or (λ _, None) tt
|}.

(** [runs:/<run_id>/<artifact_path>] *)
Definition runs_uri_parts (uri : string) : result (string * string) :=
  let rest := String.substring 6 (String.length uri - 6) uri in
  match String.index 0 "/" rest with
  | Some i =>
      inr (String.substring 0 i rest,
           String.substring (S i) (String.length rest - S i) rest)
  | None =>
      inl (MlflowException "Not a proper runs:/ URI" INVALID_PARAMETER_VALUE)
  end.

(** [models:/<model_id>] *)
Definition model_id_part (uri : string) : result (option string) :=
  if startswith "models:/" uri
  then inr (Some (String.substring 8 (String.length uri - 8) uri))
  else inr None.

(** A printer for the JSON documents of the examples (no escaping), and
    a reader that knows the documents listed in it. *)
Definition quote : string := String (Ascii.ascii_of_nat 34) EmptyString.

Fixpoint dumps (j : json) : string :=
  match j with
  | JNull => "null"
  | JBool b => if b then "true" else "false"
  | JInt z => pretty z
  | JFloat digits => digits
  | JStr s => quote +:+ s +:+ quote
  | JList l => "[" +:+ String.concat ", " (dumps <$> l) +:+ "]"
  | JDict fields =>
      "{" +:+
      String.concat ", "
        ((λ kv, quote +:+ fst kv +:+ quote +:+ ": " +:+ dumps (snd kv))
           <$> fields)
      +:+ "}"
  end.

Definition noted (name version : string) : json :=
  JDict [("name", JStr name); ("version", JStr version)].

Definition known_documents : list json :=
  [JList []; JList [noted "m" "1"]; JDict []].

Definition loads (s : string) : result json :=
  match list_find (λ j, dumps j = s) known_documents with
  | Some (_, j) => inr j
  | None => inl (ValueError "Expecting value")
  end.

#[export] Instance mock_env : Env := {|
  MLMODEL_FILE_NAME := "MLmodel";
  MLFLOW_MODEL_VERSIONS := "mlflow.modelVersions";
  SEARCH_MODEL_VERSION_MAX_RESULTS_DEFAULT := 10000;
  SEARCH_REGISTERED_MODEL_MAX_RESULTS_DEFAULT := 100;
  MLFLOW_PROMPT_CACHE_MAX_SIZE := 128;
  is_runs_uri := startswith "runs:/";
  parse_runs_uri := runs_uri_parts;
  _parse_model_id_if_present := model_id_part;
  is_databricks_unity_catalog_uri := startswith "databricks-uc";
  _construct_databricks_uc_registered_model_url url name version _ :=
    url +:+ "/explore/data/models/" +:+ name +:+ "/version/" +:+
    str_of_version version;
  parse_prompt_name_or_uri name_or_uri version := inr (name_or_uri, version);
  json_loads := loads;
  json_dumps := dumps;
  repr s := "'" +:+ s +:+ "'"
|}.

(** The state at the start of a test: the script, an empty log, no
    thread, an empty cache. *)
Definition start (script : list Response) : State (list Response) :=
  Build_State script [] [] [].

Definition run1 : Run :=
  {| info := {| run_id := "r1"; experiment_id := "e1" |};
     outputs := None |}.

Definition logged (mid : string) (rid : string) : LoggedModel :=
  {| model_id := mid; lm_name := "model"; source_run_id := Some rid;
     lm_tags := ∅ |}.

Definition page1 : PagedList LoggedModel :=
  Build_PagedList [logged "a" "r1"; logged "b" "r2"] (Some "x").

Definition page2 : PagedList LoggedModel :=
  Build_PagedList [logged "c" "r1"] None.

(** Two models of run [r1], on two pages, and a run that gave them the
    steps 3 and 7. *)
Definition run2 : Run :=
  {| info := {| run_id := "r1"; experiment_id := "e1" |};
     outputs := Some [{| out_model_id := "a"; step := 3 |};
                      {| out_model_id := "c"; step := 7 |}] |}.

(** A page with no model of run [r1]. *)
Definition page_other : PagedList LoggedModel :=
  Build_PagedList [logged "b" "r2"] None.

Definition registered_m : RegisteredModel := {| rm_name := "m" |}.

Definition version2 : ModelVersion :=
  {| mv_name := "m"; mv_version := VStr "2" |}.

Definition exists_already : exn :=
  MlflowException "Registered Model (name=m) already exists."
    RESOURCE_ALREADY_EXISTS.

(** The answers up to the search for logged models, for a [runs:/] URI
    without an MLmodel file. *)
Definition without_artifacts (run : Run)
    (pages : list (PagedList LoggedModel)) : list Response :=
  [RRegisteredModel (inr registered_m); RUnit (inr tt);
   RArtifacts (inr [{| path := "conda.yaml" |}]); RRun (inr run)]
  ++ ((λ page, RLoggedModels (inr page)) <$> pages).

(** The answers from the creation of the version on. *)
Definition version_created (model : LoggedModel) : list Response :=
  [RModelVersion (inr version2); RString (inr "sqlite:///mlflow.db");
   RBool (inr false); RLoggedModel (inr model); RUnit (inr tt)].

(** A logged model that already has version 1 noted in its tag. *)
Definition tagged : LoggedModel :=
  {| model_id := "m1"; lm_name := "model"; source_run_id := None;
     lm_tags := {[ "mlflow.modelVersions" :=
                     dumps (JList [noted "m" "1"]) ]} |}.

Definition registered_pages : list (PagedList RegisteredModel) :=
  [Build_PagedList [{| rm_name := "a" |}; {| rm_name := "b" |};
                    {| rm_name := "c" |}] (Some "x");
   Build_PagedList [{| rm_name := "d" |}] None].

Definition prompt1 : PromptVersion := {| pv_name := "p"; pv_version := 1 |}.

End Mock.

(** ** Notions used to state the properties *)

(** Several entries added to the log at once. *)
Definition record_all {W} (evs : list Event) (s : State W) : State W :=
  Build_State (world s) (events s ++ evs) (threads s) (prompt_cache s).

(** The state with another prompt cache. *)
Definition with_cache {W} (cache : list (CacheKey * option PromptVersion))
    (s : State W) : State W :=
  Build_State (world s) (events s) (threads s) cache.

(** A collaborator that answers in every state. *)
Definition never_raises {W A} (op : W -> result A * W) : Prop :=
  ∀ w, ∃ a w', op w = (inr a, w').

Section Notions.
Context {W : Type} `{!MlflowClient W} `{!Env}.

(** The items of a page that [_get_logged_models_from_run] keeps. *)
Definition matching (source_run : Run) (page : PagedList LoggedModel)
  : list LoggedModel :=
  filter (λ m, source_run_id m = Some (run_id (info source_run)))
    (items page).

(** The search [_get_logged_models_from_run] makes with a given token. *)
Definition search_call (source_run : Run) (model_name : string)
    (page_token : option string) : Call :=
  Csearch_logged_models [experiment_id (info source_run)]
    ("name = '" +:+ model_name +:+ "'") page_token.

(** The remote, asked first with [page_token] and then with the token of
    each page it gave, returns [pages] one after the other and is left
    in state [w']. *)
Fixpoint serves {T} (op : option string -> W -> result (PagedList T) * W)
    (w : W) (page_token : option string) (pages : list (PagedList T))
    (w' : W) : Prop :=
  match pages with
  | [] => w' = w
  | page :: pages' =>
      ∃ w1, op page_token w = (inr page, w1)
            ∧ serves op w1 (token page) pages' w'
  end.

Definition answers (source_run : Run) (model_name : string) :=
  serves (client_search_logged_models [experiment_id (info source_run)]
            ("name = '" +:+ model_name +:+ "'")).

(** The state a computation ends in, if it ends. *)
Definition final {A} (o : Outcome W A) : option (State W) :=
  match o with
  | Return _ s => Some s
  | Raise _ s => Some s
  | Diverge => None
  end.

(** A paginated remote call that gives at most as many items as it is
    asked for. *)
Definition honours_page_size {T}
    (op : Z -> option string -> option (list string) -> option string ->
          W -> result (PagedList T) * W) : Prop :=
  ∀ n filter_string order_by page_token w page w',
    op n filter_string order_by page_token w = (inr page, w') ->
    0 ≤ n -> Z.of_nat (length (items page)) ≤ n.
End Notions.

Section RegisterNotions.
Context {W : Type} `{!MlflowClient W} `{!Env}.

(** What [_register_model] has logged, after the registered model is
    there, when it has looked for logged models of the run and the
    search took the pages [pages] and one more. *)
Definition lookup_events (model_uri rid artifact_path : string) (run : Run)
    (pages : list (PagedList LoggedModel)) : list Event :=
  [ECall (CRunsArtifactRepository model_uri);
   ECall (C_list_run_artifacts model_uri);
   ECall (Cget_run rid)]
  ++ (ECall ∘ search_call run artifact_path <$> None :: (token <$> pages)).

(** The warning of lines 195-198. *)
Definition fallback_warning (rid artifact_path mid : string) : Event :=
  ELogWarning
    ("Run with id " +:+ rid +:+ " has no artifacts at artifact path " +:+
     repr artifact_path +:+ ", registering model based on " +:+
     ("models:/" +:+ mid) +:+ " instead") None.

(** The entry that stands for a model version in the tag. *)
Definition version_entry (mv : ModelVersion) : json :=
  JDict [("name", JStr (mv_name mv));
         ("version", json_of_version (mv_version mv))].

(** [previous] is the JSON list stored under the tag of [model], or the
    empty list when there is no tag, or an empty one. *)
Definition stored_versions (model : LoggedModel) (previous : list json)
  : Prop :=
  match lm_tags model !! MLFLOW_MODEL_VERSIONS with
  | None => previous = []
  | Some v =>
      if String.eqb v EmptyString then previous = []
      else json_loads v = inr (JList previous)
  end.

(** A call that sets tags of a logged model. *)
Definition sets_tags (ev : Event) : bool :=
  match ev with
  | ECall (Cset_logged_model_tags _ _) => true
  | _ => false
  end.
End RegisterNotions.

Section PromptNotions.
Context {W : Type}.

(** The outcome, with another prompt cache in its state. *)
Definition over_cache {A} (cache : list (CacheKey * option PromptVersion))
    (o : Outcome W A) : Outcome W A :=
  match o with
  | Return a s => Return a (with_cache cache s)
  | Raise e s => Raise e (with_cache cache s)
  | Diverge => Diverge
  end.

(** A computation that neither reads nor writes the prompt cache. *)
Definition cache_blind {A} (m : M W A) : Prop :=
  ∀ cache s, m (with_cache cache s) = over_cache cache (m s).

(** The calls that load a prompt from the registry. *)
Definition is_lookup (ev : Event) : bool :=
  match ev with
  | ECall (Cload_prompt _ _ _) => true
  | _ => false
  end.
End PromptNotions.

(** ** Notions on what is logged and how a computation ends *)

Section FurtherNotions.
Context {W : Type}.

(** [m] only adds to the log, and every entry it adds satisfies [P]. *)
Definition emits (P : Event -> Prop) {A} (m : M W A) : Prop :=
  ∀ s s',
    final (m s) = Some s' ->
    ∃ evs, events s' = events s ++ evs ∧ Forall P evs.

(** The token the pagination loop holds after the pages [pages], when it
    started with [page_token]. *)
Definition token_after {T} (page_token : option string)
    (pages : list (PagedList T)) : option string :=
  match last pages with
  | Some page => token page
  | None => page_token
  end.

(** What belongs to the linking of a prompt to a model: the thread, the
    question for the active model, the link call. *)
Definition links_model (ev : Event) : bool :=
  match ev with
  | EThreadStart _ => true
  | ECall Cget_active_model_id => true
  | ECall (Clink_prompt_version_to_model _ _ _) => true
  | _ => false
  end.

(** [m] ends, whatever the state: it returns a value that satisfies [Q],
    or it raises; and it has only added to the log. *)
Definition settles {A} (Q : A -> Prop) (m : M W A) : Prop :=
  ∀ s, ∃ s' evs,
    events s' = events s ++ evs
    ∧ ((∃ a, Q a ∧ m s = Return a s') ∨ (∃ e, m s = Raise e s')).

(** The calls with which [_register_model] looks for a logged model of
    the run. *)
Definition looks_up_models (ev : Event) : bool :=
  match ev with
  | ECall (Cget_run _) => true
  | ECall (Csearch_logged_models _ _ _) => true
  | _ => false
  end.
End FurtherNotions.

Section VersionNotions.
Context {W : Type} `{!MlflowClient W}.

(** The outcome [o] of a computation that had come to the state [s3] and
    there asked the registry for a model version with the arguments
    [args].  The call is the next entry of the log.  When the registry
    refuses, its exception is the outcome and nothing else was done.
    When it creates the version, the outcome is that version, unless a
    later step raises. *)
Definition creates_version (o : Outcome W ModelVersion) (s3 : State W)
    (args : CreateVersionArgs) : Prop :=
  match client_create_model_version args (world s3) with
  | (inl e, w4) =>
      o = Raise e (set_world w4 (record (ECall (C_create_model_version args)) s3))
  | (inr mv, w4) =>
      ∃ s' rest,
        events s' = events s3 ++ ECall (C_create_model_version args) :: rest
        ∧ (o = Return mv s' ∨ ∃ e, o = Raise e s')
  end.
End VersionNotions.

(** A remote whose search for logged models never runs out of pages; the
    world counts the searches.  Every other call is refused. *)
Module Endless.

Definition refuse {A} (w : nat) : result A * nat :=
  (inl (OtherException "not available"), w).

Definition more : PagedList LoggedModel := Build_PagedList [] (Some "more").

Definition endless_client : MlflowClient nat := {|
  client_create_registered_model _ := refuse;
  client_RunsArtifactRepository _ := refuse;
  client_list_run_artifacts _ := refuse;
  client_get_underlying_uri _ := refuse;
  client_get_run _ := refuse;
  client_search_logged_models _ _ _ w := (inr more, S w);
  client_pack_env_enter _ _ := refuse;
  client_pack_env_exit := refuse;
  client_log_model_artifacts _ _ := refuse;
  client_create_model_version _ := refuse;
  client_get_registry_uri := refuse;
  client_print_model_urls_on_creation := refuse;
  client_get_workspace_url := refuse;
  client_get_workspace_id := refuse;
  client_get_logged_model _ := refuse;
  client_set_logged_model_tags _ _ := refuse;
  client_stage_model _ _ := refuse;
  client_search_registered_models _ _ _ _ := refuse;
  client_search_model_versions _ _ _ _ := refuse;
  client_require_prompt_registry := refuse;
  client_load_prompt _ _ _ := refuse;
  client_active_run := refuse;
  client_get_active_model_id := refuse;
  client_get_active_trace_id := refuse;
  client_link_prompt_version_to_run _ _ := refuse;
  client_link_prompt_version_to_model _ _ _ := refuse;
  client_trace_register_prompt _ _ := refuse
|}.

End Endless.

(** A scripted world like [Mock], in which the link of a prompt to a run
    takes its answer from the script too, so that it can fail; and an
    environment whose parser refuses a version given together with a
    [prompts:/] URI. *)
Module Strict.
Import Mock.

Definition strict_client : MlflowClient (list Response) := {|
  client_create_registered_model :=
    client_create_registered_model (MlflowClient := mock_client);
  client_RunsArtifactRepository :=
    client_RunsArtifactRepository (MlflowClient := mock_client);
  client_list_run_artifacts :=
    client_list_run_artifacts (MlflowClient := mock_client);
  client_get_underlying_uri :=
    client_get_underlying_uri (MlflowClient := mock_client);
  client_get_run := client_get_run (MlflowClient := mock_client);
  client_search_logged_models :=
    client_search_logged_models (MlflowClient := mock_client);
  client_pack_env_enter := client_pack_env_enter (MlflowClient := mock_client);
  client_pack_env_exit := client_pack_env_exit (MlflowClient := mock_client);
  client_log_model_artifacts :=
    client_log_model_artifacts (MlflowClient := mock_client);
  client_create_model_version :=
    client_create_model_version (MlflowClient := mock_client);
  client_get_registry_uri :=
    client_get_registry_uri (MlflowClient := mock_client);
  client_print_model_urls_on_creation :=
    client_print_model_urls_on_creation (MlflowClient := mock_client);
  client_get_workspace_url :=
    client_get_workspace_url (MlflowClient := mock_client);
  client_get_workspace_id :=
    client_get_workspace_id (MlflowClient := mock_client);
  client_get_logged_model :=
    client_get_logged_model (MlflowClient := mock_client);
  client_set_logged_model_tags :=
    client_set_logged_model_tags (MlflowClient := mock_client);
  client_stage_model := client_stage_model (MlflowClient := mock_client);
  client_search_registered_models :=
    client_search_registered_models (MlflowClient := mock_client);
  client_search_model_versions :=
    client_search_model_versions (MlflowClient := mock_client);
  client_require_prompt_registry :=
    client_require_prompt_registry (MlflowClient := mock_client);
  client_load_prompt := client_load_prompt (MlflowClient := mock_client);
  client_active_run := client_active_run (MlflowClient := mock_client);
  client_get_active_model_id :=
    client_get_active_model_id (MlflowClient := mock_client);
  client_get_active_trace_id :=
    client_get_active_trace_id (MlflowClient := mock_client);
  client_link_prompt_version_to_run _ _ := pop unit_of;
  client_link_prompt_version_to_model :=
    client_link_prompt_version_to_model (MlflowClient := mock_client);
  client_trace_register_prompt :=
    client_trace_register_prompt (MlflowClient := mock_client)
|}.

Definition parse_name_or_uri (name_or_uri : string)
    (version : option pyversion) : result (string * option pyversion) :=
  match version with
  | Some _ =>
      if startswith "prompts:/" name_or_uri
      then inl (MlflowException
                  "The `version` argument should not be specified when loading a prompt by URI."
                  INVALID_PARAMETER_VALUE)
      else inr (name_or_uri, version)
  | None => inr (name_or_uri, version)
  end.

Definition strict_env : Env := {|
  MLMODEL_FILE_NAME := "MLmodel";
  MLFLOW_MODEL_VERSIONS := "mlflow.modelVersions";
  SEARCH_MODEL_VERSION_MAX_RESULTS_DEFAULT := 10000;
  SEARCH_REGISTERED_MODEL_MAX_RESULTS_DEFAULT := 100;
  MLFLOW_PROMPT_CACHE_MAX_SIZE := 128;
  is_runs_uri := startswith "runs:/";
  parse_runs_uri := runs_uri_parts;
  _parse_model_id_if_present := model_id_part;
  is_databricks_unity_catalog_uri := startswith "databricks-uc";
  _construct_databricks_uc_registered_model_url url name version _ :=
    url +:+ "/explore/data/models/" +:+ name +:+ "/version/" +:+
    str_of_version version;
  parse_prompt_name_or_uri := parse_name_or_uri;
  json_loads := loads;
  json_dumps := dumps;
  repr s := "'" +:+ s +:+ "'"
|}.

(** A page with a token that holds a model of run [r1]. *)
Definition page_more : PagedList LoggedModel :=
  Build_PagedList [logged "d" "r1"] (Some "y").

(** A run whose outputs have a step for model [a] only. *)
Definition run3 : Run :=
  {| info := {| run_id := "r1"; experiment_id := "e1" |};
     outputs := Some [{| out_model_id := "a"; step := 3 |}] |}.


(** A run that has logged the models [a] and [c] at the same step. *)
Definition run5 : Run :=
  {| info := {| run_id := "r1"; experiment_id := "e1" |};
     outputs := Some [{| out_model_id := "a"; step := 7 |};
                      {| out_model_id := "c"; step := 7 |}] |}.

(** A logged model whose tag holds a JSON object. *)
Definition tagged_object : LoggedModel :=
  {| model_id := "m1"; lm_name := "model"; source_run_id := None;
     lm_tags := {[ "mlflow.modelVersions" := dumps (JDict []) ]} |}.

Definition serving : option string := Some "databricks_model_serving".

Definition staging_refused : exn := OtherException "endpoint not ready".

End Strict.

(** * Properties *)

(** ** Stepping through the monad *)

(** Cases on the first [bool_decide] of the goal. *)
Ltac split_bool_decide :=
  match goal with
  | |- context [@bool_decide ?P ?dec] =>
      destruct (@bool_decide_reflect P dec)
  end.

Section Steps.
Context {W : Type}.

Lemma bind_Return {A B} (m : M W A) (k : A -> M W B) s a s' :
  m s = Return a s' -> (m ≫= k) s = k a s'.
Proof. intros Hm. unfold mbind, M_bind, bind. now rewrite Hm. Qed.

Lemma bind_Raise {A B} (m : M W A) (k : A -> M W B) s e s' :
  m s = Raise e s' -> (m ≫= k) s = Raise e s'.
Proof. intros Hm. unfold mbind, M_bind, bind. now rewrite Hm. Qed.

Lemma invoke_Return {A} c (op : W -> result A * W) s a w' :
  op (world s) = (inr a, w') ->
  invoke c op s = Return a (set_world w' (record (ECall c) s)).
Proof. intros Hop. unfold invoke. now rewrite Hop. Qed.

Lemma invoke_Raise {A} c (op : W -> result A * W) s e w' :
  op (world s) = (inl e, w') ->
  invoke c op s = Raise e (set_world w' (record (ECall c) s)).
Proof. intros Hop. unfold invoke. now rewrite Hop. Qed.

Lemma record_all_cons ev evs (w1 w : W) s :
  set_world w (record_all evs (set_world w1 (record ev s)))
  = set_world w (record_all (ev :: evs) s).
Proof.
  unfold set_world, record_all, record. simpl. now rewrite <- app_assoc.
Qed.
End Steps.

(** ** Computations that end *)

Section Settles.
Context {W : Type}.

Lemma settles_ret {A} (Q : A -> Prop) a : Q a -> settles (W := W) Q (mret a).
Proof.
  intros Ha s. exists s, []. split; [now rewrite app_nil_r|].
  left. exists a. split; [exact Ha|reflexivity].
Qed.

Lemma settles_raise {A} (Q : A -> Prop) e : settles (W := W) Q (raise e).
Proof.
  intros s. exists s, []. split; [now rewrite app_nil_r|].
  right. exists e. reflexivity.
Qed.

Lemma settles_lift {A} (Q : A -> Prop) (r : result A) :
  (∀ a, Q a) -> settles (W := W) Q (lift r).
Proof.
  intros HQ. destruct r as [e|a]; [apply settles_raise|].
  apply settles_ret, HQ.
Qed.

Lemma settles_emit (Q : unit -> Prop) ev : Q tt -> settles (W := W) Q (emit ev).
Proof.
  intros Htt s. exists (record ev s), [ev]. split; [reflexivity|].
  left. exists tt. split; [exact Htt|reflexivity].
Qed.

Lemma settles_invoke {A} (Q : A -> Prop) c (op : W -> result A * W) :
  (∀ a, Q a) -> settles Q (invoke c op).
Proof.
  intros HQ s. unfold invoke.
  destruct (op (world s)) as [[e|a] w'];
    exists (set_world w' (record (ECall c) s)), [ECall c];
    (split; [reflexivity|]).
  - right. exists e. reflexivity.
  - left. exists a. split; [apply HQ|reflexivity].
Qed.

Lemma settles_bind {A B} (Q : B -> Prop) (m : M W A) (k : A -> M W B) :
  settles (λ _, True) m -> (∀ a, settles Q (k a)) -> settles Q (m ≫= k).
Proof.
  intros Hm Hk s. unfold mbind, M_bind, bind.
  destruct (Hm s) as (s1 & evs1 & Hev1 & [(a & _ & ->)|(e & ->)]).
  - destruct (Hk a s1) as (s' & evs2 & Hev2 & Hout).
    exists s', (evs1 ++ evs2). split; [|exact Hout].
    rewrite Hev2, Hev1, <- app_assoc. reflexivity.
  - exists s1, evs1. split; [exact Hev1|]. right. exists e. reflexivity.
Qed.

Lemma settles_try_except {A} (Q : A -> Prop) (body : M W A) handler :
  settles Q body -> (∀ e, settles Q (handler e)) ->
  settles Q (try_except body handler).
Proof.
  intros Hbody Hhandler s. unfold try_except.
  destruct (Hbody s) as (s1 & evs1 & Hev1 & [(a & Ha & ->)|(e & ->)]).
  - exists s1, evs1. split; [exact Hev1|]. left. exists a. now split.
  - destruct (Hhandler e s1) as (s' & evs2 & Hev2 & Hout).
    exists s', (evs1 ++ evs2). split; [|exact Hout].
    rewrite Hev2, Hev1, <- app_assoc. reflexivity.
Qed.

Lemma settles_try_finally {A} (Q : A -> Prop) (body : M W A) cleanup :
  settles Q body -> settles (λ _, True) cleanup ->
  settles Q (try_finally body cleanup).
Proof.
  intros Hbody Hcleanup s. unfold try_finally.
  destruct (Hbody s) as (s1 & evs1 & Hev1 & [(a & Ha & ->)|(e & ->)]);
    destruct (Hcleanup s1) as (s' & evs2 & Hev2 & [(u & _ & ->)|(e' & ->)]);
    exists s', (evs1 ++ evs2);
    (split; [rewrite Hev2, Hev1, <- app_assoc; reflexivity|]).
  - left. exists a. now split.
  - right. exists e'. reflexivity.
  - right. exists e. reflexivity.
  - right. exists e'. reflexivity.
Qed.

Lemma settles_thread_start (Q : unit -> Prop) eager target task :
  Q tt -> (∀ t, settles (λ _, True) (target t)) ->
  settles (W := W) Q (thread_start eager target task).
Proof.
  intros Htt Htarget s. unfold thread_start.
  pose (s1 := Build_State (world s) (events s ++ [EThreadStart task])
                (threads s ++ [task]) (prompt_cache s)).
  fold s1. destruct eager.
  - destruct (Htarget task s1) as (s' & evs & Hev & [(u & _ & ->)|(e & ->)]);
      exists s', (EThreadStart task :: evs);
      (split; [rewrite Hev; simpl; rewrite <- app_assoc; reflexivity|]);
      left; exists tt; now split.
  - exists s1, [EThreadStart task]. split; [reflexivity|].
    left. exists tt. now split.
Qed.
End Settles.

(** ** The pagination loop of [_get_logged_models_from_run] *)

Section Pagination.
Context {W : Type} `{!MlflowClient W} `{!Env}.

Lemma loop_pages source_run model_name pages last :
  Forall (λ page, truthy (token page) = true) pages ->
  truthy (token last) = false ->
  ∀ acc page_token s w' fuel,
    answers source_run model_name (world s) page_token (pages ++ [last]) w' ->
    (length pages < fuel)%nat ->
    _get_logged_models_loop fuel source_run model_name acc page_token s
    = Return
        (acc ++ concat (matching source_run <$> (pages ++ [last])))
        (set_world w'
           (record_all
              (ECall ∘ search_call source_run model_name
                 <$> page_token :: (token <$> pages)) s)).
Proof.
  intros Hmore Hlast. induction Hmore as [|page pages Hpage _ IH];
    intros acc page_token s w' fuel Hans Hfuel.
  - destruct fuel as [|fuel]; [simpl in Hfuel; lia|].
    unfold answers in Hans. simpl in Hans. destruct Hans as (w1 & Hcall & ->).
    cbn [_get_logged_models_loop].
    erewrite bind_Return
      by (apply invoke_Return; exact Hcall).
    rewrite Hlast. simpl. unfold mret, M_ret, ret, matching.
    rewrite app_nil_r. reflexivity.
  - destruct fuel as [|fuel]; [simpl in Hfuel; lia|].
    unfold answers in Hans. simpl in Hans.
    destruct Hans as (w1 & Hcall & Hans).
    cbn [_get_logged_models_loop].
    erewrite bind_Return
      by (apply invoke_Return; exact Hcall).
    rewrite Hpage. cbn [negb].
    rewrite (IH _ _ _ w' fuel); [|exact Hans|simpl in Hfuel; lia].
    f_equal.
    + simpl. unfold matching. now rewrite <- app_assoc.
    + apply record_all_cons.
Qed.

(** C1. Whatever pages the remote returns, all with a token but the last
    one, [_get_logged_models_from_run] returns the matching items of all
    of them, concatenated in the order of the pages; the searches it made
    are one per page, the first without a token and each next one with
    the token of the page before, unchanged; nothing is fetched after the
    page whose token is empty or absent. *)
Theorem get_logged_models_from_run_pages
    source_run model_name pages last s w' fuel :
  Forall (λ page, truthy (token page) = true) pages ->
  truthy (token last) = false ->
  answers source_run model_name (world s) None (pages ++ [last]) w' ->
  (length pages < fuel)%nat ->
  _get_logged_models_from_run fuel source_run model_name s
  = Return
      (concat (matching source_run <$> (pages ++ [last])))
      (set_world w'
         (record_all
            (ECall ∘ search_call source_run model_name
               <$> None :: (token <$> pages)) s)).
Proof.
  intros Hmore Hlast Hans Hfuel. unfold _get_logged_models_from_run.
  now rewrite (loop_pages _ _ pages last Hmore Hlast [] None s w' fuel).
Qed.

(** C5. When the first search returns a page with a token and the second
    search raises, [_get_logged_models_from_run] raises that very
    exception: no list is returned, the items of the first page are
    lost. *)
Theorem get_logged_models_from_run_second_raises
    source_run model_name first e s w1 w2 fuel :
  client_search_logged_models [experiment_id (info source_run)]
    ("name = '" +:+ model_name +:+ "'") None (world s) = (inr first, w1) ->
  truthy (token first) = true ->
  client_search_logged_models [experiment_id (info source_run)]
    ("name = '" +:+ model_name +:+ "'") (token first) w1 = (inl e, w2) ->
  (2 <= fuel)%nat ->
  _get_logged_models_from_run fuel source_run model_name s
  = Raise e
      (set_world w2
         (record_all
            [ECall (search_call source_run model_name None);
             ECall (search_call source_run model_name (token first))] s)).
Proof.
  intros Hfirst Htoken Hsecond Hfuel.
  destruct fuel as [|[|fuel]]; [lia|lia|].
  unfold _get_logged_models_from_run. cbn [_get_logged_models_loop].
  erewrite bind_Return by (apply invoke_Return; exact Hfirst).
  rewrite Htoken. cbn [negb].
  erewrite bind_Raise; [|apply invoke_Raise; exact Hsecond].
  f_equal. unfold set_world, record_all, record. simpl.
  now rewrite <- app_assoc.
Qed.
End Pagination.

(** ** The paginated searches *)

Section Searches.
Context {W : Type} `{!MlflowClient W} `{!Env}.

Section Loop.
Context {T : Type}.
Variable paginated_fn : Z -> option string -> M W (PagedList T).
Variable call_of : Z -> option string -> Call.
Variable cap : Z.

(** Each call of [paginated_fn] is one entry in the log. *)
Hypothesis paginated_fn_logs :
  ∀ n page_token s s',
    final (paginated_fn n page_token s) = Some s' ->
    events s' = events s ++ [ECall (call_of n page_token)].

Lemma paginated_loop_requests max_results fuel :
  ∀ acc page_token s s',
    final (paginated_loop fuel paginated_fn cap max_results acc
             page_token s) = Some s' ->
    ∃ requests : list (Z * option string),
      events s'
      = events s ++ ((λ r, ECall (call_of r.1 r.2)) <$> requests)
      ∧ Forall (λ r, r.1 ≤ cap) requests.
Proof.
  induction fuel as [|fuel IH]; intros acc page_token s s' Hfinal.
  - discriminate.
  - cbn [paginated_loop] in Hfinal.
    unfold mbind, M_bind, bind in Hfinal.
    set (n := num_to_get cap max_results (length acc)) in *.
    assert (Hn : n ≤ cap) by (unfold n, num_to_get; lia).
    pose proof (paginated_fn_logs n page_token s) as Hlog.
    destruct (paginated_fn n page_token s) as [page s1|e s1|] eqn:Hcall.
    + specialize (Hlog s1 eq_refl).
      destruct (negb (truthy (token page)) || _).
      * simpl in Hfinal. injection Hfinal as <-.
        exists [(n, page_token)]. split; [exact Hlog|].
        constructor; [exact Hn|constructor].
      * apply IH in Hfinal as (requests & Hevents & Hall).
        exists ((n, page_token) :: requests). split.
        -- rewrite Hevents, Hlog, <- app_assoc. reflexivity.
        -- constructor; [exact Hn|exact Hall].
    + simpl in Hfinal. injection Hfinal as <-.
      exists [(n, page_token)]. split; [exact (Hlog s1 eq_refl)|].
      constructor; [exact Hn|constructor].
    + discriminate.
Qed.

(** A page is never longer than what was asked for. *)
Hypothesis paginated_fn_honours :
  ∀ n page_token s page s',
    paginated_fn n page_token s = Return page s' ->
    0 ≤ n -> Z.of_nat (length (items page)) ≤ n.

Lemma paginated_loop_at_most k fuel :
  0 ≤ cap ->
  ∀ acc page_token s results s',
    Z.of_nat (length acc) ≤ k ->
    paginated_loop fuel paginated_fn cap (Some k) acc page_token s
    = Return results s' ->
    Z.of_nat (length results) ≤ k.
Proof.
  intros Hcap. induction fuel as [|fuel IH];
    intros acc page_token s results s' Hacc Hrun.
  - discriminate.
  - cbn [paginated_loop] in Hrun.
    unfold mbind, M_bind, bind in Hrun.
    set (n := num_to_get cap (Some k) (length acc)) in *.
    assert (Hn : 0 ≤ n ≤ k - Z.of_nat (length acc))
      by (unfold n, num_to_get; lia).
    destruct (paginated_fn n page_token s) as [page s1|e s1|] eqn:Hcall;
      [|discriminate|discriminate].
    apply paginated_fn_honours in Hcall; [|lia].
    assert (Hlen : Z.of_nat (length (acc ++ items page)) ≤ k)
      by (rewrite length_app; lia).
    destruct (negb (truthy (token page)) || _).
    + injection Hrun as <- _. exact Hlen.
    + eapply IH; [exact Hlen|exact Hrun].
Qed.
End Loop.

Section Unbounded.
Context {T : Type}.
Variable paginated_fn : Z -> option string -> M W (PagedList T).
Variable op : option string -> W -> result (PagedList T) * W.
Variable call_of : option string -> Call.
Variable cap : Z.

(** Asked for a full page, [paginated_fn] is the logged call of [op]. *)
Hypothesis paginated_fn_full_page :
  ∀ page_token,
    paginated_fn cap page_token = invoke (call_of page_token)
                                    (op page_token).

Lemma paginated_loop_all pages last :
  Forall (λ page, truthy (token page) = true) pages ->
  truthy (token last) = false ->
  ∀ acc page_token s w' fuel,
    serves op (world s) page_token (pages ++ [last]) w' ->
    (length pages < fuel)%nat ->
    paginated_loop fuel paginated_fn cap None acc page_token s
    = Return
        (acc ++ concat (items <$> (pages ++ [last])))
        (set_world w'
           (record_all (ECall ∘ call_of <$> page_token :: (token <$> pages))
              s)).
Proof.
  intros Hmore Hlast. induction Hmore as [|page pages Hpage _ IH];
    intros acc page_token s w' fuel Hserves Hfuel.
  - destruct fuel as [|fuel]; [simpl in Hfuel; lia|].
    simpl in Hserves. destruct Hserves as (w1 & Hcall & ->).
    cbn [paginated_loop]. unfold num_to_get. rewrite Z.min_id.
    rewrite paginated_fn_full_page.
    erewrite bind_Return by (apply invoke_Return; exact Hcall).
    rewrite Hlast. simpl. rewrite app_nil_r. reflexivity.
  - destruct fuel as [|fuel]; [simpl in Hfuel; lia|].
    simpl in Hserves. destruct Hserves as (w1 & Hcall & Hserves).
    cbn [paginated_loop]. unfold num_to_get. rewrite Z.min_id.
    rewrite paginated_fn_full_page.
    erewrite bind_Return by (apply invoke_Return; exact Hcall).
    rewrite Hpage. cbn [negb orb].
    rewrite bool_decide_eq_false_2 by discriminate.
    rewrite (IH _ _ _ w' fuel); [|exact Hserves|simpl in Hfuel; lia].
    f_equal.
    + simpl. now rewrite <- app_assoc.
    + apply record_all_cons.
Qed.
End Unbounded.

Lemma invoke_final {A} c (op : W -> result A * W) s s' :
  final (invoke c op s) = Some s' ->
  events s' = events s ++ [ECall c].
Proof.
  unfold invoke. destruct (op (world s)) as [[e|a] w'];
    simpl; intros [= <-]; reflexivity.
Qed.

Lemma invoke_inv {A} c (op : W -> result A * W) s a s' :
  invoke c op s = Return a s' ->
  ∃ w', op (world s) = (inr a, w').
Proof.
  unfold invoke. destruct (op (world s)) as [[e|a'] w'];
    intros [= <- <-]; eauto.
Qed.

(** C4. With [max_results = k], [search_registered_models] and
    [search_model_versions] return at most [k] items, provided the remote
    gives no more items than it is asked for; no call they make asks for
    more than the per-page default; without [max_results], they fetch
    until a page comes without a token and return the items of all
    pages. *)
Theorem searches_respect_max_results
    (fuel : nat) (filter_string : option string)
    (order_by : option (list string)) (s : State W) :
  0 ≤ SEARCH_REGISTERED_MODEL_MAX_RESULTS_DEFAULT ->
  0 ≤ SEARCH_MODEL_VERSION_MAX_RESULTS_DEFAULT ->
  honours_page_size client_search_registered_models ->
  honours_page_size client_search_model_versions ->
  (∀ k results s',
     0 ≤ k ->
     search_registered_models fuel (Some k) filter_string order_by s
     = Return results s' ->
     Z.of_nat (length results) ≤ k)
  ∧ (∀ k results s',
       0 ≤ k ->
       search_model_versions fuel (Some k) filter_string order_by s
       = Return results s' ->
       Z.of_nat (length results) ≤ k)
  ∧ (∀ max_results s',
       final (search_registered_models fuel max_results filter_string
                order_by s) = Some s' ->
       ∃ requests : list (Z * option string),
         events s'
         = events s ++
           ((λ r, ECall (Csearch_registered_models r.1 filter_string
                           order_by r.2)) <$> requests)
         ∧ Forall (λ r, r.1 ≤ SEARCH_REGISTERED_MODEL_MAX_RESULTS_DEFAULT)
             requests)
  ∧ (∀ max_results s',
       final (search_model_versions fuel max_results filter_string
                order_by s) = Some s' ->
       ∃ requests : list (Z * option string),
         events s'
         = events s ++
           ((λ r, ECall (Csearch_model_versions r.1 filter_string
                           order_by r.2)) <$> requests)
         ∧ Forall (λ r, r.1 ≤ SEARCH_MODEL_VERSION_MAX_RESULTS_DEFAULT)
             requests)
  ∧ (∀ pages last w',
       Forall (λ page, truthy (token page) = true) pages ->
       truthy (token last) = false ->
       serves (client_search_registered_models
                 SEARCH_REGISTERED_MODEL_MAX_RESULTS_DEFAULT filter_string
                 order_by)
         (world s) None (pages ++ [last]) w' ->
       (length pages < fuel)%nat ->
       search_registered_models fuel None filter_string order_by s
       = Return
           (concat (items <$> (pages ++ [last])))
           (set_world w'
              (record_all
                 (ECall ∘ Csearch_registered_models
                            SEARCH_REGISTERED_MODEL_MAX_RESULTS_DEFAULT
                            filter_string order_by
                    <$> None :: (token <$> pages)) s)))
  ∧ (∀ pages last w',
       Forall (λ page, truthy (token page) = true) pages ->
       truthy (token last) = false ->
       serves (client_search_model_versions
                 SEARCH_MODEL_VERSION_MAX_RESULTS_DEFAULT filter_string
                 order_by)
         (world s) None (pages ++ [last]) w' ->
       (length pages < fuel)%nat ->
       search_model_versions fuel None filter_string order_by s
       = Return
           (concat (items <$> (pages ++ [last])))
           (set_world w'
              (record_all
                 (ECall ∘ Csearch_model_versions
                            SEARCH_MODEL_VERSION_MAX_RESULTS_DEFAULT
                            filter_string order_by
                    <$> None :: (token <$> pages)) s))).
Proof.
  intros Hcap_rm Hcap_mv Hrm Hmv. repeat split.
  - intros k results s' Hk Hrun.
    unfold search_registered_models, get_results_from_paginated_fn in Hrun.
    eapply paginated_loop_at_most in Hrun; [exact Hrun| |exact Hcap_rm|simpl; lia].
    intros n page_token s0 page s0' Hcall Hn.
    apply invoke_inv in Hcall as (w0 & Hcall). eapply Hrm; eauto.
  - intros k results s' Hk Hrun.
    unfold search_model_versions, get_results_from_paginated_fn in Hrun.
    eapply paginated_loop_at_most in Hrun; [exact Hrun| |exact Hcap_mv|simpl; lia].
    intros n page_token s0 page s0' Hcall Hn.
    apply invoke_inv in Hcall as (w0 & Hcall). eapply Hmv; eauto.
  - intros max_results s' Hfinal.
    unfold search_registered_models, get_results_from_paginated_fn in Hfinal.
    eapply (paginated_loop_requests _
              (λ n t, Csearch_registered_models n filter_string order_by t))
      in Hfinal; [exact Hfinal|].
    intros n page_token s0 s0'. apply invoke_final.
  - intros max_results s' Hfinal.
    unfold search_model_versions, get_results_from_paginated_fn in Hfinal.
    eapply (paginated_loop_requests _
              (λ n t, Csearch_model_versions n filter_string order_by t))
      in Hfinal; [exact Hfinal|].
    intros n page_token s0 s0'. apply invoke_final.
  - intros pages last w' Hmore Hlast Hserves Hfuel.
    unfold search_registered_models, get_results_from_paginated_fn.
    now rewrite (paginated_loop_all _ _
                   (Csearch_registered_models
                      SEARCH_REGISTERED_MODEL_MAX_RESULTS_DEFAULT
                      filter_string order_by)
                   _ (λ _, eq_refl) pages last Hmore Hlast [] None s w' fuel).
  - intros pages last w' Hmore Hlast Hserves Hfuel.
    unfold search_model_versions, get_results_from_paginated_fn.
    now rewrite (paginated_loop_all _ _
                   (Csearch_model_versions
                      SEARCH_MODEL_VERSION_MAX_RESULTS_DEFAULT
                      filter_string order_by)
                   _ (λ _, eq_refl) pages last Hmore Hlast [] None s w' fuel).
Qed.
End Searches.

(** ** [register_model] *)

Section Register.
Context {W : Type} `{!MlflowClient W} `{!Env}.

(** *** The creation of the version *)

(** What follows the creation ends, and returns nothing but the version
    that was created. *)
Lemma after_creation_settles env_pack mid mv :
  settles (W := W) (λ v, v = mv)
    (print_created_message mv ≫= λ _,
     record_model_version mid mv ≫= λ _,
     stage_for_serving env_pack mv ≫= λ _, mret mv).
Proof.
  unfold print_created_message, record_model_version, stage_for_serving,
    client.get_logged_model, client.set_logged_model_tags,
    get_registry_uri, MLFLOW_PRINT_MODEL_URLS_ON_CREATION_get,
    get_workspace_url, get_workspace_id,
    stage_model_for_databricks_model_serving, eprint.
  apply settles_bind.
  { apply settles_bind; [apply settles_invoke; intros; exact I|].
    intros registry_uri.
    apply settles_bind; [apply settles_invoke; intros; exact I|].
    intros print_urls. apply settles_bind.
    { destruct (print_urls && _);
        [apply settles_invoke; intros; exact I|apply settles_ret; exact I]. }
    intros [u|]; [|apply settles_emit; exact I].
    destruct (truthy (Some u)); [|apply settles_emit; exact I].
    apply settles_bind; [apply settles_invoke; intros; exact I|].
    intros workspace_id. apply settles_emit; exact I. }
  intros _. apply settles_bind.
  { destruct mid as [m|]; [|apply settles_ret; exact I].
    destruct (truthy (Some m)); [|apply settles_ret; exact I].
    apply settles_bind; [apply settles_invoke; intros; exact I|].
    intros model.
    apply settles_bind; [|intros ?; apply settles_invoke; intros; exact I].
    destruct (lm_tags model !! MLFLOW_MODEL_VERSIONS) as [v|];
      [|apply settles_ret; exact I].
    destruct (truthy (Some v));
      [apply settles_lift; intros; exact I|apply settles_ret; exact I]. }
  intros _. apply settles_bind; [|intros _; now apply settles_ret].
  split_bool_decide; [|apply settles_ret; exact I].
  apply settles_bind; [apply settles_emit; exact I|]. intros _.
  apply settles_try_except; [apply settles_invoke; intros; exact I|].
  intros err. apply settles_emit; exact I.
Qed.

(** Once the model id is settled and the environment packed,
    [_register_model] asks the registry for the version, with the name
    it was given, the source and the run id it has resolved, and that
    model id. *)
Lemma register_version_creates model_uri name await_registration_for tags
    local_model_path env_pack rid resolved_id source mid (s2 s3 : State W) :
  (if truthy resolved_id then inr resolved_id
   else _parse_model_id_if_present model_uri) = inr mid ->
  pack_environment env_pack model_uri mid s2 = Return tt s3 ->
  creates_version
    (register_version model_uri name await_registration_for tags
       local_model_path env_pack (rid, resolved_id, source) s2)
    s3
    {| cv_name := name;
       cv_source := source;
       cv_run_id := rid;
       cv_tags := tags;
       cv_await_creation_for := await_registration_for;
       cv_local_model_path := local_model_path;
       cv_model_id := mid |}.
Proof.
  intros Hmid Hpacked. unfold register_version.
  erewrite bind_Return with (a := mid) (s' := s2).
  2:{ destruct (truthy resolved_id); simpl.
      - now injection Hmid as ->.
      - unfold lift. now rewrite Hmid. }
  erewrite bind_Return by exact Hpacked.
  unfold creates_version, client._create_model_version.
  match goal with
  | |- context [client_create_model_version ?args (world s3)] =>
      destruct (client_create_model_version args (world s3))
        as [[e|mv] w4] eqn:Hcreate
  end.
  - erewrite bind_Raise by (apply invoke_Raise; exact Hcreate). reflexivity.
  - erewrite bind_Return by (apply invoke_Return; exact Hcreate).
    match goal with
    | |- context [mbind _ _ ?s4] =>
        destruct (after_creation_settles env_pack mid mv s4)
          as (s' & rest & Hevents & [(v & -> & Hout)|(e & Hout)])
    end.
    + exists s', rest. split; [|left; exact Hout].
      rewrite Hevents. simpl. rewrite <- app_assoc. reflexivity.
    + exists s', rest. split; [|right; exists e; exact Hout].
      rewrite Hevents. simpl. rewrite <- app_assoc. reflexivity.
Qed.

(** C3. When creating the registered model raises an [MlflowException]
    with code [RESOURCE_ALREADY_EXISTS] or [ALREADY_EXISTS], the
    exception is dropped: a line is printed and [register_model] goes on
    with everything that follows.  So when the source of the model is
    resolved, the model id settled and the environment packed, it asks
    the registry for a version under [name], the name that exists
    already, and this version is what it returns unless a later step
    raises.  With any other code the exception is what [register_model]
    raises, straight after the call. *)
Theorem register_model_already_exists
    fuel model_uri name await_registration_for tags env_pack
    (s : State W) message code w1 :
  client_create_registered_model name (world s)
  = (inl (MlflowException message code), w1) ->
  let s1 :=
    record
      (EEprint ("Registered model " +:+ repr name +:+
                " already exists. Creating a new version of this model..."))
      (set_world w1 (record (ECall (Ccreate_registered_model name)) s)) in
  (code ∈ [RESOURCE_ALREADY_EXISTS; ALREADY_EXISTS] ->
   register_model fuel model_uri name await_registration_for tags env_pack s
   = (resolve_source fuel model_uri ≫=
      register_version model_uri name await_registration_for tags None
        env_pack) s1
   ∧ ∀ rid resolved_id source s2 mid s3,
       resolve_source fuel model_uri s1
       = Return (rid, resolved_id, source) s2 ->
       (if truthy resolved_id then inr resolved_id
        else _parse_model_id_if_present model_uri) = inr mid ->
       pack_environment env_pack model_uri mid s2 = Return tt s3 ->
       creates_version
         (register_model fuel model_uri name await_registration_for tags
            env_pack s)
         s3
         {| cv_name := name;
            cv_source := source;
            cv_run_id := rid;
            cv_tags := tags;
            cv_await_creation_for := await_registration_for;
            cv_local_model_path := None;
            cv_model_id := mid |})
  ∧ (code ∉ [RESOURCE_ALREADY_EXISTS; ALREADY_EXISTS] ->
     register_model fuel model_uri name await_registration_for tags
       env_pack s
     = Raise (MlflowException message code)
         (set_world w1 (record (ECall (Ccreate_registered_model name)) s))).
Proof.
  intros Hcreate s1.
  assert (Hgoes_on :
    code ∈ [RESOURCE_ALREADY_EXISTS; ALREADY_EXISTS] ->
    register_model fuel model_uri name await_registration_for tags env_pack s
    = (resolve_source fuel model_uri ≫=
       register_version model_uri name await_registration_for tags None
         env_pack) s1).
  { intros Hcode.
    unfold register_model, _register_model, create_or_reuse_registered_model.
    unfold mbind at 1. unfold M_bind, bind at 1. unfold try_except.
    erewrite bind_Raise by (apply invoke_Raise; exact Hcreate).
    cbv beta iota. split_bool_decide; [reflexivity|contradiction]. }
  split.
  - intros Hcode. split; [exact (Hgoes_on Hcode)|].
    intros rid resolved_id source s2 mid s3 Hresolved Hmid Hpacked.
    rewrite (Hgoes_on Hcode).
    erewrite bind_Return by exact Hresolved.
    now apply register_version_creates.
  - intros Hcode.
    unfold register_model, _register_model, create_or_reuse_registered_model.
    unfold mbind at 1. unfold M_bind, bind at 1. unfold try_except.
    erewrite bind_Raise by (apply invoke_Raise; exact Hcreate).
    cbv beta iota. split_bool_decide; [contradiction|reflexivity].
Qed.

(** *** The greatest step *)



Lemma max_loop_missing {A} (key : A -> result Z) before item after e :
  (∀ x, x ∈ before -> ∃ v, key x = inr v) ->
  key item = inl e ->
  ∀ maxitem maxval,
    max_loop key maxitem maxval (before ++ item :: after) = inl e.
Proof.
  intros Hbefore Hitem. induction before as [|x before IH];
    intros maxitem maxval.
  - simpl. now rewrite Hitem.
  - simpl. destruct (Hbefore x (list_elem_of_here _ _)) as (v & ->).
    assert (Hrest : ∀ y, y ∈ before -> ∃ v', key y = inr v')
      by (intros y Hy; apply Hbefore, list_elem_of_further, Hy).
    destruct (maxval <? v)%Z; apply IH; exact Hrest.
Qed.




(** With distinct ids in [model_outputs], the dictionary holds exactly
    the steps of the list. *)
Lemma model_id_to_step_of_app outs1 outs2 :
  model_id_to_step_of (outs1 ++ outs2)
  = foldl (λ d m_o, <[out_model_id m_o := step m_o]> d)
      (model_id_to_step_of outs1) outs2.
Proof. unfold model_id_to_step_of. apply foldl_app. Qed.

(** *** A [runs:/] URI without an MLmodel file *)

Section WithoutArtifacts.
Variables (fuel : nat) (model_uri name : string)
  (await_registration_for : option Z) (tags : option (gmap string string))
  (env_pack : option string) (s s1 : State W)
  (rid artifact_path : string) (artifacts : list FileInfo) (run : Run)
  (pages : list (PagedList LoggedModel)) (last : PagedList LoggedModel)
  (w2 w3 w4 w5 : W).

(** The registered model is there (created, or found to exist). *)
Hypothesis registered :
  create_or_reuse_registered_model name s = Return tt s1.
Hypothesis runs_uri : is_runs_uri model_uri = true.
Hypothesis parsed : parse_runs_uri model_uri = inr (rid, artifact_path).
Hypothesis repository :
  client_RunsArtifactRepository model_uri (world s1) = (inr tt, w2).
Hypothesis listed :
  client_list_run_artifacts model_uri w2 = (inr artifacts, w3).
(** No MLmodel file at the artifact path. *)
Hypothesis no_mlmodel : MLMODEL_FILE_NAME ∉ path <$> artifacts.
Hypothesis got_run : client_get_run rid w3 = (inr run, w4).
(** The search for logged models takes the pages [pages ++ [last]]. *)
Hypothesis more : Forall (λ page, truthy (token page) = true) pages.
Hypothesis no_more : truthy (token last) = false.
Hypothesis searched :
  answers run artifact_path w4 None (pages ++ [last]) w5.
Hypothesis enough_fuel : (length pages < fuel)%nat.

Lemma register_model_without_artifacts :
  register_model fuel model_uri name await_registration_for tags env_pack s
  = match select_logged_model run rid artifact_path
            (concat (matching run <$> (pages ++ [last]))) with
    | inl e =>
        Raise e
          (set_world w5
             (record_all
                (lookup_events model_uri rid artifact_path run pages) s1))
    | inr mid =>
        register_version model_uri name await_registration_for tags None
          env_pack (Some rid, Some mid, "models:/" +:+ mid)
          (record (fallback_warning rid artifact_path mid)
             (set_world w5
                (record_all
                   (lookup_events model_uri rid artifact_path run pages)
                   s1)))
    end.
Proof.
  unfold register_model, _register_model.
  erewrite bind_Return by exact registered.
  unfold resolve_source. rewrite runs_uri, parsed.
  unfold mbind at 1. unfold M_bind, bind at 1.
  unfold lift at 1.
  erewrite bind_Return by reflexivity. cbv beta iota.
  erewrite bind_Return by (apply invoke_Return; exact repository).
  erewrite bind_Return by (apply invoke_Return; exact listed).
  split_bool_decide; [contradiction|].
  erewrite bind_Return by (apply invoke_Return; exact got_run).
  unfold _get_logged_models_from_run.
  erewrite bind_Return
    by (apply (loop_pages run artifact_path pages last more no_more [] None
                 _ w5 fuel); [exact searched|exact enough_fuel]).
  cbn [app].
  assert (Hstate :
    set_world w5
      (record_all
         (ECall ∘ search_call run artifact_path
            <$> None :: (token <$> pages))
         (set_world w4
            (record (ECall (Cget_run rid))
               (set_world w3
                  (record (ECall (C_list_run_artifacts model_uri))
                     (set_world w2
                        (record (ECall (CRunsArtifactRepository model_uri))
                           s1)))))))
    = set_world w5
        (record_all (lookup_events model_uri rid artifact_path run pages)
           s1)).
  { unfold set_world, record_all, record, lookup_events. simpl.
    rewrite <- !app_assoc. reflexivity. }
  rewrite Hstate.
  destruct (select_logged_model run rid artifact_path
              (concat (matching run <$> (pages ++ [last]))))
    as [e|mid]; reflexivity.
Qed.

(** C6. [register_model] on a [runs:/] URI whose run has no MLmodel
    file at the artifact path and no logged model of that name raises
    an [MlflowException], straight after the search; the error code it
    carries is [INTERNAL_ERROR] and not [NOT_FOUND], because the
    constructor is given the name of the code and not the code. *)
Theorem register_model_not_found :
  concat (matching run <$> (pages ++ [last])) = [] ->
  register_model fuel model_uri name await_registration_for tags env_pack s
  = Raise
      (MlflowException
         ("Unable to find a logged_model with artifact_path " +:+
          artifact_path +:+ " under run " +:+ rid)
         INTERNAL_ERROR)
      (set_world w5
         (record_all
            (lookup_events model_uri rid artifact_path run pages) s1))
  ∧ INTERNAL_ERROR ≠ NOT_FOUND.
Proof.
  intros Hnone. split; [|discriminate].
  rewrite register_model_without_artifacts, Hnone. reflexivity.
Qed.

End WithoutArtifacts.
(** *** The tag of the logged model *)

Lemma stage_for_serving_returns env_pack mv (s : State W) :
  ∃ staging s',
    stage_for_serving env_pack mv s = Return tt s'
    ∧ events s' = events s ++ staging
    ∧ Forall (λ ev, sets_tags ev = false) staging.
Proof.
  unfold stage_for_serving. split_bool_decide.
  - unfold mbind, M_bind, bind, eprint, emit, try_except,
      stage_model_for_databricks_model_serving, invoke.
    cbn [world record].
    destruct (client_stage_model (mv_name mv) (mv_version mv) (world s))
      as [[err|[]] w'].
    + eexists [_; _; _], _. split; [reflexivity|]. split.
      * simpl. rewrite <- !app_assoc. reflexivity.
      * repeat constructor.
    + eexists [_; _], _. split; [reflexivity|]. split.
      * simpl. rewrite <- !app_assoc. reflexivity.
      * repeat constructor.
  - exists [], s. split; [reflexivity|]. split.
    + now rewrite app_nil_r.
    + constructor.
Qed.

Lemma record_model_version_appends m mv (s : State W) model previous w1 w2 :
  truthy (Some m) = true ->
  client_get_logged_model m (world s) = (inr model, w1) ->
  stored_versions model previous ->
  client_set_logged_model_tags m
    {[ MLFLOW_MODEL_VERSIONS :=
         json_dumps (JList (previous ++ [version_entry mv])) ]} w1
  = (inr tt, w2) ->
  record_model_version (Some m) mv s
  = Return tt
      (set_world w2
         (record_all
            [ECall (Cget_logged_model m);
             ECall (Cset_logged_model_tags m
                      {[ MLFLOW_MODEL_VERSIONS :=
                           json_dumps
                             (JList (previous ++ [version_entry mv])) ]})]
            s)).
Proof.
  intros Htruthy Hget Hstored Hset. unfold record_model_version.
  rewrite Htruthy.
  erewrite bind_Return by (apply invoke_Return; exact Hget).
  unfold stored_versions in Hstored.
  assert (Hnew :
    (match lm_tags model !! MLFLOW_MODEL_VERSIONS with
     | Some v =>
         if truthy (lm_tags model !! MLFLOW_MODEL_VERSIONS)
         then lift (loads_and_append v [version_entry mv])
         else mret [version_entry mv]
     | None => mret [version_entry mv]
     end : M W (list json))
    = mret (previous ++ [version_entry mv])).
  { destruct (lm_tags model !! MLFLOW_MODEL_VERSIONS) as [v|]; simpl.
    - destruct (String.eqb v EmptyString); simpl.
      + now subst previous.
      + unfold loads_and_append. now rewrite Hstored.
    - now subst previous. }
  unfold version_entry in Hnew at 1 2 3. rewrite Hnew.
  erewrite bind_Return by reflexivity.
  unfold client.set_logged_model_tags.
  erewrite invoke_Return by exact Hset.
  f_equal. unfold set_world, record_all, record. simpl.
  rewrite <- app_assoc. reflexivity.
Qed.

Section VersionTag.
Variables (fuel : nat) (model_uri name : string)
  (await_registration_for : option Z) (tags : option (gmap string string))
  (env_pack : option string) (s s1 s2 s3 s5 : State W)
  (rid resolved_id : option string) (source m : string)
  (mv : ModelVersion) (model : LoggedModel) (previous : list json)
  (w4 w6 w7 : W).

Hypothesis registered :
  create_or_reuse_registered_model name s = Return tt s1.
Hypothesis resolved :
  resolve_source fuel model_uri s1 = Return (rid, resolved_id, source) s2.
(** The model id is [m], from the run or from the URI. *)
Hypothesis model_id_found :
  (if truthy resolved_id then inr resolved_id
   else _parse_model_id_if_present model_uri) = inr (Some m).
Hypothesis model_id_truthy : truthy (Some m) = true.
Hypothesis packed :
  pack_environment env_pack model_uri (Some m) s2 = Return tt s3.

Let create_args : CreateVersionArgs :=
  {| cv_name := name;
     cv_source := source;
     cv_run_id := rid;
     cv_tags := tags;
     cv_await_creation_for := await_registration_for;
     cv_local_model_path := None;
     cv_model_id := Some m |}.

Hypothesis created :
  client_create_model_version create_args (world s3) = (inr mv, w4).
Hypothesis printed :
  print_created_message mv
    (set_world w4 (record (ECall (C_create_model_version create_args)) s3))
  = Return tt s5.
Hypothesis got_model :
  client_get_logged_model m (world s5) = (inr model, w6).
Hypothesis stored : stored_versions model previous.

Let new_tags : gmap string string :=
  {[ MLFLOW_MODEL_VERSIONS :=
       json_dumps (JList (previous ++ [version_entry mv])) ]}.

Hypothesis tags_set :
  client_set_logged_model_tags m new_tags w6 = (inr tt, w7).

(** C9. When [register_model] has a model id and has created the
    version, it reads the logged model and sets its tags once, with a
    dictionary of one key, [MLFLOW_MODEL_VERSIONS], whose value is the
    JSON list that was stored under that key (the empty list when
    there was none) with the entry of the new version added at the
    end.  Nothing it does afterwards sets a tag of a logged model, and
    it returns the version. *)
Theorem register_model_appends_version :
  ∃ staging s',
    register_model fuel model_uri name await_registration_for tags
      env_pack s
    = Return mv s'
    ∧ events s'
      = events s5
        ++ [ECall (Cget_logged_model m);
            ECall (Cset_logged_model_tags m new_tags)]
        ++ staging
    ∧ Forall (λ ev, sets_tags ev = false) staging
    ∧ dom new_tags = {[ MLFLOW_MODEL_VERSIONS ]}
    ∧ new_tags !! MLFLOW_MODEL_VERSIONS
      = Some (json_dumps (JList (previous ++ [version_entry mv]))).
Proof.
  destruct (stage_for_serving_returns env_pack mv
              (set_world w7
                 (record_all
                    [ECall (Cget_logged_model m);
                     ECall (Cset_logged_model_tags m new_tags)] s5)))
    as (staging & s' & Hstage & Hevents & Hnone).
  exists staging, s'. repeat split.
  - unfold register_model, _register_model.
    erewrite bind_Return by exact registered.
    erewrite bind_Return by exact resolved.
    unfold register_version.
    erewrite bind_Return with (a := Some m) (s' := s2).
    2:{ destruct (truthy resolved_id); simpl.
        - now injection model_id_found as ->.
        - unfold lift. now rewrite model_id_found. }
    erewrite bind_Return by exact packed.
    erewrite bind_Return by (apply invoke_Return; exact created).
    erewrite bind_Return by exact printed.
    erewrite bind_Return
      by (eapply record_model_version_appends; eassumption).
    erewrite bind_Return by exact Hstage.
    reflexivity.
  - rewrite Hevents. simpl. now rewrite <- app_assoc.
  - exact Hnone.
  - unfold new_tags. apply dom_singleton_L.
  - unfold new_tags. apply lookup_singleton_eq.
Qed.
End VersionTag.
End Register.

(** ** [load_prompt] *)

Create HintDb blind.

Section Prompts.
Context {W : Type} `{!MlflowClient W} `{!Env}.

(** *** What does not touch the prompt cache *)

Lemma blind_ret {A} (a : A) : cache_blind (W := W) (mret a).
Proof. intros cache s. reflexivity. Qed.

Lemma blind_raise {A} e : cache_blind (W := W) (A := A) (raise e).
Proof. intros cache s. reflexivity. Qed.

Lemma blind_lift {A} (r : result A) : cache_blind (W := W) (lift r).
Proof. destruct r; [apply blind_raise|apply blind_ret]. Qed.

Lemma blind_emit ev : cache_blind (W := W) (emit ev).
Proof. intros cache s. reflexivity. Qed.

Lemma blind_invoke {A} c (op : W -> result A * W) :
  cache_blind (invoke c op).
Proof.
  intros cache s. unfold invoke. simpl.
  destruct (op (world s)) as [[err|a] w']; reflexivity.
Qed.

Lemma blind_bind {A B} (m : M W A) (k : A -> M W B) :
  cache_blind m -> (∀ a, cache_blind (k a)) -> cache_blind (m ≫= k).
Proof.
  intros Hm Hk cache s. unfold mbind, M_bind, bind. rewrite Hm.
  destruct (m s) as [a s'|err s'|]; simpl; [apply Hk|reflexivity..].
Qed.

Lemma blind_try_except {A} (body : M W A) handler :
  cache_blind body -> (∀ err, cache_blind (handler err)) ->
  cache_blind (try_except body handler).
Proof.
  intros Hbody Hhandler cache s. unfold try_except. rewrite Hbody.
  destruct (body s) as [a s'|err s'|]; simpl;
    [reflexivity|apply Hhandler|reflexivity].
Qed.

Lemma blind_thread_start eager target task :
  (∀ t, cache_blind (target t)) ->
  cache_blind (W := W) (thread_start eager target task).
Proof.
  intros Htarget cache s. unfold thread_start. destruct eager; [|reflexivity].
  pose (s1 := Build_State (world s) (events s ++ [EThreadStart task])
                (threads s ++ [task]) (prompt_cache s)).
  pose proof (Htarget task cache s1) as Hblind.
  unfold with_cache in Hblind at 1. simpl in Hblind.
  unfold with_cache at 1 2 3 4 5 6. simpl. rewrite Hblind. fold s1.
  destruct (target task s1) as [a s'|err s'|]; reflexivity.
Qed.

#[local] Hint Resolve blind_ret blind_raise blind_lift blind_emit blind_invoke
  blind_bind blind_try_except blind_thread_start : blind.

Lemma blind_load_prompt_not_cached name_or_uri version allow_missing :
  cache_blind (_load_prompt_not_cached name_or_uri version allow_missing).
Proof.
  unfold _load_prompt_not_cached. apply blind_bind; [apply blind_lift|].
  intros [parsed_name parsed_version].
  destruct (startswith _ _); apply blind_invoke.
Qed.

Lemma blind_link_prompt_async task : cache_blind (_link_prompt_async task).
Proof.
  unfold _link_prompt_async, client.link_prompt_version_to_model,
    logger_warning.
  auto with blind.
Qed.

Lemma blind_after_lookup eager link_to_model mid prompt :
  cache_blind (after_lookup eager link_to_model mid prompt).
Proof.
  unfold after_lookup. destruct prompt as [prompt|]; [|apply blind_ret].
  apply blind_bind; [apply blind_invoke|]. intros run.
  apply blind_bind.
  { destruct run; [apply blind_invoke|apply blind_ret]. }
  intros _. apply blind_bind.
  { destruct link_to_model; [|apply blind_ret].
    apply blind_bind.
    - destruct (truthy mid); [apply blind_ret|apply blind_invoke].
    - intros [mid'|]; [|apply blind_ret].
      apply blind_thread_start, blind_link_prompt_async. }
  intros _. apply blind_bind; [apply blind_invoke|]. intros trace_id.
  apply blind_bind; [|intros _; apply blind_ret].
  destruct trace_id as [t|]; [|apply blind_ret].
  destruct (truthy _); [apply blind_invoke|apply blind_ret].
Qed.

(** *** What the lookups log *)

Lemma load_prompt_not_cached_final name_or_uri version allow_missing s s' :
  final (_load_prompt_not_cached name_or_uri version allow_missing s)
  = Some s' ->
  threads s' = threads s
  ∧ ∃ lookups,
      events s' = events s ++ lookups
      ∧ Forall (λ ev, is_lookup ev = true) lookups.
Proof.
  unfold _load_prompt_not_cached, mbind, M_bind, bind.
  destruct (parse_prompt_name_or_uri name_or_uri version)
    as [err|[parsed_name parsed_version]]; simpl.
  - intros [= <-]. split; [reflexivity|]. exists [].
    split; [now rewrite app_nil_r|constructor].
  - destruct (startswith _ _); unfold client.load_prompt, invoke;
      destruct (client_load_prompt _ _ _ _) as [[err|a] w'];
      simpl; intros [= <-]; (split; [reflexivity|]);
      eexists [_]; (split; [reflexivity|]); repeat constructor.
Qed.

Lemma load_prompt_cached_final name_or_uri version allow_missing s s' :
  final (_load_prompt_cached name_or_uri version allow_missing s)
  = Some s' ->
  threads s' = threads s
  ∧ ∃ lookups,
      events s' = events s ++ lookups
      ∧ Forall (λ ev, is_lookup ev = true) lookups.
Proof.
  unfold _load_prompt_cached, lru_cache.
  split_bool_decide;
    [apply load_prompt_not_cached_final|].
  unfold mbind, M_bind, bind, get_prompt_cache, set_prompt_cache.
  destruct (cache_find _ _) as [value|].
  - simpl. intros [= <-]. split; [reflexivity|]. exists [].
    split; [simpl; now rewrite app_nil_r|constructor].
  - pose proof (load_prompt_not_cached_final name_or_uri version
                  allow_missing s) as Hfinal.
    destruct (_load_prompt_not_cached _ _ _ s) as [value s1|err s1|];
      [| |discriminate].
    + specialize (Hfinal s1 eq_refl).
      destruct (cache_find _ _); simpl; intros [= <-]; exact Hfinal.
    + simpl. intros [= <-]. exact (Hfinal s1 eq_refl).
Qed.

Lemma lookup_prompt_final name_or_uri version allow_missing s s' :
  final (lookup_prompt name_or_uri version allow_missing s) = Some s' ->
  threads s' = threads s
  ∧ ∃ lookups,
      events s' = events s ++ lookups
      ∧ Forall (λ ev, is_lookup ev = true) lookups.
Proof.
  unfold lookup_prompt. destruct (contains_char _ _);
    [apply load_prompt_not_cached_final|].
  unfold mbind, M_bind, bind.
  pose proof (load_prompt_cached_final name_or_uri version allow_missing s)
    as Hcached.
  destruct (_load_prompt_cached _ _ _ s) as [[prompt|] s1|err s1|];
    [| | |discriminate].
  - simpl. intros [= <-]. exact (Hcached s1 eq_refl).
  - intros Hfinal.
    destruct (Hcached s1 eq_refl) as (Hthreads1 & lookups1 & Hev1 & Hall1).
    apply load_prompt_not_cached_final in Hfinal
      as (Hthreads2 & lookups2 & Hev2 & Hall2).
    split; [congruence|]. exists (lookups1 ++ lookups2). split.
    + rewrite Hev2, Hev1, <- app_assoc. reflexivity.
    + apply Forall_app. split; assumption.
  - simpl. intros [= <-]. exact (Hcached s1 eq_refl).
Qed.
Lemma blind_load_prompt_by_alias eager name_or_uri version allow_missing
    link_to_model mid :
  contains_char "@" name_or_uri = true ->
  cache_blind
    (load_prompt eager name_or_uri version allow_missing link_to_model mid).
Proof.
  intros Hat. unfold load_prompt, lookup_prompt. rewrite Hat.
  apply blind_bind; [apply blind_invoke|]. intros _.
  apply blind_bind; [apply blind_emit|]. intros _.
  apply blind_bind; [apply blind_load_prompt_not_cached|].
  intros prompt. apply blind_after_lookup.
Qed.

(** *** The background link *)

Lemma invoke_never_raises {A} c (op : W -> result A * W) st :
  never_raises op ->
  ∃ a st', invoke c op st = Return a st' ∧ threads st' = threads st.
Proof.
  intros Hop. destruct (Hop (world st)) as (a & w' & Hcall).
  exists a. eexists. split; [apply invoke_Return; exact Hcall|reflexivity].
Qed.

Lemma link_prompt_async_returns task (st : State W) :
  ∃ st',
    _link_prompt_async task st = Return tt st'
    ∧ threads st' = threads st
    ∧ ∀ err w',
        client_link_prompt_version_to_model (lt_name task) (lt_version task)
          (lt_model_id task) (world st) = (inl err, w') ->
        st' = record
                (ELogWarning
                   ("Failed to link prompt '" +:+ lt_name task +:+
                    "' version '" +:+ pretty (lt_version task) +:+
                    "' to model '" +:+ lt_model_id task +:+ "'.")
                   (Some err))
                (set_world w'
                   (record
                      (ECall (Clink_prompt_version_to_model (lt_name task)
                                (lt_version task) (lt_model_id task)))
                      st)).
Proof.
  unfold _link_prompt_async, try_except,
    client.link_prompt_version_to_model, invoke.
  destruct (client_link_prompt_version_to_model _ _ _ (world st))
    as [[err|[]] w'].
  - eexists. split; [reflexivity|]. split; [reflexivity|].
    intros err' w'' [= <- <-]. reflexivity.
  - eexists. split; [reflexivity|]. split; [reflexivity|].
    intros err' w'' [=].
Qed.

Lemma thread_start_returns eager task (st : State W) :
  ∃ st',
    thread_start eager _link_prompt_async task st = Return tt st'
    ∧ threads st' = threads st ++ [task].
Proof.
  unfold thread_start. destruct eager; [|eexists; split; reflexivity].
  match goal with
  | |- context [_link_prompt_async task ?st1] =>
      destruct (link_prompt_async_returns task st1)
        as (st' & -> & Hthreads & _)
  end.
  exists st'. split; [reflexivity|exact Hthreads].
Qed.

Section MainThreadSucceeds.
(** What [load_prompt] calls on its own thread after the lookup does
    not fail. *)
Hypothesis active_run_answers : never_raises client_active_run.
Hypothesis link_to_run_answers :
  ∀ rid uri, never_raises (client_link_prompt_version_to_run rid uri).
Hypothesis active_model_id_answers : never_raises client_get_active_model_id.
Hypothesis active_trace_id_answers : never_raises client_get_active_trace_id.
Hypothesis register_answers :
  ∀ trace_id prompt,
    never_raises (client_trace_register_prompt trace_id prompt).

Lemma after_lookup_returns eager link_to_model mid prompt st :
  ∃ st',
    after_lookup eager link_to_model mid (Some prompt) st
    = Return (Some prompt) st'
    ∧ (link_to_model = true ->
       ∀ m, mid = Some m -> truthy mid = true ->
            threads st'
            = threads st
              ++ [{| lt_name := pv_name prompt;
                     lt_version := pv_version prompt;
                     lt_model_id := m |}]).
Proof.
  unfold after_lookup.
  destruct (invoke_never_raises Cactive_run client_active_run st
              active_run_answers) as (run & st1 & Hrun & Hthreads1).
  unfold active_run. erewrite bind_Return by exact Hrun.
  assert (Hlinked : ∃ st2,
            match run with
            | Some run =>
                client.link_prompt_version_to_run (run_id (info run))
                  ("prompts:/" +:+ pv_name prompt +:+ "/" +:+
                   pretty (pv_version prompt))
            | None => mret tt
            end st1 = Return tt st2
            ∧ threads st2 = threads st).
  { destruct run as [run|].
    - destruct (invoke_never_raises
                  (Clink_prompt_version_to_run (run_id (info run))
                     ("prompts:/" +:+ pv_name prompt +:+ "/" +:+
                      pretty (pv_version prompt)))
                  (client_link_prompt_version_to_run (run_id (info run))
                     ("prompts:/" +:+ pv_name prompt +:+ "/" +:+
                      pretty (pv_version prompt)))
                  st1 (link_to_run_answers _ _))
        as ([] & st2 & Hlink & Hthreads2).
      exists st2. split; [exact Hlink|congruence].
    - exists st1. split; [reflexivity|exact Hthreads1]. }
  destruct Hlinked as (st2 & Hlinked & Hthreads2).
  erewrite bind_Return by exact Hlinked.
  assert (Hstarted : ∃ st3,
            (if link_to_model then
               mid ← (if truthy mid then mret mid
                      else get_active_model_id);
               match mid with
               | Some mid' =>
                   thread_start eager _link_prompt_async
                     {| lt_name := pv_name prompt;
                        lt_version := pv_version prompt;
                        lt_model_id := mid' |}
               | None => mret tt
               end
             else mret tt) st2 = Return tt st3
            ∧ (link_to_model = true ->
               ∀ m, mid = Some m -> truthy mid = true ->
                    threads st3
                    = threads st2
                      ++ [{| lt_name := pv_name prompt;
                             lt_version := pv_version prompt;
                             lt_model_id := m |}])).
  { destruct link_to_model;
      [|exists st2; split; [reflexivity|discriminate]].
    destruct (truthy mid) eqn:Htruthy.
    - erewrite bind_Return by reflexivity.
      destruct mid as [m|]; [|discriminate].
      destruct (thread_start_returns eager
                  {| lt_name := pv_name prompt;
                     lt_version := pv_version prompt;
                     lt_model_id := m |} st2) as (st3 & Hstart & Hthreads3).
      exists st3. split; [exact Hstart|]. now intros _ m' [= <-] _.
    - destruct (invoke_never_raises Cget_active_model_id
                  client_get_active_model_id st2 active_model_id_answers)
        as (active & st2' & Hactive & _).
      unfold get_active_model_id. erewrite bind_Return by exact Hactive.
      destruct active as [m|].
      + destruct (thread_start_returns eager
                    {| lt_name := pv_name prompt;
                       lt_version := pv_version prompt;
                       lt_model_id := m |} st2') as (st3 & Hstart & _).
        exists st3. split; [exact Hstart|discriminate].
      + exists st2'. split; [reflexivity|discriminate]. }
  destruct Hstarted as (st3 & Hstarted & Hthreads3).
  erewrite bind_Return by exact Hstarted.
  destruct (invoke_never_raises Cget_active_trace_id
              client_get_active_trace_id st3 active_trace_id_answers)
    as (trace_id & st4 & Htrace & Hthreads4).
  unfold get_active_trace_id. erewrite bind_Return by exact Htrace.
  assert (Hregistered : ∃ st5,
            match trace_id with
            | Some t =>
                if truthy trace_id then trace_register_prompt t prompt
                else mret tt
            | None => mret tt
            end st4 = Return tt st5
            ∧ threads st5 = threads st4).
  { destruct trace_id as [t|]; [|exists st4; split; reflexivity].
    destruct (truthy (Some t)); [|exists st4; split; reflexivity].
    destruct (invoke_never_raises (Ctrace_register_prompt t prompt)
                (client_trace_register_prompt t prompt) st4
                (register_answers _ _))
      as ([] & st5 & Hregister & Hthreads5).
    exists st5. split; [exact Hregister|exact Hthreads5]. }
  destruct Hregistered as (st5 & Hregistered & Hthreads5).
  erewrite bind_Return by exact Hregistered.
  exists st5. split; [reflexivity|].
  intros Hlink m Hmid Htruthy.
  rewrite Hthreads5, Hthreads4, (Hthreads3 Hlink m Hmid Htruthy), Hthreads2.
  reflexivity.
Qed.
End MainThreadSucceeds.

Lemma link_prompt_async_settles task :
  settles (W := W) (λ _, True) (_link_prompt_async task).
Proof.
  unfold _link_prompt_async, client.link_prompt_version_to_model,
    logger_warning.
  apply settles_try_except; [apply settles_invoke; intros; exact I|].
  intros err. apply settles_emit; exact I.
Qed.

(** What [load_prompt] does after the lookup ends, and only adds to the
    log. *)
Lemma after_lookup_settles eager link_to_model mid prompt :
  settles (W := W) (λ _, True) (after_lookup eager link_to_model mid prompt).
Proof.
  unfold after_lookup, active_run, client.link_prompt_version_to_run,
    get_active_model_id, get_active_trace_id, trace_register_prompt.
  destruct prompt as [prompt|]; [|apply settles_ret; exact I].
  apply settles_bind; [apply settles_invoke; intros; exact I|].
  intros run. apply settles_bind.
  { destruct run;
      [apply settles_invoke; intros; exact I|apply settles_ret; exact I]. }
  intros _. apply settles_bind.
  { destruct link_to_model; [|apply settles_ret; exact I].
    apply settles_bind.
    { destruct (truthy mid);
        [apply settles_ret; exact I|apply settles_invoke; intros; exact I]. }
    intros [m|]; [|apply settles_ret; exact I].
    apply settles_thread_start; [exact I|].
    intros t. apply link_prompt_async_settles. }
  intros _. apply settles_bind; [apply settles_invoke; intros; exact I|].
  intros trace_id.
  apply settles_bind; [|intros _; apply settles_ret; exact I].
  destruct trace_id as [t|]; [|apply settles_ret; exact I].
  destruct (truthy (Some t));
    [apply settles_invoke; intros; exact I|apply settles_ret; exact I].
Qed.

(** *** The theorems *)

Section Loaded.
Variables (eager : bool) (name_or_uri : string)
  (version : option pyversion) (link_to_model : bool)
  (mid : option string) (s0 : State W) (w1 : W).

(** The decorator lets the call through. *)
Hypothesis registry_supported :
  client_require_prompt_registry (world s0) = (inr tt, w1).

(** The state in which the lookup starts. *)
Let s : State W :=
  record (EFutureWarning (PROMPT_API_MIGRATION_MSG "load_prompt"))
    (set_world w1 (record (ECall Crequire_prompt_registry) s0)).

Lemma load_prompt_starts allow_missing :
  load_prompt eager name_or_uri version allow_missing link_to_model mid s0
  = (lookup_prompt name_or_uri version allow_missing
     ≫= after_lookup eager link_to_model mid) s.
Proof.
  unfold load_prompt.
  erewrite bind_Return by (apply invoke_Return; exact registry_supported).
  erewrite bind_Return by reflexivity. reflexivity.
Qed.

(** C7. For a name without [@], when the cached lookup returns [None],
    [load_prompt] asks the registry again, with nothing in between: the
    call is the next entry of the log, made with the parsed name and
    version ([None] for a [prompts:/] URI).  What the registry answers
    this time is what [load_prompt] goes on with: its exception is
    raised, its [None] is returned, and its prompt is handed to the
    linking and returned when the calls made on the caller's own thread
    answer.  For a name with [@] it makes the uncached lookup only, and
    the prompt cache plays no part: with any other cache the call does
    the same and leaves that cache as it was. *)
Theorem load_prompt_cache_fallback allow_missing :
  (contains_char "@" name_or_uri = false ->
   ∀ s1 parsed_name parsed_version answer w2,
     _load_prompt_cached name_or_uri version allow_missing s
     = Return None s1 ->
     parse_prompt_name_or_uri name_or_uri version
     = inr (parsed_name, parsed_version) ->
     let asked_version :=
       if startswith "prompts:/" parsed_name then None
       else parsed_version in
     client_load_prompt parsed_name asked_version allow_missing (world s1)
     = (answer, w2) ->
     let s2 :=
       set_world w2
         (record
            (ECall (Cload_prompt parsed_name asked_version allow_missing))
            s1) in
     match answer with
     | inl e =>
         load_prompt eager name_or_uri version allow_missing link_to_model
           mid s0
         = Raise e s2
     | inr None =>
         load_prompt eager name_or_uri version allow_missing link_to_model
           mid s0
         = Return None s2
     | inr (Some prompt) =>
         load_prompt eager name_or_uri version allow_missing link_to_model
           mid s0
         = after_lookup eager link_to_model mid (Some prompt) s2
         ∧ (never_raises client_active_run ->
            (∀ rid uri,
               never_raises (client_link_prompt_version_to_run rid uri)) ->
            never_raises client_get_active_model_id ->
            never_raises client_get_active_trace_id ->
            (∀ trace_id p,
               never_raises (client_trace_register_prompt trace_id p)) ->
            ∃ s' rest,
              load_prompt eager name_or_uri version allow_missing
                link_to_model mid s0
              = Return (Some prompt) s'
              ∧ events s' = events s2 ++ rest)
     end)
  ∧ (contains_char "@" name_or_uri = true ->
     load_prompt eager name_or_uri version allow_missing link_to_model
       mid s0
     = (_load_prompt_not_cached name_or_uri version allow_missing
        ≫= after_lookup eager link_to_model mid) s
     ∧ ∀ cache,
         load_prompt eager name_or_uri version allow_missing
           link_to_model mid (with_cache cache s0)
         = over_cache cache
             (load_prompt eager name_or_uri version allow_missing
                link_to_model mid s0)).
Proof.
  split.
  - intros Hat s1 parsed_name parsed_version answer w2 Hcached Hparse
      asked_version Hload s2.
    assert (Hstart :
      load_prompt eager name_or_uri version allow_missing link_to_model
        mid s0
      = (_load_prompt_not_cached name_or_uri version allow_missing
         ≫= after_lookup eager link_to_model mid) s1).
    { rewrite load_prompt_starts. unfold lookup_prompt. rewrite Hat.
      unfold mbind at 1. unfold M_bind, bind at 1.
      erewrite bind_Return by exact Hcached. reflexivity. }
    assert (Hasked :
      _load_prompt_not_cached name_or_uri version allow_missing s1
      = match answer with
        | inl e => Raise e s2
        | inr found => Return found s2
        end).
    { unfold _load_prompt_not_cached. rewrite Hparse. unfold lift.
      erewrite bind_Return by reflexivity. cbv beta iota.
      unfold s2, asked_version in *. unfold client.load_prompt, invoke.
      destruct (startswith "prompts:/" parsed_name); rewrite Hload;
        destruct answer; reflexivity. }
    rewrite Hstart. destruct answer as [e|[prompt|]].
    + erewrite bind_Raise by exact Hasked. reflexivity.
    + erewrite bind_Return by exact Hasked. split; [reflexivity|].
      intros Hrun Hlink Hmodel Htrace Hregister.
      destruct (after_lookup_returns Hrun Hlink Hmodel Htrace Hregister
                  eager link_to_model mid prompt s2) as (s' & Hafter & _).
      destruct (after_lookup_settles eager link_to_model mid (Some prompt)
                  s2) as (s'' & rest & Hevents & Hout).
      exists s', rest. split; [exact Hafter|].
      rewrite Hafter in Hout.
      destruct Hout as [(found & _ & [= _ ->])|(err & [=])].
      exact Hevents.
    + erewrite bind_Return by exact Hasked. reflexivity.
  - intros Hat. split.
    + rewrite load_prompt_starts. unfold lookup_prompt. now rewrite Hat.
    + intros cache. now apply blind_load_prompt_by_alias.
Qed.

(** C10. When [load_prompt] is called with [allow_missing=True] and
    the lookup ends with [None], it returns [None] in the state the
    lookup left: since the call came in, the log has only the
    decorator's check, the deprecation warning and calls that load a
    prompt, so no run linking, no model linking, no trace
    registration; and no thread was started. *)
Theorem load_prompt_missing s2 :
  lookup_prompt name_or_uri version true s = Return None s2 ->
  load_prompt eager name_or_uri version true link_to_model mid s0
  = Return None s2
  ∧ threads s2 = threads s0
  ∧ ∃ lookups,
      events s2
      = events s0
        ++ [ECall Crequire_prompt_registry;
            EFutureWarning (PROMPT_API_MIGRATION_MSG "load_prompt")]
        ++ lookups
      ∧ Forall (λ ev, is_lookup ev = true) lookups.
Proof.
  intros Hlookup. split; [|].
  - rewrite load_prompt_starts.
    erewrite bind_Return by exact Hlookup. reflexivity.
  - destruct (lookup_prompt_final name_or_uri version true s s2)
      as (Hthreads & lookups & Hevents & Hall).
    { now rewrite Hlookup. }
    split; [exact Hthreads|]. exists lookups. split; [|exact Hall].
    rewrite Hevents. unfold s. simpl. rewrite <- !app_assoc. reflexivity.
Qed.

End Loaded.
End Prompts.

(** ** The properties on the scripted world *)

Section PaginationExamples.
Import Mock.

(** Two pages, the first with token [x]: three items come back, two of
    them of run [r1], and the second search carries [x]. *)
Lemma get_logged_models_from_run_pages_witness :
  _get_logged_models_from_run 5 run1 "model"
    (start [RLoggedModels (inr page1); RLoggedModels (inr page2)])
  = Return [logged "a" "r1"; logged "c" "r1"]
      (Build_State []
         [ECall (Csearch_logged_models ["e1"] "name = 'model'" None);
          ECall (Csearch_logged_models ["e1"] "name = 'model'" (Some "x"))]
         [] []).
Proof.
  apply (get_logged_models_from_run_pages run1 "model" [page1] page2
           (start [RLoggedModels (inr page1); RLoggedModels (inr page2)])
           [] 5).
  - repeat constructor.
  - reflexivity.
  - unfold answers. simpl. eauto.
  - simpl. lia.
Defined.

Lemma get_logged_models_from_run_second_raises_witness :
  _get_logged_models_from_run 5 run1 "model"
    (start [RLoggedModels (inr page1);
            RLoggedModels (inl (OtherException "connection reset"))])
  = Raise (OtherException "connection reset")
      (Build_State []
         [ECall (Csearch_logged_models ["e1"] "name = 'model'" None);
          ECall (Csearch_logged_models ["e1"] "name = 'model'" (Some "x"))]
         [] []).
Proof.
  apply (get_logged_models_from_run_second_raises run1 "model" page1
           (OtherException "connection reset")
           (start [RLoggedModels (inr page1);
                   RLoggedModels (inl (OtherException "connection reset"))])
           [RLoggedModels (inl (OtherException "connection reset"))] []
           5).
  - reflexivity.
  - reflexivity.
  - reflexivity.
  - lia.
Defined.
End PaginationExamples.

Section SearchExamples.
Import Mock.

Lemma mock_registered_models_honour :
  honours_page_size
    (client_search_registered_models (W := list Response)).
Proof.
  intros n filter_string order_by page_token w page w' Hcall Hn.
  destruct w as [|[] w]; simpl in Hcall; try discriminate.
  injection Hcall as <- <-. simpl. rewrite length_take. lia.
Qed.

Lemma mock_model_versions_honour :
  honours_page_size (client_search_model_versions (W := list Response)).
Proof.
  intros n filter_string order_by page_token w page w' Hcall Hn.
  destruct w as [|[] w]; simpl in Hcall; try discriminate.
  injection Hcall as <- <-. simpl. rewrite length_take. lia.
Qed.

(** Asked for two of the four registered models, the search returns two
    and stops; asked for all, it returns the four. *)
Example search_registered_models_two :
  search_registered_models 5 (Some 2) None None
    (start (RRegisteredModels <$> registered_pages))
  = Return [{| rm_name := "a" |}; {| rm_name := "b" |}]
      (Build_State
         [RRegisteredModels (Build_PagedList [{| rm_name := "d" |}] None)]
         [ECall (Csearch_registered_models 2 None None None)] [] []).
Proof. reflexivity. Qed.

Example search_registered_models_everything :
  search_registered_models 5 None None None
    (start (RRegisteredModels <$> registered_pages))
  = Return [{| rm_name := "a" |}; {| rm_name := "b" |};
            {| rm_name := "c" |}; {| rm_name := "d" |}]
      (Build_State []
         [ECall (Csearch_registered_models 100 None None None);
          ECall (Csearch_registered_models 100 None None (Some "x"))]
         [] []).
Proof. reflexivity. Qed.

(** Asked for two, the scripted remote is within the bound. *)
Lemma searches_respect_max_results_witness :
  search_registered_models 5 (Some 2) None None
    (start (RRegisteredModels <$> registered_pages))
  = Return [{| rm_name := "a" |}; {| rm_name := "b" |}]
      (Build_State
         [RRegisteredModels (Build_PagedList [{| rm_name := "d" |}] None)]
         [ECall (Csearch_registered_models 2 None None None)] [] [])
  ∧ Z.of_nat (length [{| rm_name := "a" |}; {| rm_name := "b" |}]) ≤ 2.
Proof.
  split; [reflexivity|].
  refine (proj1
            (searches_respect_max_results 5 None None
               (start (RRegisteredModels <$> registered_pages)) _ _
               mock_registered_models_honour mock_model_versions_honour)
            2 _
            (Build_State
               [RRegisteredModels
                  (Build_PagedList [{| rm_name := "d" |}] None)]
               [ECall (Csearch_registered_models 2 None None None)] [] [])
            _ _).
  - simpl. lia.
  - simpl. lia.
  - lia.
  - reflexivity.
Defined.
End SearchExamples.

Section RegisterExamples.
Import Mock.

(** The model [m] exists already; the version is asked for under that
    name. *)
Lemma register_model_already_exists_witness :
  creates_version
    (register_model 5 "models:/m1" "m" None None None
       (start (RRegisteredModel (inl exists_already)
                 :: version_created tagged)))
    (Build_State (version_created tagged)
       [ECall (Ccreate_registered_model "m");
        EEprint "Registered model 'm' already exists. Creating a new version of this model..."]
       [] [])
    {| cv_name := "m";
       cv_source := "models:/m1";
       cv_run_id := None;
       cv_tags := None;
       cv_await_creation_for := None;
       cv_local_model_path := None;
       cv_model_id := Some "m1" |}.
Proof.
  refine (proj2
            (proj1
               (register_model_already_exists 5 "models:/m1" "m" None None
                  None
                  (start (RRegisteredModel (inl exists_already)
                            :: version_created tagged))
                  "Registered Model (name=m) already exists."
                  RESOURCE_ALREADY_EXISTS (version_created tagged) _) _)
            None None "models:/m1" _ (Some "m1") _ _ _ _).
  - reflexivity.
  - apply list_elem_of_here.
  - reflexivity.
  - reflexivity.
  - reflexivity.
Defined.

(** The whole run of that call: the version is created under the name
    that was there already. *)
Example register_model_already_exists_run :
  ∃ s',
    register_model 5 "models:/m1" "m" None None None
      (start (RRegisteredModel (inl exists_already)
                :: version_created tagged))
    = Return version2 s'
    ∧ take 3 (events s')
      = [ECall (Ccreate_registered_model "m");
         EEprint "Registered model 'm' already exists. Creating a new version of this model...";
         ECall (C_create_model_version
                  {| cv_name := "m";
                     cv_source := "models:/m1";
                     cv_run_id := None;
                     cv_tags := None;
                     cv_await_creation_for := None;
                     cv_local_model_path := None;
                     cv_model_id := Some "m1" |})].
Proof. eexists. split; reflexivity. Qed.

Lemma register_model_not_found_witness :
  register_model 5 "runs:/r1/model" "m" None None None
    (start (without_artifacts run1 [page_other]))
  = Raise
      (MlflowException
         "Unable to find a logged_model with artifact_path model under run r1"
         "INTERNAL_ERROR")
      (Build_State []
         [ECall (Ccreate_registered_model "m");
          EEprint "Successfully registered model 'm'.";
          ECall (CRunsArtifactRepository "runs:/r1/model");
          ECall (C_list_run_artifacts "runs:/r1/model");
          ECall (Cget_run "r1");
          ECall (Csearch_logged_models ["e1"] "name = 'model'" None)]
         [] []).
Proof.
  refine (proj1
           (register_model_not_found 5 "runs:/r1/model" "m" None None None
           (start (without_artifacts run1 [page_other]))
           (Build_State
              [RUnit (inr tt); RArtifacts (inr [{| path := "conda.yaml" |}]);
               RRun (inr run1); RLoggedModels (inr page_other)]
              [ECall (Ccreate_registered_model "m");
               EEprint "Successfully registered model 'm'."] [] [])
           "r1" "model" [{| path := "conda.yaml" |}] run1 [] page_other
           [RArtifacts (inr [{| path := "conda.yaml" |}]);
            RRun (inr run1); RLoggedModels (inr page_other)]
           [RRun (inr run1); RLoggedModels (inr page_other)]
           [RLoggedModels (inr page_other)] [] _ _ _ _ _ _ _ _ _ _ _ _)).
  - reflexivity.
  - reflexivity.
  - reflexivity.
  - reflexivity.
  - reflexivity.
  - intros Hin. apply elem_of_cons in Hin as [Heq|Hin];
      [discriminate Heq|inversion Hin].
  - reflexivity.
  - constructor.
  - reflexivity.
  - unfold answers. simpl. eauto.
  - simpl. lia.
  - reflexivity.
Defined.



(** The whole run with the models [a] at step 3 and [c] at step 7: the
    version is created for the model of step 7. *)
Example register_model_largest_step_run :
  ∃ s',
    register_model 5 "runs:/r1/model" "m" None None None
      (start (without_artifacts run2 [page1; page2]
              ++ version_created (logged "c" "r1")))
    = Return version2 s'
    ∧ events s' !! 8%nat
      = Some (ECall (C_create_model_version
                       {| cv_name := "m";
                          cv_source := "models:/c";
                          cv_run_id := Some "r1";
                          cv_tags := None;
                          cv_await_creation_for := None;
                          cv_local_model_path := None;
                          cv_model_id := Some "c" |})).
Proof. eexists. split; reflexivity. Qed.

(** A model that has version 1 in its tag gets version 2 added. *)
Lemma register_model_appends_version_witness :
  ∃ s',
    register_model 5 "models:/m1" "m" None None None
      (start (RRegisteredModel (inr registered_m) :: version_created tagged))
    = Return version2 s'.
Proof.
  edestruct (register_model_appends_version 5 "models:/m1" "m" None None
               None
               (start (RRegisteredModel (inr registered_m)
                         :: version_created tagged)))
    with (previous := [noted "m" "1"]) (m := "m1") (mv := version2)
         (model := tagged)
    as (staging & s' & Hrun & _).
  - reflexivity.
  - reflexivity.
  - reflexivity.
  - reflexivity.
  - reflexivity.
  - reflexivity.
  - reflexivity.
  - reflexivity.
  - reflexivity.
  - reflexivity.
  - exists s'. exact Hrun.
Defined.

(** The whole log of that call: the tag is read, and set once. *)
Example register_model_appends_version_run :
  register_model 5 "models:/m1" "m" None None None
    (start (RRegisteredModel (inr registered_m) :: version_created tagged))
  = Return version2
      (Build_State []
         [ECall (Ccreate_registered_model "m");
          EEprint "Successfully registered model 'm'.";
          ECall (C_create_model_version
                   {| cv_name := "m";
                      cv_source := "models:/m1";
                      cv_run_id := None;
                      cv_tags := None;
                      cv_await_creation_for := None;
                      cv_local_model_path := None;
                      cv_model_id := Some "m1" |});
          ECall Cget_registry_uri;
          ECall Cprint_model_urls_on_creation;
          EEprint "Created version '2' of model 'm'.";
          ECall (Cget_logged_model "m1");
          ECall (Cset_logged_model_tags "m1"
                   {[ "mlflow.modelVersions" :=
                        dumps (JList [noted "m" "1"; noted "m" "2"]) ]})]
         [] []).
Proof. vm_compute. reflexivity. Qed.
End RegisterExamples.

Section PromptExamples.
Import Mock.

Lemma pop_or_never_raises {A} (select : Response -> option A) default :
  never_raises (pop_or select default).
Proof.
  intros [|r w]; simpl; [eauto|]. destruct (select r); eauto.
Qed.

(** The cached lookup finds nothing, the uncached one that follows finds
    the prompt, and the prompt is returned. *)
Lemma load_prompt_cache_fallback_witness :
  ∃ s' rest,
    load_prompt false "p" (Some (VInt 1)) true true (Some "m1")
      (start [RUnit (inr tt); RPrompt (inr None);
              RPrompt (inr (Some prompt1))])
    = Return (Some prompt1) s'
    ∧ events s'
      = [ECall Crequire_prompt_registry;
         EFutureWarning (PROMPT_API_MIGRATION_MSG "load_prompt");
         ECall (Cload_prompt "p" (Some (VInt 1)) true);
         ECall (Cload_prompt "p" (Some (VInt 1)) true)]
        ++ rest.
Proof.
  assert (registry_supported :
    client_require_prompt_registry
      (world (start [RUnit (inr tt); RPrompt (inr None);
                     RPrompt (inr (Some prompt1))]))
    = (inr tt, [RPrompt (inr None); RPrompt (inr (Some prompt1))]))
    by reflexivity.
  pose proof (proj1
                (load_prompt_cache_fallback false "p" (Some (VInt 1)) true
                   (Some "m1")
                   (start [RUnit (inr tt); RPrompt (inr None);
                           RPrompt (inr (Some prompt1))])
                   [RPrompt (inr None); RPrompt (inr (Some prompt1))]
                   registry_supported true)) as Hfallback.
  specialize (Hfallback eq_refl
                (Build_State [RPrompt (inr (Some prompt1))]
                   [ECall Crequire_prompt_registry;
                    EFutureWarning (PROMPT_API_MIGRATION_MSG "load_prompt");
                    ECall (Cload_prompt "p" (Some (VInt 1)) true)]
                   [] [("p", Some (VInt 1), true, None)])
                "p" (Some (VInt 1)) (inr (Some prompt1)) []
                eq_refl eq_refl eq_refl).
  destruct Hfallback as (_ & Hreturns).
  destruct Hreturns as (s' & rest & Hrun & Hevents).
  - apply pop_or_never_raises.
  - intros rid uri. apply pop_or_never_raises.
  - apply pop_or_never_raises.
  - apply pop_or_never_raises.
  - intros trace_id p. apply pop_or_never_raises.
  - exists s', rest. split; [exact Hrun|exact Hevents].
Defined.

Example load_prompt_cache_fallback_run :
  load_prompt false "p" (Some (VInt 1)) true true (Some "m1")
    (start [RUnit (inr tt); RPrompt (inr None);
            RPrompt (inr (Some prompt1))])
  = Return (Some prompt1)
      (Build_State []
         [ECall Crequire_prompt_registry;
          EFutureWarning (PROMPT_API_MIGRATION_MSG "load_prompt");
          ECall (Cload_prompt "p" (Some (VInt 1)) true);
          ECall (Cload_prompt "p" (Some (VInt 1)) true);
          ECall Cactive_run;
          EThreadStart
            {| lt_name := "p"; lt_version := 1; lt_model_id := "m1" |};
          ECall Cget_active_trace_id]
         [{| lt_name := "p"; lt_version := 1; lt_model_id := "m1" |}]
         [("p", Some (VInt 1), true, None)]).
Proof. reflexivity. Qed.

(** Both lookups find nothing. *)
Lemma load_prompt_missing_witness :
  load_prompt false "p" (Some (VInt 1)) true true (Some "m1")
    (start [RUnit (inr tt); RPrompt (inr None); RPrompt (inr None)])
  = Return None
      (Build_State []
         [ECall Crequire_prompt_registry;
          EFutureWarning (PROMPT_API_MIGRATION_MSG "load_prompt");
          ECall (Cload_prompt "p" (Some (VInt 1)) true);
          ECall (Cload_prompt "p" (Some (VInt 1)) true)]
         [] [("p", Some (VInt 1), true, None)]).
Proof.
  refine (proj1
            (load_prompt_missing false "p" (Some (VInt 1)) true (Some "m1")
               (start [RUnit (inr tt); RPrompt (inr None);
                       RPrompt (inr None)])
               [RPrompt (inr None); RPrompt (inr None)] _ _ _)).
  - reflexivity.
  - reflexivity.
Defined.


Example load_prompt_link_failure_run :
  load_prompt true "p" (Some (VInt 1)) false true (Some "m1")
    (start [RUnit (inr tt); RPrompt (inr (Some prompt1));
            RUnit (inl (OtherException "link failed"))])
  = Return (Some prompt1)
      (Build_State []
         [ECall Crequire_prompt_registry;
          EFutureWarning (PROMPT_API_MIGRATION_MSG "load_prompt");
          ECall (Cload_prompt "p" (Some (VInt 1)) false);
          ECall Cactive_run;
          EThreadStart
            {| lt_name := "p"; lt_version := 1; lt_model_id := "m1" |};
          ECall (Clink_prompt_version_to_model "p" 1 "m1");
          ELogWarning "Failed to link prompt 'p' version '1' to model 'm1'."
            (Some (OtherException "link failed"));
          ECall Cget_active_trace_id]
         [{| lt_name := "p"; lt_version := 1; lt_model_id := "m1" |}]
         [("p", Some (VInt 1), false, Some prompt1)]).
Proof. reflexivity. Qed.
End PromptExamples.

(** * Further properties *)

(** ** More on the pagination loop of [_get_logged_models_from_run] *)

Section PaginationMore.
Context {W : Type} `{!MlflowClient W}.

Lemma loop_keeps_run fuel source_run model_name :
  ∀ acc page_token (s : State W) logged_models s',
    Forall (λ m, source_run_id m = Some (run_id (info source_run))) acc ->
    _get_logged_models_loop fuel source_run model_name acc page_token s
    = Return logged_models s' ->
    Forall (λ m, source_run_id m = Some (run_id (info source_run)))
      logged_models.
Proof.
  induction fuel as [|fuel IH];
    intros acc page_token s logged_models s' Hacc Hrun.
  - discriminate.
  - cbn [_get_logged_models_loop] in Hrun.
    unfold mbind, M_bind, bind in Hrun.
    destruct (client.search_logged_models _ _ _ s) as [page s1|err s1|];
      [|discriminate|discriminate].
    assert (Hacc' :
      Forall (λ m, source_run_id m = Some (run_id (info source_run)))
        (acc ++ filter
                  (λ m, source_run_id m = Some (run_id (info source_run)))
                  (items page))).
    { apply Forall_app. split; [exact Hacc|].
      apply Forall_forall. intros m Hm.
      apply list_elem_of_filter in Hm. tauto. }
    destruct (negb (truthy (token page))).
    + injection Hrun as <- _. exact Hacc'.
    + eapply IH; [exact Hacc'|exact Hrun].
Qed.

(** X1. Whatever the remote sends, every logged model that
    [_get_logged_models_from_run] returns has the id of the source run as
    its [source_run_id]. *)
Theorem get_logged_models_from_run_only_of_run
    fuel source_run model_name (s : State W) logged_models s' :
  _get_logged_models_from_run fuel source_run model_name s
  = Return logged_models s' ->
  Forall (λ m, source_run_id m = Some (run_id (info source_run)))
    logged_models.
Proof.
  intros Hrun. unfold _get_logged_models_from_run in Hrun.
  eapply loop_keeps_run; [constructor|exact Hrun].
Qed.

Lemma loop_searches fuel source_run model_name :
  ∀ acc page_token,
    emits (λ ev, ∃ t, ev = ECall (search_call source_run model_name t))
      (_get_logged_models_loop fuel source_run model_name acc page_token).
Proof.
  induction fuel as [|fuel IH]; intros acc page_token s s' Hfinal.
  - discriminate.
  - cbn [_get_logged_models_loop] in Hfinal.
    unfold mbind, M_bind, bind, client.search_logged_models, invoke in Hfinal.
    destruct (client_search_logged_models _ _ _ (world s))
      as [[err|page] w1].
    + injection Hfinal as <-. eexists [_]. split; [reflexivity|].
      constructor; [|constructor]. exists page_token. reflexivity.
    + destruct (negb (truthy (token page))).
      * injection Hfinal as <-. eexists [_]. split; [reflexivity|].
        constructor; [|constructor]. exists page_token. reflexivity.
      * apply IH in Hfinal as (evs & Hevents & Hall).
        exists (ECall (search_call source_run model_name page_token) :: evs).
        split.
        -- rewrite Hevents. simpl. rewrite <- app_assoc. reflexivity.
        -- constructor; [|exact Hall]. exists page_token. reflexivity.
Qed.

(** X2. However [_get_logged_models_from_run] ends, all it has done is
    search logged models, each time in the one experiment of the source
    run and with the filter [name = '<model_name>']; only the page token
    changes from call to call. *)
Theorem get_logged_models_from_run_searches
    fuel source_run model_name (s s' : State W) :
  final (_get_logged_models_from_run fuel source_run model_name s) = Some s' ->
  ∃ tokens : list (option string),
    events s'
    = events s
      ++ ((λ t, ECall (Csearch_logged_models
                         [experiment_id (info source_run)]
                         ("name = '" +:+ model_name +:+ "'") t)) <$> tokens).
Proof.
  intros Hfinal. apply loop_searches in Hfinal as (evs & Hevents & Hall).
  rewrite Hevents. clear Hevents.
  induction Hall as [|ev evs (t & ->) _ (tokens & IH)].
  - exists []. reflexivity.
  - exists (t :: tokens). simpl.
    apply app_inv_head in IH. rewrite IH. reflexivity.
Qed.

(** X3. The loop has no bound of its own: with a remote that answers every
    search with a page that has a token, [_get_logged_models_from_run]
    never returns, whatever the number of turns allowed. *)
Theorem get_logged_models_from_run_endless source_run model_name :
  (∀ page_token w,
     ∃ page w',
       client_search_logged_models [experiment_id (info source_run)]
         ("name = '" +:+ model_name +:+ "'") page_token w = (inr page, w')
       ∧ truthy (token page) = true) ->
  ∀ fuel (s : State W),
    _get_logged_models_from_run fuel source_run model_name s = Diverge.
Proof.
  intros Hmore fuel. unfold _get_logged_models_from_run.
  generalize (@nil LoggedModel) (@None string).
  induction fuel as [|fuel IH]; intros acc page_token s; [reflexivity|].
  cbn [_get_logged_models_loop].
  destruct (Hmore page_token (world s)) as (page & w' & Hcall & Htoken).
  erewrite bind_Return by (apply invoke_Return; exact Hcall).
  rewrite Htoken. cbn [negb]. apply IH.
Qed.

Lemma loop_raises source_run model_name pages :
  Forall (λ page, truthy (token page) = true) pages ->
  ∀ acc page_token (s : State W) w1 e w2 fuel,
    answers source_run model_name (world s) page_token pages w1 ->
    client_search_logged_models [experiment_id (info source_run)]
      ("name = '" +:+ model_name +:+ "'") (token_after page_token pages) w1
    = (inl e, w2) ->
    (length pages < fuel)%nat ->
    _get_logged_models_loop fuel source_run model_name acc page_token s
    = Raise e
        (set_world w2
           (record_all
              (ECall ∘ search_call source_run model_name
                 <$> page_token :: (token <$> pages)) s)).
Proof.
  intros Hmore. induction Hmore as [|page pages Hpage _ IH];
    intros acc page_token s w1 e w2 fuel Hans Hraise Hfuel.
  - destruct fuel as [|fuel]; [simpl in Hfuel; lia|].
    unfold answers in Hans. simpl in Hans. subst w1.
    cbn [_get_logged_models_loop].
    erewrite bind_Raise; [|apply invoke_Raise; exact Hraise]. reflexivity.
  - destruct fuel as [|fuel]; [simpl in Hfuel; lia|].
    unfold answers in Hans. simpl in Hans.
    destruct Hans as (w0 & Hcall & Hans).
    cbn [_get_logged_models_loop].
    erewrite bind_Return by (apply invoke_Return; exact Hcall).
    rewrite Hpage. cbn [negb].
    rewrite (IH _ (token page) _ w1 e w2 fuel);
      [|exact Hans| |simpl in Hfuel; lia].
    + f_equal. apply record_all_cons.
    + unfold token_after in *. rewrite last_cons in Hraise.
      destruct (last pages); exact Hraise.
Qed.

(** X4. A search that raises ends [_get_logged_models_from_run] at any
    page: after pages that all had a token, when the next search raises,
    the function raises that exception; it has made one search per page
    and the one that failed, and returns nothing of what it had
    gathered. *)
Theorem get_logged_models_from_run_raises
    source_run model_name pages (s : State W) w1 e w2 fuel :
  Forall (λ page, truthy (token page) = true) pages ->
  answers source_run model_name (world s) None pages w1 ->
  client_search_logged_models [experiment_id (info source_run)]
    ("name = '" +:+ model_name +:+ "'") (token_after None pages) w1
  = (inl e, w2) ->
  (length pages < fuel)%nat ->
  _get_logged_models_from_run fuel source_run model_name s
  = Raise e
      (set_world w2
         (record_all
            (ECall ∘ search_call source_run model_name
               <$> None :: (token <$> pages)) s)).
Proof.
  intros Hmore Hans Hraise Hfuel. unfold _get_logged_models_from_run.
  now apply (loop_raises source_run model_name pages Hmore [] None s w1).
Qed.
End PaginationMore.

(** ** What a computation adds to the log *)

Section Emits.
Context {W : Type}.

Lemma emits_ret P {A} (a : A) : emits (W := W) P (mret a).
Proof.
  intros s s' [= <-]. exists []. split; [now rewrite app_nil_r|constructor].
Qed.

Lemma emits_raise P {A} e : emits (W := W) (A := A) P (raise e).
Proof.
  intros s s' [= <-]. exists []. split; [now rewrite app_nil_r|constructor].
Qed.

Lemma emits_diverge P {A} : emits (W := W) (A := A) P diverge.
Proof. intros s s' [=]. Qed.

Lemma emits_lift P {A} (r : result A) : emits (W := W) P (lift r).
Proof. destruct r; [apply emits_raise|apply emits_ret]. Qed.

Lemma emits_emit (P : Event -> Prop) ev : P ev -> emits (W := W) P (emit ev).
Proof.
  intros Hev s s' [= <-]. exists [ev]. split; [reflexivity|].
  constructor; [exact Hev|constructor].
Qed.

Lemma emits_invoke (P : Event -> Prop) {A} c (op : W -> result A * W) :
  P (ECall c) -> emits P (invoke c op).
Proof.
  intros Hev s s' Hfinal. exists [ECall c]. split.
  - unfold invoke in Hfinal.
    destruct (op (world s)) as [[err|a] w']; injection Hfinal as <-;
      reflexivity.
  - constructor; [exact Hev|constructor].
Qed.

Lemma emits_bind P {A B} (m : M W A) (k : A -> M W B) :
  emits P m -> (∀ a, emits P (k a)) -> emits P (m ≫= k).
Proof.
  intros Hm Hk s s' Hfinal. unfold mbind, M_bind, bind in Hfinal.
  specialize (Hm s). destruct (m s) as [a s1|err s1|]; [| |discriminate].
  - destruct (Hm s1 eq_refl) as (evs1 & Hev1 & Hall1).
    destruct (Hk a s1 s' Hfinal) as (evs2 & Hev2 & Hall2).
    exists (evs1 ++ evs2). split.
    + rewrite Hev2, Hev1, <- app_assoc. reflexivity.
    + apply Forall_app. split; assumption.
  - injection Hfinal as <-. exact (Hm s1 eq_refl).
Qed.

Lemma emits_try_except P {A} (body : M W A) handler :
  emits P body -> (∀ err, emits P (handler err)) ->
  emits P (try_except body handler).
Proof.
  intros Hbody Hhandler s s' Hfinal. unfold try_except in Hfinal.
  specialize (Hbody s).
  destruct (body s) as [a s1|err s1|]; [| |discriminate].
  - injection Hfinal as <-. exact (Hbody s1 eq_refl).
  - destruct (Hbody s1 eq_refl) as (evs1 & Hev1 & Hall1).
    destruct (Hhandler err s1 s' Hfinal) as (evs2 & Hev2 & Hall2).
    exists (evs1 ++ evs2). split.
    + rewrite Hev2, Hev1, <- app_assoc. reflexivity.
    + apply Forall_app. split; assumption.
Qed.

Lemma emits_try_finally P {A} (body : M W A) cleanup :
  emits P body -> emits P cleanup -> emits P (try_finally body cleanup).
Proof.
  intros Hbody Hcleanup s s' Hfinal. unfold try_finally in Hfinal.
  specialize (Hbody s).
  destruct (body s) as [a s1|err s1|]; [| |discriminate];
    destruct (Hbody s1 eq_refl) as (evs1 & Hev1 & Hall1);
    specialize (Hcleanup s1);
    destruct (cleanup s1) as [[] s2|err2 s2|]; try discriminate;
    injection Hfinal as <-;
    destruct (Hcleanup s2 eq_refl) as (evs2 & Hev2 & Hall2);
    exists (evs1 ++ evs2);
    (split; [rewrite Hev2, Hev1, <- app_assoc; reflexivity
            |apply Forall_app; split; assumption]).
Qed.

Lemma emits_thread_start (P : Event -> Prop) eager target task :
  P (EThreadStart task) -> (∀ t, emits P (target t)) ->
  emits (W := W) P (thread_start eager target task).
Proof.
  intros Hev Htarget s s' Hfinal. unfold thread_start in Hfinal.
  destruct eager.
  - pose (s1 := Build_State (world s) (events s ++ [EThreadStart task])
                  (threads s ++ [task]) (prompt_cache s)).
    fold s1 in Hfinal. specialize (Htarget task s1).
    destruct (target task s1) as [a s2|err s2|]; injection Hfinal as <-.
    + destruct (Htarget s2 eq_refl) as (evs & Hevs & Hall).
      exists (EThreadStart task :: evs). split.
      * rewrite Hevs. simpl. rewrite <- app_assoc. reflexivity.
      * constructor; assumption.
    + destruct (Htarget s2 eq_refl) as (evs & Hevs & Hall).
      exists (EThreadStart task :: evs). split.
      * rewrite Hevs. simpl. rewrite <- app_assoc. reflexivity.
      * constructor; assumption.
    + exists [EThreadStart task]. split; [reflexivity|].
      constructor; [exact Hev|constructor].
  - injection Hfinal as <-. exists [EThreadStart task].
    split; [reflexivity|]. constructor; [exact Hev|constructor].
Qed.

Lemma emits_weaken (P Q : Event -> Prop) {A} (m : M W A) :
  (∀ ev, P ev -> Q ev) -> emits P m -> emits Q m.
Proof.
  intros HPQ Hm s s' Hfinal.
  destruct (Hm s s' Hfinal) as (evs & Hevs & Hall).
  exists evs. split; [exact Hevs|]. eapply Forall_impl; eassumption.
Qed.
End Emits.

(** Proves that a block only adds to the log, entry by entry; [side]
    settles what is asked of each entry. *)
Ltac emits_with side :=
  repeat first
    [ apply emits_ret
    | apply emits_raise
    | apply emits_diverge
    | apply emits_lift
    | apply emits_emit; side
    | apply emits_invoke; side
    | apply emits_bind; [|intros ?]
    | apply emits_try_except; [|intros ?]
    | apply emits_try_finally
    | match goal with
      | |- emits _ (match ?x with _ => _ end) => destruct x
      | |- emits _ (let '(_, _) := ?x in _) => destruct x
      end ].

Section RegisterMore.
Context {W : Type} `{!MlflowClient W} `{!Env}.

Lemma resolve_source_grows fuel model_uri :
  emits (λ _, True) (resolve_source fuel model_uri).
Proof.
  unfold resolve_source, client.RunsArtifactRepository,
    client._list_run_artifacts, client.get_underlying_uri, client.get_run,
    logger_warning.
  destruct (is_runs_uri model_uri); [|apply emits_ret].
  apply emits_bind; [apply emits_lift|]. intros [rid artifact_path].
  apply emits_bind; [apply emits_invoke; exact I|]. intros _.
  apply emits_bind; [apply emits_invoke; exact I|]. intros artifacts.
  split_bool_decide.
  - emits_with ltac:(exact I).
  - apply emits_bind; [apply emits_invoke; exact I|]. intros run.
    apply emits_bind.
    { eapply emits_weaken; [|apply loop_searches]. intros; exact I. }
    intros logged_models. emits_with ltac:(exact I).
Qed.

Lemma register_version_grows model_uri name await_registration_for tags
    local_model_path env_pack resolved :
  emits (λ _, True)
    (register_version model_uri name await_registration_for tags
       local_model_path env_pack resolved).
Proof.
  destruct resolved as [[rid mid] source].
  unfold register_version, pack_environment, print_created_message,
    record_model_version, stage_for_serving, client._create_model_version,
    client.log_model_artifacts, client.get_logged_model,
    client.set_logged_model_tags, pack_env_enter, pack_env_exit,
    get_registry_uri, MLFLOW_PRINT_MODEL_URLS_ON_CREATION_get,
    get_workspace_url, get_workspace_id,
    stage_model_for_databricks_model_serving, eprint.
  apply emits_bind.
  { destruct (negb (truthy mid)); [apply emits_lift|apply emits_ret]. }
  intros mid'. apply emits_bind.
  { split_bool_decide; emits_with ltac:(exact I). }
  intros _. apply emits_bind; [apply emits_invoke; exact I|]. intros mv.
  apply emits_bind.
  { apply emits_bind; [apply emits_invoke; exact I|]. intros registry_uri.
    apply emits_bind; [apply emits_invoke; exact I|]. intros print_urls.
    apply emits_bind.
    { destruct (print_urls && _); [apply emits_invoke; exact I|apply emits_ret]. }
    intros [u|]; [|apply emits_emit; exact I].
    destruct (truthy (Some u)); emits_with ltac:(exact I). }
  intros _. apply emits_bind.
  { destruct mid' as [m|]; [|apply emits_ret].
    destruct (truthy (Some m)); [|apply emits_ret].
    apply emits_bind; [apply emits_invoke; exact I|]. intros model.
    apply emits_bind; [|intros ?; apply emits_invoke; exact I].
    destruct (lm_tags model !! MLFLOW_MODEL_VERSIONS) as [v|];
      [|apply emits_ret].
    destruct (truthy (Some v)); [apply emits_lift|apply emits_ret]. }
  intros _. apply emits_bind; [|intros _; apply emits_ret].
  split_bool_decide; emits_with ltac:(exact I).
Qed.

(** X5. Whatever happens afterwards, the first thing [register_model]
    does is to ask the registry to create the registered model: this call
    has been made also when the function then fails, be it because the
    model URI leads nowhere. *)
Theorem register_model_creates_first
    fuel model_uri name await_registration_for tags env_pack
    (s s' : State W) :
  final (register_model fuel model_uri name await_registration_for tags
           env_pack s) = Some s' ->
  ∃ rest,
    events s' = events s ++ ECall (Ccreate_registered_model name) :: rest.
Proof.
  intros Hfinal.
  pose proof (emits_bind (λ _, True) (resolve_source fuel model_uri)
                (register_version model_uri name await_registration_for tags
                   None env_pack)
                (resolve_source_grows fuel model_uri)
                (register_version_grows model_uri name await_registration_for
                   tags None env_pack)) as Hrest.
  unfold register_model, _register_model in Hfinal.
  unfold mbind at 1 in Hfinal. unfold M_bind, bind at 1 in Hfinal.
  unfold create_or_reuse_registered_model, try_except in Hfinal.
  unfold mbind at 1 in Hfinal. unfold M_bind, bind at 1 in Hfinal.
  unfold client.create_registered_model, invoke in Hfinal.
  destruct (client_create_registered_model name (world s)) as [[err|rm] w1].
  - destruct err as [message code| | | |]; cbv beta iota in Hfinal;
      try (injection Hfinal as <-; exists []; reflexivity).
    revert Hfinal. split_bool_decide; intros Hfinal.
    + apply Hrest in Hfinal as (evs & Hevents & _).
      eexists. rewrite Hevents. simpl. rewrite <- !app_assoc. reflexivity.
    + injection Hfinal as <-. exists []. reflexivity.
  - apply Hrest in Hfinal as (evs & Hevents & _).
    eexists. rewrite Hevents. simpl. rewrite <- !app_assoc. reflexivity.
Qed.

(** X6. An exception of [create_registered_model] that is not an
    [MlflowException] is not looked at: [register_model] raises it, and
    has done nothing but the call. *)
Theorem register_model_other_exception
    fuel model_uri name await_registration_for tags env_pack
    (s : State W) e w1 :
  client_create_registered_model name (world s) = (inl e, w1) ->
  (∀ message code, e ≠ MlflowException message code) ->
  register_model fuel model_uri name await_registration_for tags env_pack s
  = Raise e (set_world w1 (record (ECall (Ccreate_registered_model name)) s)).
Proof.
  intros Hcreate Hother.
  unfold register_model, _register_model, create_or_reuse_registered_model.
  unfold mbind at 1. unfold M_bind, bind at 1. unfold try_except.
  erewrite bind_Raise by (apply invoke_Raise; exact Hcreate).
  destruct e as [message code| | | |]; try reflexivity.
  now destruct (Hother message code).
Qed.

Lemma register_version_no_lookup model_uri name await_registration_for tags
    local_model_path env_pack resolved :
  emits (λ ev, looks_up_models ev = false)
    (register_version model_uri name await_registration_for tags
       local_model_path env_pack resolved).
Proof.
  destruct resolved as [[rid mid] source].
  unfold register_version, pack_environment, print_created_message,
    record_model_version, stage_for_serving, client._create_model_version,
    client.log_model_artifacts, client.get_logged_model,
    client.set_logged_model_tags, pack_env_enter, pack_env_exit,
    get_registry_uri, MLFLOW_PRINT_MODEL_URLS_ON_CREATION_get,
    get_workspace_url, get_workspace_id,
    stage_model_for_databricks_model_serving, eprint.
  apply emits_bind.
  { destruct (negb (truthy mid)); [apply emits_lift|apply emits_ret]. }
  intros mid'. apply emits_bind.
  { split_bool_decide; emits_with ltac:(reflexivity). }
  intros _. apply emits_bind; [apply emits_invoke; reflexivity|]. intros mv.
  apply emits_bind.
  { apply emits_bind; [apply emits_invoke; reflexivity|].
    intros registry_uri.
    apply emits_bind; [apply emits_invoke; reflexivity|]. intros print_urls.
    apply emits_bind.
    { destruct (print_urls && _);
        [apply emits_invoke; reflexivity|apply emits_ret]. }
    intros [u|]; [|apply emits_emit; reflexivity].
    destruct (truthy (Some u)); emits_with ltac:(reflexivity). }
  intros _. apply emits_bind.
  { destruct mid' as [m|]; [|apply emits_ret].
    destruct (truthy (Some m)); [|apply emits_ret].
    apply emits_bind; [apply emits_invoke; reflexivity|]. intros model.
    apply emits_bind; [|intros ?; apply emits_invoke; reflexivity].
    destruct (lm_tags model !! MLFLOW_MODEL_VERSIONS) as [v|];
      [|apply emits_ret].
    destruct (truthy (Some v)); [apply emits_lift|apply emits_ret]. }
  intros _. apply emits_bind; [|intros _; apply emits_ret].
  split_bool_decide; emits_with ltac:(reflexivity).
Qed.

(** X7. When the run has the MLmodel file at the artifact path,
    [register_model] takes the location of the run's artifacts as the
    source: once the environment is packed, it asks the registry for the
    version with that source, the id of the run, and the model id that
    the URI itself holds, if any, not one of a logged model.  And from
    the listing of the artifacts to its end it asks neither for the run
    nor for logged models. *)
Theorem register_model_with_artifacts
    fuel model_uri name await_registration_for tags env_pack
    (s s1 : State W) rid artifact_path artifacts source w2 w3 w4 mid s3 :
  create_or_reuse_registered_model name s = Return tt s1 ->
  is_runs_uri model_uri = true ->
  parse_runs_uri model_uri = inr (rid, artifact_path) ->
  client_RunsArtifactRepository model_uri (world s1) = (inr tt, w2) ->
  client_list_run_artifacts model_uri w2 = (inr artifacts, w3) ->
  MLMODEL_FILE_NAME ∈ path <$> artifacts ->
  client_get_underlying_uri model_uri w3 = (inr source, w4) ->
  _parse_model_id_if_present model_uri = inr mid ->
  pack_environment env_pack model_uri mid
    (set_world w4
       (record_all
          [ECall (CRunsArtifactRepository model_uri);
           ECall (C_list_run_artifacts model_uri);
           ECall (Cget_underlying_uri model_uri)] s1))
  = Return tt s3 ->
  creates_version
    (register_model fuel model_uri name await_registration_for tags
       env_pack s)
    s3
    {| cv_name := name;
       cv_source := source;
       cv_run_id := Some rid;
       cv_tags := tags;
       cv_await_creation_for := await_registration_for;
       cv_local_model_path := None;
       cv_model_id := mid |}
  ∧ ∀ s',
      final (register_model fuel model_uri name await_registration_for
               tags env_pack s) = Some s' ->
      ∃ rest,
        events s'
        = events s1
          ++ [ECall (CRunsArtifactRepository model_uri);
              ECall (C_list_run_artifacts model_uri);
              ECall (Cget_underlying_uri model_uri)]
          ++ rest
        ∧ Forall (λ ev, looks_up_models ev = false) rest.
Proof.
  intros Hcreate Hruns Hparse Hrepo Hlist Hfile Huri Hmid Hpacked.
  assert (Hgoes_on :
    register_model fuel model_uri name await_registration_for tags env_pack s
    = register_version model_uri name await_registration_for tags None
        env_pack (Some rid, None, source)
        (set_world w4
           (record_all
              [ECall (CRunsArtifactRepository model_uri);
               ECall (C_list_run_artifacts model_uri);
               ECall (Cget_underlying_uri model_uri)] s1))).
  { unfold register_model, _register_model.
    erewrite bind_Return by exact Hcreate.
    unfold resolve_source. rewrite Hruns, Hparse.
    unfold mbind at 1. unfold M_bind, bind at 1. unfold lift at 1.
    erewrite bind_Return by reflexivity. cbv beta iota.
    erewrite bind_Return by (apply invoke_Return; exact Hrepo).
    erewrite bind_Return by (apply invoke_Return; exact Hlist).
    split_bool_decide; [|contradiction].
    erewrite bind_Return by (apply invoke_Return; exact Huri).
    f_equal. unfold set_world, record_all, record. simpl.
    rewrite <- !app_assoc. reflexivity. }
  rewrite Hgoes_on. split.
  - apply register_version_creates; [exact Hmid|exact Hpacked].
  - intros s' Hfinal.
    apply register_version_no_lookup in Hfinal as (rest & Hevents & Hall).
    exists rest. split; [|exact Hall]. rewrite Hevents.
    unfold set_world, record_all. simpl. rewrite <- !app_assoc. reflexivity.
Qed.
End RegisterMore.

(** ** More on the choice among logged models *)

Section ChoiceMore.
Context {W : Type} `{!MlflowClient W} `{!Env}.

(** X8. In the dictionary of steps a later entry of [model_outputs]
    replaces an earlier one for the same model: the step of a model id is
    the step of the last entry that has this id, and there is none when no
    entry has it. *)
Theorem model_id_to_step_of_last_wins
    (model_outputs : list LoggedModelOutput) (mid : string) :
  model_id_to_step_of model_outputs !! mid
  = step <$> last (filter (λ m_o, out_model_id m_o = mid) model_outputs).
Proof.
  induction model_outputs as [|m_o outs IH] using rev_ind.
  - unfold model_id_to_step_of. simpl. apply lookup_empty.
  - rewrite model_id_to_step_of_app, filter_app. simpl.
    rewrite filter_cons, filter_nil.
    destruct (decide (out_model_id m_o = mid)) as [Heq|Hne].
    + rewrite last_snoc. simpl. rewrite Heq. apply lookup_insert_eq.
    + rewrite app_nil_r, lookup_insert_ne by exact Hne. exact IH.
Qed.

Lemma max_loop_keeps {A} (key : A -> result Z) rest :
  ∀ maxitem maxval,
    (∀ x, x ∈ rest -> ∃ v, key x = inr v ∧ v ≤ maxval) ->
    max_loop key maxitem maxval rest = inr maxitem.
Proof.
  induction rest as [|item rest IH]; intros maxitem maxval Hrest;
    [reflexivity|].
  cbn [max_loop].
  destruct (Hrest item (list_elem_of_here _ _)) as (v & -> & Hle).
  destruct (Z.ltb_spec maxval v); [lia|].
  apply IH. intros x Hx. apply Hrest, list_elem_of_further, Hx.
Qed.

Lemma max_loop_picks {A} (key : A -> result Z) before best after best_val :
  key best = inr best_val ->
  (∀ x, x ∈ before -> ∃ v, key x = inr v ∧ v < best_val) ->
  (∀ x, x ∈ after -> ∃ v, key x = inr v ∧ v ≤ best_val) ->
  ∀ maxitem maxval,
    maxval < best_val ->
    max_loop key maxitem maxval (before ++ best :: after) = inr best.
Proof.
  intros Hbest Hbefore Hafter.
  induction before as [|x before IH]; intros maxitem maxval Hless.
  - cbn [app max_loop]. rewrite Hbest.
    destruct (Z.ltb_spec maxval best_val); [|lia].
    now apply max_loop_keeps.
  - cbn [app max_loop].
    destruct (Hbefore x (list_elem_of_here _ _)) as (v & -> & Hv).
    assert (Hrest : ∀ y, y ∈ before -> ∃ v', key y = inr v' ∧ v' < best_val)
      by (intros y Hy; apply Hbefore, list_elem_of_further, Hy).
    destruct (maxval <? v)%Z; now apply IH.
Qed.

(** [max] gives the first of the items with the greatest key. *)
Lemma py_max_picks {A} (key : A -> result Z) before best after best_val :
  key best = inr best_val ->
  (∀ x, x ∈ before -> ∃ v, key x = inr v ∧ v < best_val) ->
  (∀ x, x ∈ after -> ∃ v, key x = inr v ∧ v ≤ best_val) ->
  py_max key (before ++ best :: after) = inr best.
Proof.
  intros Hbest Hbefore Hafter. destruct before as [|x before].
  - cbn [app py_max]. rewrite Hbest. now apply max_loop_keeps.
  - cbn [app py_max].
    destruct (Hbefore x (list_elem_of_here _ _)) as (v & -> & Hv).
    apply (max_loop_picks key before best after best_val);
      [exact Hbest| |exact Hafter|exact Hv].
    intros y Hy. apply Hbefore, list_elem_of_further, Hy.
Qed.

Section WithoutArtifactsMore.
Variables (fuel : nat) (model_uri name : string)
  (await_registration_for : option Z) (tags : option (gmap string string))
  (env_pack : option string) (s s1 : State W)
  (rid artifact_path : string) (artifacts : list FileInfo) (run : Run)
  (pages : list (PagedList LoggedModel)) (last_page : PagedList LoggedModel)
  (w2 w3 w4 w5 : W).

Hypothesis registered :
  create_or_reuse_registered_model name s = Return tt s1.
Hypothesis runs_uri : is_runs_uri model_uri = true.
Hypothesis parsed : parse_runs_uri model_uri = inr (rid, artifact_path).
Hypothesis repository :
  client_RunsArtifactRepository model_uri (world s1) = (inr tt, w2).
Hypothesis listed :
  client_list_run_artifacts model_uri w2 = (inr artifacts, w3).
Hypothesis no_mlmodel : MLMODEL_FILE_NAME ∉ path <$> artifacts.
Hypothesis got_run : client_get_run rid w3 = (inr run, w4).
Hypothesis more : Forall (λ page, truthy (token page) = true) pages.
Hypothesis no_more : truthy (token last_page) = false.
Hypothesis searched :
  answers run artifact_path w4 None (pages ++ [last_page]) w5.
Hypothesis enough_fuel : (length pages < fuel)%nat.

(** X9. When the search finds exactly one logged model of the run, this is
    the model that is registered, and [run.outputs] is not looked at: it
    may be absent.  With the id of that model, if it is not empty, and
    [models:/<id>] as source the registry is asked for the version, once
    the environment is packed. *)
Theorem register_model_single_match lm s3 :
  concat (matching run <$> (pages ++ [last_page])) = [lm] ->
  model_id lm ≠ EmptyString ->
  pack_environment env_pack model_uri (Some (model_id lm))
    (record (fallback_warning rid artifact_path (model_id lm))
       (set_world w5
          (record_all
             (lookup_events model_uri rid artifact_path run pages) s1)))
  = Return tt s3 ->
  creates_version
    (register_model fuel model_uri name await_registration_for tags
       env_pack s)
    s3
    {| cv_name := name;
       cv_source := "models:/" +:+ model_id lm;
       cv_run_id := Some rid;
       cv_tags := tags;
       cv_await_creation_for := await_registration_for;
       cv_local_model_path := None;
       cv_model_id := Some (model_id lm) |}.
Proof.
  intros Hone Hnonempty Hpacked.
  rewrite (register_model_without_artifacts fuel model_uri name
             await_registration_for tags env_pack s s1 rid artifact_path
             artifacts run pages last_page w2 w3 w4 w5); try assumption.
  rewrite Hone. cbn [select_logged_model length Nat.ltb Nat.leb].
  apply register_version_creates; [|exact Hpacked].
  simpl. destruct (String.eqb_spec (model_id lm) EmptyString);
    [contradiction|reflexivity].
Qed.

(** X10. When several logged models are found and one of them has no step
    in the outputs of the run, [register_model] raises [KeyError] with the
    id of the first such model, provided the models found before it have
    a step. *)
Theorem register_model_missing_step model_outputs before lm after :
  concat (matching run <$> (pages ++ [last_page])) = before ++ lm :: after ->
  (1 < length (before ++ lm :: after))%nat ->
  outputs run = Some model_outputs ->
  (∀ x, x ∈ before ->
        is_Some (model_id_to_step_of model_outputs !! model_id x)) ->
  model_id_to_step_of model_outputs !! model_id lm = None ->
  register_model fuel model_uri name await_registration_for tags env_pack s
  = Raise (KeyError (model_id lm))
      (set_world w5
         (record_all
            (lookup_events model_uri rid artifact_path run pages) s1)).
Proof.
  intros Hfound Hmany Houtputs Hbefore Hmissing.
  rewrite (register_model_without_artifacts fuel model_uri name
             await_registration_for tags env_pack s s1 rid artifact_path
             artifacts run pages last_page w2 w3 w4 w5); try assumption.
  rewrite Hfound. unfold select_logged_model.
  apply Nat.ltb_lt in Hmany.
  assert (Hkeys : ∀ x, x ∈ before ->
            ∃ v, getitem (model_id_to_step_of model_outputs) (model_id x)
                 = inr v).
  { intros x Hx. destruct (Hbefore x Hx) as (v & Hv).
    exists v. unfold getitem. now rewrite Hv. }
  assert (Hkey : getitem (model_id_to_step_of model_outputs) (model_id lm)
                 = inl (KeyError (model_id lm))).
  { unfold getitem. now rewrite Hmissing. }
  destruct before as [|first before].
  - simpl in *. rewrite Hmany, Houtputs. simpl. now rewrite Hkey.
  - simpl in Hmany |- *. rewrite Hmany, Houtputs. cbn [py_max].
    destruct (Hkeys first (list_elem_of_here _ _)) as (v & ->).
    rewrite (max_loop_missing _ before lm after (KeyError (model_id lm)));
      [reflexivity| |exact Hkey].
    intros x Hx. apply Hkeys, list_elem_of_further, Hx.
Qed.

(** X11. Among several logged models with a step each, the one registered
    is the first, in the order the search returned them, of those with
    the greatest step: when the models before [best] have a smaller step
    and the models after it none greater, it is with the id of [best],
    if that is not empty, and [models:/<id>] as source that the registry
    is asked for the version, once the environment is packed. *)
Theorem register_model_first_of_greatest
    model_outputs before best after best_step s3 :
  concat (matching run <$> (pages ++ [last_page])) = before ++ best :: after ->
  (1 < length (before ++ best :: after))%nat ->
  outputs run = Some model_outputs ->
  model_id_to_step_of model_outputs !! model_id best = Some best_step ->
  (∀ lm, lm ∈ before ->
         ∃ v, model_id_to_step_of model_outputs !! model_id lm = Some v
              ∧ v < best_step) ->
  (∀ lm, lm ∈ after ->
         ∃ v, model_id_to_step_of model_outputs !! model_id lm = Some v
              ∧ v ≤ best_step) ->
  model_id best ≠ EmptyString ->
  pack_environment env_pack model_uri (Some (model_id best))
    (record (fallback_warning rid artifact_path (model_id best))
       (set_world w5
          (record_all
             (lookup_events model_uri rid artifact_path run pages) s1)))
  = Return tt s3 ->
  creates_version
    (register_model fuel model_uri name await_registration_for tags
       env_pack s)
    s3
    {| cv_name := name;
       cv_source := "models:/" +:+ model_id best;
       cv_run_id := Some rid;
       cv_tags := tags;
       cv_await_creation_for := await_registration_for;
       cv_local_model_path := None;
       cv_model_id := Some (model_id best) |}.
Proof.
  intros Hfound Hmany Houtputs Hbest Hbefore Hafter Hnonempty Hpacked.
  rewrite (register_model_without_artifacts fuel model_uri name
             await_registration_for tags env_pack s s1 rid artifact_path
             artifacts run pages last_page w2 w3 w4 w5); try assumption.
  rewrite Hfound. unfold select_logged_model.
  apply Nat.ltb_lt in Hmany.
  set (key := λ lm : LoggedModel,
                getitem (model_id_to_step_of model_outputs) (model_id lm)).
  assert (Hget : ∀ lm val,
            model_id_to_step_of model_outputs !! model_id lm = Some val ->
            key lm = inr val).
  { intros lm val Hval. unfold key, getitem. now rewrite Hval. }
  assert (Hmax : py_max key (before ++ best :: after) = inr best).
  { apply (py_max_picks key before best after best_step).
    - now apply Hget.
    - intros lm Hlm. destruct (Hbefore lm Hlm) as (v & Hv & Hless).
      exists v. split; [now apply Hget|exact Hless].
    - intros lm Hlm. destruct (Hafter lm Hlm) as (v & Hv & Hle).
      exists v. split; [now apply Hget|exact Hle]. }
  destruct (before ++ best :: after) as [|first rest] eqn:Hlist;
    [simpl in Hmany; discriminate|].
  rewrite Hmany, Houtputs. fold key. rewrite Hmax.
  apply register_version_creates; [|exact Hpacked].
  simpl. destruct (String.eqb_spec (model_id best) EmptyString);
    [contradiction|reflexivity].
Qed.
End WithoutArtifactsMore.
End ChoiceMore.

(** ** More on what follows the resolution of the source *)

Section VersionMore.
Context {W : Type} `{!MlflowClient W} `{!Env}.

Section Packing.
Variables (fuel : nat) (model_uri name : string)
  (await_registration_for : option Z) (tags : option (gmap string string))
  (s s1 s2 : State W) (rid resolved_id mid : option string)
  (source local_dir : string) (e : exn) (w3 w4 w5 : W).

Hypothesis registered :
  create_or_reuse_registered_model name s = Return tt s1.
Hypothesis resolved :
  resolve_source fuel model_uri s1 = Return (rid, resolved_id, source) s2.
Hypothesis model_id_found :
  (if truthy resolved_id then inr resolved_id
   else _parse_model_id_if_present model_uri) = inr mid.
Hypothesis entered :
  client_pack_env_enter model_uri true (world s2) = (inr local_dir, w3).
Hypothesis log_fails :
  client_log_model_artifacts mid local_dir w3 = (inl e, w4).
Hypothesis left : client_pack_env_exit w4 = (inr tt, w5).

(** X12. With [env_pack="databricks_model_serving"], when logging the
    packed artifacts raises, the packing context is still left, the
    exception is what [register_model] raises, and no model version has
    been created. *)
Theorem register_model_packing_fails :
  register_model fuel model_uri name await_registration_for tags
    (Some "databricks_model_serving") s
  = Raise e
      (set_world w5
         (record_all
            [EEprint "Packing environment for Databricks Model Serving...";
             ECall (Cpack_env_enter model_uri true);
             ECall (Clog_model_artifacts mid local_dir);
             ECall Cpack_env_exit] s2)).
Proof.
  unfold register_model, _register_model.
  erewrite bind_Return by exact registered.
  erewrite bind_Return by exact resolved.
  unfold register_version.
  erewrite bind_Return with (a := mid) (s' := s2).
  2:{ destruct (truthy resolved_id); simpl.
      - now injection model_id_found as ->.
      - unfold lift. now rewrite model_id_found. }
  erewrite bind_Raise; [reflexivity|].
  unfold pack_environment. split_bool_decide; [|congruence].
  erewrite bind_Return by reflexivity.
  erewrite bind_Return by (apply invoke_Return; exact entered).
  unfold try_finally, client.log_model_artifacts, pack_env_exit, invoke.
  cbn [world set_world record]. rewrite log_fails. cbn [world set_world].
  rewrite left. f_equal. unfold set_world, record_all, record, eprint, emit.
  simpl. rewrite <- !app_assoc. reflexivity.
Qed.
End Packing.

Section AfterVersion.
Variables (fuel : nat) (model_uri name : string)
  (await_registration_for : option Z) (tags : option (gmap string string))
  (env_pack : option string) (s s1 s2 s3 s5 : State W)
  (rid resolved_id : option string) (source m : string)
  (mv : ModelVersion) (model : LoggedModel) (w4 w6 : W).

Hypothesis registered :
  create_or_reuse_registered_model name s = Return tt s1.
Hypothesis resolved :
  resolve_source fuel model_uri s1 = Return (rid, resolved_id, source) s2.
Hypothesis model_id_found :
  (if truthy resolved_id then inr resolved_id
   else _parse_model_id_if_present model_uri) = inr (Some m).
Hypothesis model_id_truthy : truthy (Some m) = true.
Hypothesis packed :
  pack_environment env_pack model_uri (Some m) s2 = Return tt s3.
Hypothesis created :
  client_create_model_version
    {| cv_name := name;
       cv_source := source;
       cv_run_id := rid;
       cv_tags := tags;
       cv_await_creation_for := await_registration_for;
       cv_local_model_path := None;
       cv_model_id := Some m |} (world s3) = (inr mv, w4).
Hypothesis printed :
  print_created_message mv
    (set_world w4
       (record
          (ECall (C_create_model_version
                    {| cv_name := name;
                       cv_source := source;
                       cv_run_id := rid;
                       cv_tags := tags;
                       cv_await_creation_for := await_registration_for;
                       cv_local_model_path := None;
                       cv_model_id := Some m |})) s3))
  = Return tt s5.
Hypothesis got_model :
  client_get_logged_model m (world s5) = (inr model, w6).

Lemma register_model_reaches_tag :
  register_model fuel model_uri name await_registration_for tags env_pack s
  = (record_model_version (Some m) mv
     ≫= λ _, stage_for_serving env_pack mv ≫= λ _, mret mv) s5.
Proof.
  unfold register_model, _register_model.
  erewrite bind_Return by exact registered.
  erewrite bind_Return by exact resolved.
  unfold register_version.
  erewrite bind_Return with (a := Some m) (s' := s2).
  2:{ destruct (truthy resolved_id); simpl.
      - now injection model_id_found as ->.
      - unfold lift. now rewrite model_id_found. }
  erewrite bind_Return by exact packed.
  erewrite bind_Return by (apply invoke_Return; exact created).
  erewrite bind_Return by exact printed.
  reflexivity.
Qed.

(** X13. When the tag of the logged model holds something that is not a
    JSON list (or not JSON at all), [register_model] raises after the
    version has been created: the exception of [json.loads], or the
    [TypeError] of adding a list to a document that is not a list, whose
    text names the type of the document.  The tags of the logged model
    are not set. *)
Theorem register_model_tag_not_a_list v :
  lm_tags model !! MLFLOW_MODEL_VERSIONS = Some v ->
  v ≠ EmptyString ->
  (∀ l, json_loads v ≠ inr (JList l)) ->
  register_model fuel model_uri name await_registration_for tags env_pack s
  = Raise
      (match json_loads v with
       | inl e => e
       | inr (JStr _) =>
           TypeError ("can only concatenate str (not " +:+ double_quote +:+
                      "list" +:+ double_quote +:+ ") to str")
       | inr loaded =>
           TypeError ("unsupported operand type(s) for +: '" +:+
                      type_name loaded +:+ "' and 'list'")
       end)
      (set_world w6 (record (ECall (Cget_logged_model m)) s5)).
Proof.
  intros Htag Hnonempty Hnolist. rewrite register_model_reaches_tag.
  erewrite bind_Raise; [reflexivity|].
  unfold record_model_version. rewrite model_id_truthy.
  erewrite bind_Return by (apply invoke_Return; exact got_model).
  rewrite Htag.
  assert (Htruthy : truthy (Some v) = true).
  { simpl. destruct (String.eqb_spec v EmptyString); [contradiction|].
    reflexivity. }
  rewrite Htruthy. unfold loads_and_append.
  destruct (json_loads v) as [e|loaded] eqn:Hloads.
  - reflexivity.
  - destruct loaded as [| | | | |l|]; try reflexivity.
    now destruct (Hnolist l).
Qed.

(** X14. With [env_pack="databricks_model_serving"], a failure of the
    staging for model serving does not fail [register_model]: the version
    is returned, and a line that carries the text of the exception is
    printed. *)
Theorem register_model_staging_fails previous e w7 w8 :
  env_pack = Some "databricks_model_serving" ->
  stored_versions model previous ->
  client_set_logged_model_tags m
    {[ MLFLOW_MODEL_VERSIONS :=
         json_dumps (JList (previous ++ [version_entry mv])) ]} w6
  = (inr tt, w7) ->
  client_stage_model (mv_name mv) (mv_version mv) w7 = (inl e, w8) ->
  register_model fuel model_uri name await_registration_for tags env_pack s
  = Return mv
      (record
         (EEprint
            ("Failed to stage model for Databricks Model Serving: " +:+
             str_of_exn e +:+
             ". The model was registered successfully and is available " +:+
             "for serving, but may take longer to deploy."))
         (set_world w8
            (record_all
               [ECall (Cget_logged_model m);
                ECall (Cset_logged_model_tags m
                         {[ MLFLOW_MODEL_VERSIONS :=
                              json_dumps
                                (JList (previous ++ [version_entry mv])) ]});
                EEprint
                  ("Staging model " +:+ mv_name mv +:+ " version " +:+
                   str_of_version (mv_version mv) +:+
                   " for Databricks Model Serving...");
                ECall (Cstage_model (mv_name mv) (mv_version mv))] s5))).
Proof.
  intros Hpack Hstored Hset Hstage. rewrite register_model_reaches_tag.
  erewrite bind_Return
    by (eapply record_model_version_appends; eassumption).
  unfold stage_for_serving. rewrite Hpack.
  split_bool_decide; [|congruence].
  unfold mbind, M_bind, bind, eprint, emit, try_except,
    stage_model_for_databricks_model_serving, invoke.
  cbn [world set_world record record_all]. rewrite Hstage.
  unfold mret, M_ret, ret. f_equal.
  unfold set_world, record_all, record. simpl.
  rewrite <- !app_assoc. reflexivity.
Qed.
End AfterVersion.
End VersionMore.

(** ** More on [load_prompt] *)

Section PromptsMore.
Context {W : Type} `{!MlflowClient W} `{!Env}.

Lemma lookup_prompt_never_links name_or_uri version allow_missing :
  emits (λ ev, links_model ev = false)
    (lookup_prompt name_or_uri version allow_missing).
Proof.
  intros s s' Hfinal.
  apply lookup_prompt_final in Hfinal as (_ & lookups & Hevents & Hall).
  exists lookups. split; [exact Hevents|].
  eapply Forall_impl; [exact Hall|].
  intros [[]| | | |]; simpl; congruence.
Qed.

(** X16. With [link_to_model=False], [load_prompt] does nothing for the
    link to a model, however it ends: it starts no thread, does not ask
    for the active model and makes no link call. *)
Theorem load_prompt_without_model_link
    eager name_or_uri version allow_missing mid (s0 s' : State W) :
  final (load_prompt eager name_or_uri version allow_missing false mid s0)
  = Some s' ->
  ∃ evs,
    events s' = events s0 ++ evs
    ∧ Forall (λ ev, links_model ev = false) evs.
Proof.
  revert s0 s'.
  change (emits (λ ev, links_model ev = false)
            (load_prompt eager name_or_uri version allow_missing false mid)).
  unfold load_prompt, require_prompt_registry, warnings_warn.
  apply emits_bind; [apply emits_invoke; reflexivity|]. intros _.
  apply emits_bind; [apply emits_emit; reflexivity|]. intros _.
  apply emits_bind; [apply lookup_prompt_never_links|]. intros prompt.
  unfold after_lookup, active_run, get_active_trace_id,
    trace_register_prompt, client.link_prompt_version_to_run.
  destruct prompt as [prompt|]; [|apply emits_ret].
  apply emits_bind; [apply emits_invoke; reflexivity|]. intros run.
  apply emits_bind.
  { destruct run; [apply emits_invoke; reflexivity|apply emits_ret]. }
  intros _. apply emits_bind; [apply emits_ret|]. intros _.
  apply emits_bind; [apply emits_invoke; reflexivity|]. intros trace_id.
  apply emits_bind; [|intros _; apply emits_ret].
  destruct trace_id as [t|]; [|apply emits_ret].
  destruct (truthy (Some t)); [apply emits_invoke; reflexivity|apply emits_ret].
Qed.

Section LoadedMore.
Variables (eager : bool) (name_or_uri : string)
  (version : option pyversion) (allow_missing link_to_model : bool)
  (mid : option string) (s0 : State W) (w1 : W).

Hypothesis registry_supported :
  client_require_prompt_registry (world s0) = (inr tt, w1).

(** X17. The link to the active run is made on the caller's thread: when
    it raises, [load_prompt] raises the same exception, although the
    prompt was found; no thread has been started and the prompt has not
    been registered with the trace.  The link names the prompt as
    [prompts:/<name>/<version>]. *)
Theorem load_prompt_run_link_fails prompt s1 run w2 e w3 :
  lookup_prompt name_or_uri version allow_missing
    (record (EFutureWarning (PROMPT_API_MIGRATION_MSG "load_prompt"))
       (set_world w1 (record (ECall Crequire_prompt_registry) s0)))
  = Return (Some prompt) s1 ->
  client_active_run (world s1) = (inr (Some run), w2) ->
  client_link_prompt_version_to_run (run_id (info run))
    ("prompts:/" +:+ pv_name prompt +:+ "/" +:+ pretty (pv_version prompt))
    w2 = (inl e, w3) ->
  load_prompt eager name_or_uri version allow_missing link_to_model mid s0
  = Raise e
      (set_world w3
         (record_all
            [ECall Cactive_run;
             ECall (Clink_prompt_version_to_run (run_id (info run))
                      ("prompts:/" +:+ pv_name prompt +:+ "/" +:+
                       pretty (pv_version prompt)))] s1)).
Proof.
  intros Hlookup Hrun Hlink.
  rewrite (load_prompt_starts eager name_or_uri version link_to_model mid s0
             w1 registry_supported allow_missing).
  erewrite bind_Return by exact Hlookup.
  unfold after_lookup, active_run.
  erewrite bind_Return by (apply invoke_Return; exact Hrun).
  erewrite bind_Raise; [|apply invoke_Raise; exact Hlink].
  f_equal. unfold set_world, record_all, record. simpl.
  rewrite <- !app_assoc. reflexivity.
Qed.

(** X18. When the name and version cannot be parsed,
    [load_prompt] raises the exception of the parser before any call to
    the registry, and the cache is left as it was: the failure is not
    remembered.  This holds for a name with [@], and for a name without
    it unless the cache already has an entry for the call. *)
Theorem load_prompt_parse_fails e :
  parse_prompt_name_or_uri name_or_uri version = inl e ->
  contains_char "@" name_or_uri = true
  ∨ cache_find (name_or_uri, version, allow_missing) (prompt_cache s0) = None ->
  load_prompt eager name_or_uri version allow_missing link_to_model mid s0
  = Raise e
      (record (EFutureWarning (PROMPT_API_MIGRATION_MSG "load_prompt"))
         (set_world w1 (record (ECall Crequire_prompt_registry) s0))).
Proof.
  intros Hparse Hcase.
  rewrite (load_prompt_starts eager name_or_uri version link_to_model mid s0
             w1 registry_supported allow_missing).
  assert (Hnot : ∀ st : State W,
            _load_prompt_not_cached name_or_uri version allow_missing st
            = Raise e st).
  { intros st. unfold _load_prompt_not_cached. rewrite Hparse. reflexivity. }
  erewrite bind_Raise; [reflexivity|].
  unfold lookup_prompt.
  destruct (contains_char "@" name_or_uri) eqn:Hat; [apply Hnot|].
  destruct Hcase as [Hcase|Hmiss]; [discriminate|].
  erewrite bind_Raise; [reflexivity|].
  unfold _load_prompt_cached, lru_cache.
  split_bool_decide; [apply Hnot|].
  unfold mbind, M_bind, bind, get_prompt_cache.
  cbn [prompt_cache record set_world]. rewrite Hmiss, Hnot. reflexivity.
Qed.
End LoadedMore.
End PromptsMore.

(** ** The further properties on the scripted worlds *)

Section PaginationMoreExamples.
Import Mock Strict.

Lemma get_logged_models_from_run_only_of_run_witness :
  Forall (λ m, source_run_id m = Some "r1")
    [logged "a" "r1"; logged "c" "r1"].
Proof.
  eapply (get_logged_models_from_run_only_of_run 5 run1 "model"
            (start [RLoggedModels (inr page1); RLoggedModels (inr page2)])).
  vm_compute. reflexivity.
Defined.

Lemma get_logged_models_from_run_searches_witness :
  ∃ s' tokens,
    final (_get_logged_models_from_run 5 run1 "model"
             (start [RLoggedModels (inr page1); RLoggedModels (inr page2)]))
    = Some s'
    ∧ events s'
      = [] ++ ((λ t, ECall (Csearch_logged_models ["e1"] "name = 'model'" t))
                 <$> tokens).
Proof.
  eexists.
  edestruct (get_logged_models_from_run_searches 5 run1 "model"
               (start [RLoggedModels (inr page1); RLoggedModels (inr page2)]))
    as (tokens & Hevents); [reflexivity|].
  exists tokens. split; [reflexivity|exact Hevents].
Defined.

Lemma get_logged_models_from_run_endless_witness :
  @_get_logged_models_from_run nat Endless.endless_client 7 run1 "model"
    (Build_State 0%nat [] [] [])
  = Diverge.
Proof.
  apply (@get_logged_models_from_run_endless nat Endless.endless_client).
  intros page_token w. eexists _, _. split; reflexivity.
Defined.

Lemma get_logged_models_from_run_raises_witness :
  _get_logged_models_from_run 5 run1 "model"
    (start [RLoggedModels (inr page1); RLoggedModels (inr page_more);
            RLoggedModels (inl (OtherException "connection reset"))])
  = Raise (OtherException "connection reset")
      (Build_State []
         [ECall (Csearch_logged_models ["e1"] "name = 'model'" None);
          ECall (Csearch_logged_models ["e1"] "name = 'model'" (Some "x"));
          ECall (Csearch_logged_models ["e1"] "name = 'model'" (Some "y"))]
         [] []).
Proof.
  apply (get_logged_models_from_run_raises run1 "model" [page1; page_more]
           (start [RLoggedModels (inr page1); RLoggedModels (inr page_more);
                   RLoggedModels (inl (OtherException "connection reset"))])
           [RLoggedModels (inl (OtherException "connection reset"))]
           (OtherException "connection reset") [] 5).
  - repeat constructor.
  - unfold answers. simpl. eauto.
  - reflexivity.
  - simpl. lia.
Defined.
End PaginationMoreExamples.

Section RegisterMoreExamples.
Import Mock Strict.

(** The registered model has been asked for although the URI then leads to
    no logged model. *)
Lemma register_model_creates_first_witness :
  ∃ s' rest,
    final (register_model 5 "runs:/r1/model" "m" None None None
             (start (without_artifacts run1 [page_other])))
    = Some s'
    ∧ events s' = [] ++ ECall (Ccreate_registered_model "m") :: rest.
Proof.
  eexists.
  edestruct (register_model_creates_first 5 "runs:/r1/model" "m" None None
               None (start (without_artifacts run1 [page_other])))
    as (rest & Hevents); [reflexivity|].
  exists rest. split; [reflexivity|exact Hevents].
Defined.

Lemma register_model_other_exception_witness :
  register_model 5 "models:/m1" "m" None None None
    (start [RRegisteredModel (inl (OtherException "connection refused"))])
  = Raise (OtherException "connection refused")
      (Build_State [] [ECall (Ccreate_registered_model "m")] [] []).
Proof.
  apply (register_model_other_exception 5 "models:/m1" "m" None None None
           (start [RRegisteredModel
                     (inl (OtherException "connection refused"))])
           (OtherException "connection refused") []).
  - reflexivity.
  - intros message code. discriminate.
Defined.

(** The run has the MLmodel file: the version is asked for with the
    location of the artifacts and the id of the run, and neither the run
    nor a logged model is asked for. *)
Lemma register_model_with_artifacts_witness :
  creates_version
    (register_model 5 "runs:/r1/model" "m" None None None
       (start [RRegisteredModel (inr registered_m); RUnit (inr tt);
               RArtifacts (inr [{| path := "MLmodel" |}]);
               RString (inr "s3://bucket/r1/artifacts/model");
               RModelVersion (inr version2);
               RString (inr "sqlite:///mlflow.db"); RBool (inr false)]))
    (Build_State
       [RModelVersion (inr version2); RString (inr "sqlite:///mlflow.db");
        RBool (inr false)]
       [ECall (Ccreate_registered_model "m");
        EEprint "Successfully registered model 'm'.";
        ECall (CRunsArtifactRepository "runs:/r1/model");
        ECall (C_list_run_artifacts "runs:/r1/model");
        ECall (Cget_underlying_uri "runs:/r1/model")]
       [] [])
    {| cv_name := "m";
       cv_source := "s3://bucket/r1/artifacts/model";
       cv_run_id := Some "r1";
       cv_tags := None;
       cv_await_creation_for := None;
       cv_local_model_path := None;
       cv_model_id := None |}
  ∧ ∃ s' rest,
      final (register_model 5 "runs:/r1/model" "m" None None None
               (start [RRegisteredModel (inr registered_m); RUnit (inr tt);
                       RArtifacts (inr [{| path := "MLmodel" |}]);
                       RString (inr "s3://bucket/r1/artifacts/model");
                       RModelVersion (inr version2);
                       RString (inr "sqlite:///mlflow.db");
                       RBool (inr false)]))
      = Some s'
      ∧ events s'
        = [ECall (Ccreate_registered_model "m");
           EEprint "Successfully registered model 'm'."]
          ++ [ECall (CRunsArtifactRepository "runs:/r1/model");
              ECall (C_list_run_artifacts "runs:/r1/model");
              ECall (Cget_underlying_uri "runs:/r1/model")]
          ++ rest
      ∧ Forall (λ ev, looks_up_models ev = false) rest.
Proof.
  edestruct (register_model_with_artifacts 5 "runs:/r1/model" "m" None None
               None
               (start [RRegisteredModel (inr registered_m); RUnit (inr tt);
                       RArtifacts (inr [{| path := "MLmodel" |}]);
                       RString (inr "s3://bucket/r1/artifacts/model");
                       RModelVersion (inr version2);
                       RString (inr "sqlite:///mlflow.db");
                       RBool (inr false)]))
    as (Hcreates & Hquiet).
  - reflexivity.
  - reflexivity.
  - reflexivity.
  - reflexivity.
  - reflexivity.
  - apply list_elem_of_here.
  - reflexivity.
  - reflexivity.
  - reflexivity.
  - split; [exact Hcreates|].
    eexists. edestruct Hquiet as (rest & Hevents & Hall); [reflexivity|].
    exists rest. split; [reflexivity|]. split; [exact Hevents|exact Hall].
Defined.

(** One logged model of the run, and a run without outputs. *)
Lemma register_model_single_match_witness :
  creates_version
    (register_model 5 "runs:/r1/model" "m" None None None
       (start (without_artifacts run1 [page2]
               ++ version_created (logged "c" "r1"))))
    (Build_State (version_created (logged "c" "r1"))
       [ECall (Ccreate_registered_model "m");
        EEprint "Successfully registered model 'm'.";
        ECall (CRunsArtifactRepository "runs:/r1/model");
        ECall (C_list_run_artifacts "runs:/r1/model");
        ECall (Cget_run "r1");
        ECall (Csearch_logged_models ["e1"] "name = 'model'" None);
        ELogWarning
          "Run with id r1 has no artifacts at artifact path 'model', registering model based on models:/c instead"
          None]
       [] [])
    {| cv_name := "m";
       cv_source := "models:/c";
       cv_run_id := Some "r1";
       cv_tags := None;
       cv_await_creation_for := None;
       cv_local_model_path := None;
       cv_model_id := Some "c" |}.
Proof.
  eapply (register_model_single_match 5 "runs:/r1/model" "m" None None None
            (start (without_artifacts run1 [page2]
                    ++ version_created (logged "c" "r1"))))
    with (pages := []) (last_page := page2) (lm := logged "c" "r1")
         (run := run1).
  - reflexivity.
  - reflexivity.
  - reflexivity.
  - reflexivity.
  - reflexivity.
  - intros Hin. apply elem_of_cons in Hin as [Heq|Hin];
      [discriminate Heq|inversion Hin].
  - reflexivity.
  - constructor.
  - reflexivity.
  - unfold answers. simpl. eauto.
  - simpl. lia.
  - reflexivity.
  - discriminate.
  - reflexivity.
Defined.

Lemma register_model_missing_step_witness :
  ∃ st,
    register_model 5 "runs:/r1/model" "m" None None None
      (start (without_artifacts run3 [page1; page2]))
    = Raise (KeyError "c") st.
Proof.
  eexists.
  eapply register_model_missing_step
    with (pages := [page1]) (last_page := page2)
         (before := [logged "a" "r1"]) (lm := logged "c" "r1") (after := [])
         (model_outputs := [{| out_model_id := "a"; step := 3 |}]).
  - reflexivity.
  - reflexivity.
  - reflexivity.
  - reflexivity.
  - reflexivity.
  - intros Hin. apply elem_of_cons in Hin as [Heq|Hin];
      [discriminate Heq|inversion Hin].
  - reflexivity.
  - repeat constructor.
  - reflexivity.
  - unfold answers. simpl. eauto.
  - simpl. lia.
  - reflexivity.
  - simpl. lia.
  - reflexivity.
  - intros x Hx. apply list_elem_of_singleton in Hx as ->.
    eexists. reflexivity.
  - reflexivity.
Defined.

(** Two logged models of the run at the same step: the first one found
    is registered. *)
Lemma register_model_first_of_greatest_witness :
  creates_version
    (register_model 5 "runs:/r1/model" "m" None None None
       (start (without_artifacts run5 [page1; page2]
               ++ version_created (logged "a" "r1"))))
    (Build_State (version_created (logged "a" "r1"))
       [ECall (Ccreate_registered_model "m");
        EEprint "Successfully registered model 'm'.";
        ECall (CRunsArtifactRepository "runs:/r1/model");
        ECall (C_list_run_artifacts "runs:/r1/model");
        ECall (Cget_run "r1");
        ECall (Csearch_logged_models ["e1"] "name = 'model'" None);
        ECall (Csearch_logged_models ["e1"] "name = 'model'" (Some "x"));
        ELogWarning
          "Run with id r1 has no artifacts at artifact path 'model', registering model based on models:/a instead"
          None]
       [] [])
    {| cv_name := "m";
       cv_source := "models:/a";
       cv_run_id := Some "r1";
       cv_tags := None;
       cv_await_creation_for := None;
       cv_local_model_path := None;
       cv_model_id := Some "a" |}.
Proof.
  eapply (register_model_first_of_greatest 5 "runs:/r1/model" "m" None None
            None
            (start (without_artifacts run5 [page1; page2]
                    ++ version_created (logged "a" "r1"))))
    with (pages := [page1]) (last_page := page2) (run := run5)
         (model_outputs := [{| out_model_id := "a"; step := 7 |};
                            {| out_model_id := "c"; step := 7 |}])
         (before := []) (best := logged "a" "r1")
         (after := [logged "c" "r1"]) (best_step := 7).
  - reflexivity.
  - reflexivity.
  - reflexivity.
  - reflexivity.
  - reflexivity.
  - intros Hin. apply elem_of_cons in Hin as [Heq|Hin];
      [discriminate Heq|inversion Hin].
  - reflexivity.
  - repeat constructor.
  - reflexivity.
  - unfold answers. simpl. eauto.
  - simpl. lia.
  - reflexivity.
  - simpl. lia.
  - reflexivity.
  - reflexivity.
  - intros lm Hlm. inversion Hlm.
  - intros lm Hlm. apply list_elem_of_singleton in Hlm as ->.
    exists 7. split; [reflexivity|lia].
  - discriminate.
  - reflexivity.
Defined.

Lemma register_model_packing_fails_witness :
  ∃ st,
    register_model 5 "models:/m1" "m" None None serving
      (start [RRegisteredModel (inr registered_m); RString (inr "/tmp/env");
              RUnit (inl (OtherException "disk full")); RUnit (inr tt)])
    = Raise (OtherException "disk full") st.
Proof.
  eexists. eapply register_model_packing_fails.
  - reflexivity.
  - reflexivity.
  - reflexivity.
  - reflexivity.
  - reflexivity.
  - reflexivity.
Defined.

Lemma register_model_tag_not_a_list_witness :
  ∃ st,
    register_model 5 "models:/m1" "m" None None None
      (start (RRegisteredModel (inr registered_m)
                :: version_created tagged_object))
    = Raise
        (TypeError "unsupported operand type(s) for +: 'dict' and 'list'") st.
Proof.
  eexists.
  change (TypeError "unsupported operand type(s) for +: 'dict' and 'list'")
    with (match json_loads "{}" with
          | inl e => e
          | inr (JStr _) =>
              TypeError ("can only concatenate str (not " +:+ double_quote +:+
                         "list" +:+ double_quote +:+ ") to str")
          | inr loaded =>
              TypeError ("unsupported operand type(s) for +: '" +:+
                         type_name loaded +:+ "' and 'list'")
          end).
  eapply register_model_tag_not_a_list
    with (m := "m1") (mv := version2) (model := tagged_object) (v := "{}").
  - reflexivity.
  - reflexivity.
  - reflexivity.
  - reflexivity.
  - reflexivity.
  - reflexivity.
  - reflexivity.
  - reflexivity.
  - reflexivity.
  - discriminate.
  - intros l Hl. compute in Hl. discriminate Hl.
Defined.

Lemma register_model_staging_fails_witness :
  ∃ st,
    register_model 5 "models:/m1" "m" None None serving
      (start ([RRegisteredModel (inr registered_m); RString (inr "/tmp/env");
               RUnit (inr tt); RUnit (inr tt)]
              ++ version_created tagged
              ++ [RUnit (inl staging_refused)]))
    = Return version2 st.
Proof.
  eexists.
  eapply register_model_staging_fails
    with (m := "m1") (model := tagged) (previous := [noted "m" "1"])
         (e := staging_refused).
  - reflexivity.
  - reflexivity.
  - reflexivity.
  - reflexivity.
  - reflexivity.
  - reflexivity.
  - reflexivity.
  - reflexivity.
  - reflexivity.
  - reflexivity.
  - reflexivity.
  - reflexivity.
Defined.
End RegisterMoreExamples.

Section PromptMoreExamples.
Import Mock Strict.

Lemma load_prompt_without_model_link_witness :
  ∃ s' evs,
    final (load_prompt false "p" (Some (VInt 1)) false false (Some "m1")
             (start [RUnit (inr tt); RPrompt (inr (Some prompt1))]))
    = Some s'
    ∧ events s' = [] ++ evs
    ∧ Forall (λ ev, links_model ev = false) evs.
Proof.
  eexists.
  edestruct (load_prompt_without_model_link false "p" (Some (VInt 1)) false
               (Some "m1")
               (start [RUnit (inr tt); RPrompt (inr (Some prompt1))]))
    as (evs & Hevents & Hall); [reflexivity|].
  exists evs. split; [reflexivity|]. split; [exact Hevents|exact Hall].
Defined.

Lemma load_prompt_run_link_fails_witness :
  ∃ st,
    @load_prompt _ strict_client mock_env false "p" (Some (VInt 1)) false
      true (Some "m1")
      (start [RUnit (inr tt); RPrompt (inr (Some prompt1));
              ROptRun (Some run1); RUnit (inl (OtherException "run is gone"))])
    = Raise (OtherException "run is gone") st.
Proof.
  eexists.
  eapply (@load_prompt_run_link_fails _ strict_client mock_env)
    with (prompt := prompt1) (run := run1).
  - reflexivity.
  - reflexivity.
  - reflexivity.
  - reflexivity.
Defined.

Lemma load_prompt_parse_fails_witness :
  ∃ st,
    @load_prompt _ mock_client strict_env false "prompts:/p/1"
      (Some (VInt 1)) false true (Some "m1")
      (start [RUnit (inr tt); RPrompt (inr (Some prompt1))])
    = Raise
        (MlflowException
           "The `version` argument should not be specified when loading a prompt by URI."
           INVALID_PARAMETER_VALUE) st.
Proof.
  eexists. eapply (@load_prompt_parse_fails _ mock_client strict_env).
  - reflexivity.
  - reflexivity.
  - right. reflexivity.
Defined.
End PromptMoreExamples.
